(** * ClassBookingBE: the booking / session consistency engine

    A shallow embedding of [src/services/session_service.py] and
    [src/services/booking_service.py] (with the schemas of
    [src/schemas/session.py], [src/schemas/booking.py] and
    [src/schemas/class.py]), and the properties of the specification that
    concern them.

    Modelling conventions.
    - A database table is a finite map from the primary key to the row
      ([gmap Z row]); the row records carry the remaining columns.
    - A [datetime] is an integer number of microseconds; [timedelta(hours=h)]
      is [timedelta_hours h].
    - [datetime.utcnow()] is read several times inside one service call.  Each
      call receives a [Clock]: [utcnow k] is the value of the [k]-th reading
      (counted from 0) made by that call.
    - A service method either returns a value together with the committed
      database, or raises.  Every [raise] of the services happens before the
      first attribute assignment, so a raised call leaves the database as it
      was.
    - Python truthiness ([if x:], [x or y], [x and y]) is written out:
      [None], the integer [0] and the empty string are false. *)

From Stdlib Require Import ZArith Ascii String Floats Uint63.
From stdpp Require Import gmap strings list fin_maps sorting.

Open Scope Z_scope.

(** ** Python values *)

(** Truthiness of an [Optional[int]]. *)
Definition truthy_int (x : option Z) : Prop :=
  match x with Some n => n ≠ 0 | None => False end.

(** Truthiness of an [Optional[str]]. *)
Definition truthy_str (x : option string) : Prop :=
  match x with Some s => s ≠ EmptyString | None => False end.

Global Instance truthy_int_dec x : Decision (truthy_int x).
Proof. destruct x; simpl; apply _. Defined.

Global Instance truthy_str_dec x : Decision (truthy_str x).
Proof. destruct x; simpl; apply _. Defined.

(** [x or d] on an [Optional[str]] with a string default. *)
Definition str_or (x : option string) (d : string) : string :=
  match x with
  | Some s => if decide (s = EmptyString) then d else s
  | None => d
  end.

(** [x or y] on two [Optional[str]]. *)
Definition opt_str_or (x y : option string) : option string :=
  if decide (truthy_str x) then x else y.

(** The line feed of the f-strings. *)
Definition nl : string := String "010"%char EmptyString.

(** ** Time *)

Definition datetime := Z.

Definition timedelta_hours (h : Z) : Z := h * 3600 * 1000000.

Definition Clock := nat → datetime.

(** ** Exceptions and results *)

Inductive exn :=
| ValueError (msg : string)
| AttributeError.

Inductive result (A : Type) :=
| Ok (a : A)
| Raise (e : exn).
Arguments Ok {A} a.
Arguments Raise {A} e.

Global Instance exn_eq_dec : EqDecision exn.
Proof. solve_decision. Defined.

(** The failure kinds of the specification, as the exceptions the services
    raise for them. *)
Definition ClassNotFound := ValueError "Class not found".
Definition SchedulingConflict := ValueError "Session conflicts with existing sessions".
Definition UpdateSchedulingConflict :=
  ValueError "Updated session conflicts with existing sessions".
Definition NotFound := ValueError "Session not found".
Definition NotBookable := ValueError "Session is not available for booking".
Definition PastSession := ValueError "Cannot book past sessions".
Definition CapacityExceeded := ValueError "Session is fully booked".
Definition DuplicateBooking := ValueError "User already has a booking for this session".
Definition DeadlinePassed := ValueError "Booking deadline has passed".
Definition UpdateForbidden := ValueError "User can only update their own bookings".
Definition Forbidden := ValueError "User can only cancel their own bookings".
Definition CancelDeadlinePassed := ValueError "Cancellation deadline has passed".
Definition InvalidTransition := ValueError "Only pending bookings can be confirmed".
Definition TooEarly := ValueError "Cannot mark attendance for future sessions".

(** ** Schemas *)

(** [schemas/session.py], [SessionStatus]. *)
Module SessionStatus.
Inductive t := SCHEDULED | ONGOING | COMPLETED | CANCELLED | POSTPONED.
End SessionStatus.

(** [schemas/booking.py], [BookingStatus]. *)
Module BookingStatus.
Inductive t := PENDING | CONFIRMED | CANCELLED | COMPLETED | NO_SHOW.
End BookingStatus.

Global Instance SessionStatus_eq_dec : EqDecision SessionStatus.t.
Proof. solve_decision. Defined.

Global Instance BookingStatus_eq_dec : EqDecision BookingStatus.t.
Proof. solve_decision. Defined.

(** [Booking.status.in_(["PENDING", "CONFIRMED"])]. *)
Definition is_active (st : BookingStatus.t) : Prop :=
  st = BookingStatus.PENDING ∨ st = BookingStatus.CONFIRMED.

(** The terminal states of the specification. *)
Definition is_terminal (st : BookingStatus.t) : Prop :=
  st = BookingStatus.CANCELLED ∨ st = BookingStatus.COMPLETED ∨ st = BookingStatus.NO_SHOW.

(** [SessionModel.status.in_([SessionStatus.SCHEDULED, SessionStatus.ONGOING])]. *)
Definition is_live (st : SessionStatus.t) : Prop :=
  st = SessionStatus.SCHEDULED ∨ st = SessionStatus.ONGOING.

Global Instance is_active_dec st : Decision (is_active st).
Proof. unfold is_active. apply _. Defined.

Global Instance is_terminal_dec st : Decision (is_terminal st).
Proof. unfold is_terminal. apply _. Defined.

Global Instance is_live_dec st : Decision (is_live st).
Proof. unfold is_live. apply _. Defined.

(** [SessionCreate]: the fields of [SessionBase]. *)
Module SessionCreate.
Record t := mk {
  class_id : Z;
  start_time : datetime;
  end_time : datetime;
  location : option string;
  special_notes : option string
}.

(** The pydantic validator [validate_end_time]: construction of the schema
    object raises when [end_time <= start_time]. *)
Definition validate_end_time (d : t) : Prop := start_time d < end_time d.
End SessionCreate.

(** [SessionUpdate].  [dict(exclude_unset=True)] distinguishes a field that was
    not given ([None] here) from a field that was given; a nullable column can
    be given the value [None] ([Some None] here).  The time and status columns
    are mandatory in the data model, so a given value is a proper value. *)
Module SessionUpdate.
Record t := mk {
  start_time : option datetime;
  end_time : option datetime;
  location : option (option string);
  special_notes : option (option string);
  status : option SessionStatus.t
}.

(** The value of the attribute [session_data.location]: an unset field reads
    as its default [None]. *)
Definition location_attr (d : t) : option string := mjoin (location d).
End SessionUpdate.

(** [BookingCreate]: the fields of [BookingBase]. *)
Module BookingCreate.
Record t := mk {
  session_id : Z;
  notes : option string
}.
End BookingCreate.

(** [BookingUpdate], with the same reading of unset fields as [SessionUpdate]. *)
Module BookingUpdate.
Record t := mk {
  status : option BookingStatus.t;
  notes : option (option string);
  admin_notes : option (option string)
}.
End BookingUpdate.

(** [BookingStats]. *)
Module BookingStats.
Record t := mk {
  total_bookings : nat;
  confirmed_bookings : nat;
  cancelled_bookings : nat;
  pending_bookings : nat;
  completion_rate : float;
  no_show_rate : float
}.
End BookingStats.

(** [SessionAttendance]. *)
Module SessionAttendance.
Record t := mk {
  session_id : Z;
  total_bookings : nat;
  attended : nat;
  no_shows : nat;
  attendance_rate : float
}.
End SessionAttendance.

(** [SessionBookingInfo]. *)
Module SessionBookingInfo.
Record t := mk {
  session_id : Z;
  session_title : string;
  start_time : datetime;
  available_spots : Z;
  is_bookable : bool;
  booking_deadline : option datetime
}.
End SessionBookingInfo.

(** ** Database rows

    Modelled from the spec: the row types of [database/models.py], which is not
    part of the sources.  The columns are those of the data model that the
    services read and write; the primary key [id] of a row is its key in the
    table. *)

Module Class.
Record t := mk {
  max_capacity : Z
}.
End Class.

Module SessionModel.
Record t := mk {
  class_id : Z;
  start_time : datetime;
  end_time : datetime;
  location : option string;
  special_notes : option string;
  status : SessionStatus.t;
  created_by : Z;
  updated_at : option datetime
}.

Definition set_start_time (v : datetime) (s : t) : t :=
  mk (class_id s) v (end_time s) (location s) (special_notes s) (status s)
     (created_by s) (updated_at s).
Definition set_end_time (v : datetime) (s : t) : t :=
  mk (class_id s) (start_time s) v (location s) (special_notes s) (status s)
     (created_by s) (updated_at s).
Definition set_location (v : option string) (s : t) : t :=
  mk (class_id s) (start_time s) (end_time s) v (special_notes s) (status s)
     (created_by s) (updated_at s).
Definition set_special_notes (v : option string) (s : t) : t :=
  mk (class_id s) (start_time s) (end_time s) (location s) v (status s)
     (created_by s) (updated_at s).
Definition set_status (v : SessionStatus.t) (s : t) : t :=
  mk (class_id s) (start_time s) (end_time s) (location s) (special_notes s) v
     (created_by s) (updated_at s).
Definition set_updated_at (v : option datetime) (s : t) : t :=
  mk (class_id s) (start_time s) (end_time s) (location s) (special_notes s)
     (status s) (created_by s) v.
End SessionModel.

Module Booking.
Record t := mk {
  user_id : Z;
  session_id : Z;
  notes : option string;
  status : BookingStatus.t;
  booking_date : datetime;
  updated_at : option datetime;
  admin_notes : option string
}.

Definition set_notes (v : option string) (b : t) : t :=
  mk (user_id b) (session_id b) v (status b) (booking_date b) (updated_at b)
     (admin_notes b).
Definition set_status (v : BookingStatus.t) (b : t) : t :=
  mk (user_id b) (session_id b) (notes b) v (booking_date b) (updated_at b)
     (admin_notes b).
Definition set_updated_at (v : option datetime) (b : t) : t :=
  mk (user_id b) (session_id b) (notes b) (status b) (booking_date b) v
     (admin_notes b).
Definition set_admin_notes (v : option string) (b : t) : t :=
  mk (user_id b) (session_id b) (notes b) (status b) (booking_date b)
     (updated_at b) v.
End Booking.

(** ** The entity store *)

Record DB := mkDB {
  classes : gmap Z Class.t;
  sessions : gmap Z SessionModel.t;
  bookings : gmap Z Booking.t
}.

Definition set_sessions (v : gmap Z SessionModel.t) (db : DB) : DB :=
  mkDB (classes db) v (bookings db).

Definition set_bookings (v : gmap Z Booking.t) (db : DB) : DB :=
  mkDB (classes db) (sessions db) v.

(** Modelled from the spec: the primary key the entity store gives to a new
    row (the store is a collaborator outside the sources).  The properties use
    only that the new key is not the key of a stored row and is not 0; here it
    is one more than the largest key of the table, counted from 0. *)
Definition fresh_id {A} (m : gmap Z A) : Z :=
  1 + foldr Z.max 0 (map_to_list m).*1.

(** [query.first()]: some row of the result, [None] when there is none. *)
Definition first {A} (m : gmap Z A) : option (Z * A) := head (map_to_list m).

(** [query.all()]: the rows of the result. *)
Definition all {A} (m : gmap Z A) : list (Z * A) := map_to_list m.

(** [for field, value in update_data.items(): setattr(obj, field, value)] for
    one field of the patch: a field that was not given is left as it is. *)
Definition setattr_opt {A B} (set : A → B → B) (v : option A) : B → B :=
  match v with Some a => set a | None => id end.

(** ** [services/session_service.py] *)

Module SessionService.

Definition get_session (db : DB) (session_id : Z) : option SessionModel.t :=
  sessions db !! session_id.

(** The filter of [get_session_booking_count] on one row of [Booking]. *)
Definition counted (session_id : Z) (r : Z * Booking.t) : Prop :=
  Booking.session_id r.2 = session_id ∧ is_active (Booking.status r.2).

Definition get_session_booking_count (db : DB) (session_id : Z) : Z :=
  Z.of_nat (size (filter (counted session_id) (bookings db))).

(** The [or_(and_(..), and_(..), and_(..))] clause of
    [check_scheduling_conflicts] on one stored session. *)
Definition time_clause (start_time end_time : datetime) (s : SessionModel.t) : Prop :=
  (SessionModel.start_time s ≤ start_time ∧ start_time < SessionModel.end_time s)
  ∨ (SessionModel.start_time s < end_time ∧ end_time ≤ SessionModel.end_time s)
  ∨ (start_time ≤ SessionModel.start_time s ∧ SessionModel.end_time s ≤ end_time).

(** The whole filter of [check_scheduling_conflicts] on one row: the two
    unconditional criteria, then the two filters added under [if location:]
    and [if exclude_session_id:].  In SQL a row whose location is NULL does
    not satisfy [location == 'x']. *)
Definition conflicting (start_time end_time : datetime) (location : option string)
    (exclude_session_id : option Z) (r : Z * SessionModel.t) : Prop :=
  is_live (SessionModel.status r.2)
  ∧ time_clause start_time end_time r.2
  ∧ (truthy_str location → SessionModel.location r.2 = location)
  ∧ (truthy_int exclude_session_id → Some r.1 ≠ exclude_session_id).

Global Instance time_clause_dec a b s : Decision (time_clause a b s).
Proof. unfold time_clause. apply _. Defined.

Global Instance counted_dec sid r : Decision (counted sid r).
Proof. unfold counted. apply _. Defined.

Global Instance conflicting_dec a b l e r : Decision (conflicting a b l e r).
Proof. unfold conflicting. apply _. Defined.

Definition check_scheduling_conflicts (db : DB) (start_time end_time : datetime)
    (location : option string) (exclude_session_id : option Z)
    : list (Z * SessionModel.t) :=
  all (filter (conflicting start_time end_time location exclude_session_id)
              (sessions db)).

Definition create_session (db : DB) (session_data : SessionCreate.t) (created_by : Z)
    : result (Z * SessionModel.t * DB) :=
  match classes db !! SessionCreate.class_id session_data with
  | None => Raise ClassNotFound
  | Some class_obj =>
    match check_scheduling_conflicts db
            (SessionCreate.start_time session_data)
            (SessionCreate.end_time session_data)
            (SessionCreate.location session_data) None with
    | _ :: _ => Raise SchedulingConflict
    | [] =>
      let db_session :=
        SessionModel.mk
          (SessionCreate.class_id session_data)
          (SessionCreate.start_time session_data)
          (SessionCreate.end_time session_data)
          (SessionCreate.location session_data)
          (SessionCreate.special_notes session_data)
          SessionStatus.SCHEDULED
          created_by
          None in
      let id := fresh_id (sessions db) in
      Ok (id, db_session, set_sessions (<[id := db_session]> (sessions db)) db)
    end
  end.

(** The loop over [update_data.items()] of [update_session]. *)
Definition apply_update (session_data : SessionUpdate.t) (session : SessionModel.t)
    : SessionModel.t :=
  setattr_opt SessionModel.set_status (SessionUpdate.status session_data)
    (setattr_opt SessionModel.set_special_notes (SessionUpdate.special_notes session_data)
      (setattr_opt SessionModel.set_location (SessionUpdate.location session_data)
        (setattr_opt SessionModel.set_end_time (SessionUpdate.end_time session_data)
          (setattr_opt SessionModel.set_start_time (SessionUpdate.start_time session_data)
             session)))).

Definition update_session (db : DB) (utcnow : Clock) (session_id : Z)
    (session_data : SessionUpdate.t) : result (option SessionModel.t * DB) :=
  match get_session db session_id with
  | None => Ok (None, db)
  | Some session =>
    let conflicts :=
      if decide (is_Some (SessionUpdate.start_time session_data)
                 ∨ is_Some (SessionUpdate.end_time session_data))
      then
        let start_time :=
          default (SessionModel.start_time session) (SessionUpdate.start_time session_data) in
        let end_time :=
          default (SessionModel.end_time session) (SessionUpdate.end_time session_data) in
        check_scheduling_conflicts db start_time end_time
          (opt_str_or (SessionUpdate.location_attr session_data)
                      (SessionModel.location session))
          (Some session_id)
      else [] in
    match conflicts with
    | _ :: _ => Raise UpdateSchedulingConflict
    | [] =>
      let session' :=
        SessionModel.set_updated_at (Some (utcnow 0%nat))
          (apply_update session_data session) in
      Ok (Some session', set_sessions (<[session_id := session']> (sessions db)) db)
    end
  end.

(** The filter of the cascade of [cancel_session] on one row of [Booking]. *)
Definition to_cancel (session_id : Z) (r : Z * Booking.t) : Prop :=
  Booking.session_id r.2 = session_id ∧ is_active (Booking.status r.2).

Global Instance to_cancel_dec sid r : Decision (to_cancel sid r).
Proof. unfold to_cancel. apply _. Defined.

(** [for booking in bookings: booking.status = "CANCELLED";
    booking.updated_at = datetime.utcnow()], the loop starting at the [k]-th
    reading of the clock. *)
Fixpoint cancel_each (utcnow : Clock) (k : nat) (rows : list (Z * Booking.t))
    (tbl : gmap Z Booking.t) : gmap Z Booking.t :=
  match rows with
  | [] => tbl
  | (i, booking) :: rest =>
    cancel_each utcnow (S k) rest
      (<[i := Booking.set_updated_at (Some (utcnow k))
                (Booking.set_status BookingStatus.CANCELLED booking)]> tbl)
  end.

Definition cancel_session (db : DB) (utcnow : Clock) (session_id : Z)
    (reason : option string) : bool * DB :=
  match get_session db session_id with
  | None => (false, db)
  | Some session =>
    let session' :=
      SessionModel.set_updated_at (Some (utcnow 0%nat))
        (SessionModel.set_special_notes
           (Some (str_or (SessionModel.special_notes session) "" +:+ nl
                  +:+ "Cancelled: " +:+ str_or reason "No reason provided"))
           (SessionModel.set_status SessionStatus.CANCELLED session)) in
    let bookings' :=
      cancel_each utcnow 1 (all (filter (to_cancel session_id) (bookings db)))
        (bookings db) in
    (true, mkDB (classes db) (<[session_id := session']> (sessions db)) bookings')
  end.

Definition mark_session_completed (db : DB) (utcnow : Clock) (session_id : Z)
    : bool * DB :=
  match get_session db session_id with
  | None => (false, db)
  | Some session =>
    let session' :=
      SessionModel.set_updated_at (Some (utcnow 0%nat))
        (SessionModel.set_status SessionStatus.COMPLETED session) in
    (true, set_sessions (<[session_id := session']> (sessions db)) db)
  end.

(** The filter of [get_sessions_by_class] on one row; the clock is read only
    when [include_past] is false. *)
Definition of_class (utcnow : Clock) (class_id : Z) (include_past : bool)
    (r : Z * SessionModel.t) : Prop :=
  SessionModel.class_id r.2 = class_id
  ∧ (include_past = false → utcnow 0%nat < SessionModel.start_time r.2).

Global Instance of_class_dec u c p r : Decision (of_class u c p r).
Proof. unfold of_class. apply _. Defined.

(** [order_by(SessionModel.start_time)].  The database chooses the order of
    rows with equal start times; the model fixes the one of a merge sort. *)
Definition by_start_time (r1 r2 : Z * SessionModel.t) : Prop :=
  SessionModel.start_time r1.2 ≤ SessionModel.start_time r2.2.

Global Instance by_start_time_dec r1 r2 : Decision (by_start_time r1 r2).
Proof. unfold by_start_time. apply _. Defined.

Definition get_sessions_by_class (db : DB) (utcnow : Clock) (class_id : Z)
    (include_past : bool) : list (Z * SessionModel.t) :=
  merge_sort by_start_time
    (all (filter (of_class utcnow class_id include_past) (sessions db))).

(** The conversion of a row count to a float, as in [total / n * 100]. *)
Definition float_of_len (n : nat) : float :=
  PrimFloat.of_uint63 (Uint63.of_Z (Z.of_nat n)).

Definition get_session_attendance (db : DB) (session_id : Z)
    : option SessionAttendance.t :=
  match get_session db session_id with
  | None => None
  | Some session =>
    let bookings := all (filter (λ r, Booking.session_id r.2 = session_id) (bookings db)) in
    let total_bookings := length bookings in
    let attended :=
      length (filter (λ r, Booking.status r.2 = BookingStatus.COMPLETED) bookings) in
    let no_shows :=
      length (filter (λ r, Booking.status r.2 = BookingStatus.NO_SHOW) bookings) in
    let attendance_rate :=
      if decide (0 < total_bookings)%nat
      then (float_of_len attended / float_of_len total_bookings * 100)%float
      else 0%float in
    Some (SessionAttendance.mk session_id total_bookings attended no_shows
            attendance_rate)
  end.

(** The filter of [get_upcoming_sessions] on one row. *)
Definition upcoming (now : datetime) (r : Z * SessionModel.t) : Prop :=
  now < SessionModel.start_time r.2
  ∧ SessionModel.status r.2 = SessionStatus.SCHEDULED.

Global Instance upcoming_dec now r : Decision (upcoming now r).
Proof. unfold upcoming. apply _. Defined.

(** [.join(Class)]: the rows whose class is stored, each with its class. *)
Definition join_class (db : DB) (rows : list (Z * SessionModel.t))
    : list (Z * SessionModel.t * Class.t) :=
  omap (λ r, class_obj ← classes db !! SessionModel.class_id r.2; Some (r, class_obj))
       rows.

Section session_titles.

(** The [name] column of [Class], by key, and
    [start_time.strftime('%Y-%m-%d %H:%M')]: the column is not read by any
    other service and the formatting is the library's. *)
Variable class_name : Z → string.
Variable strftime : datetime → string.

(** The body of the loop of [get_upcoming_sessions] for one joined row. *)
Definition booking_info (db : DB) (now : datetime)
    (row : Z * SessionModel.t * Class.t) : SessionBookingInfo.t :=
  let '(id, session, class_obj) := row in
  let current_bookings := get_session_booking_count db id in
  let available_spots := Class.max_capacity class_obj - current_bookings in
  let booking_deadline := SessionModel.start_time session - timedelta_hours 2 in
  let is_bookable := bool_decide (now < booking_deadline ∧ 0 < available_spots) in
  SessionBookingInfo.mk id
    (class_name (SessionModel.class_id session) +:+ " - "
     +:+ strftime (SessionModel.start_time session))
    (SessionModel.start_time session) available_spots is_bookable
    (Some booking_deadline).

(** [limit] is a row count: the database refuses a negative one. *)
Definition get_upcoming_sessions (db : DB) (utcnow : Clock) (limit : nat)
    : list SessionBookingInfo.t :=
  let now := utcnow 0%nat in
  let sessions :=
    take limit
      (merge_sort (λ a b, by_start_time a.1 b.1)
         (join_class db (all (filter (upcoming now) (sessions db))))) in
  booking_info db now <$> sessions.

End session_titles.

End SessionService.

(** ** [services/booking_service.py] *)

Module BookingService.

Definition get_booking (db : DB) (booking_id : Z) : option Booking.t :=
  bookings db !! booking_id.

(** The filter of [get_session_booking_count] on one row of [Booking]. *)
Definition counted (session_id : Z) (r : Z * Booking.t) : Prop :=
  Booking.session_id r.2 = session_id ∧ is_active (Booking.status r.2).

Global Instance counted_dec sid r : Decision (counted sid r).
Proof. unfold counted. apply _. Defined.

Definition get_session_booking_count (db : DB) (session_id : Z) : Z :=
  Z.of_nat (size (filter (counted session_id) (bookings db))).

(** The filter of the [existing_booking] query of [create_booking]. *)
Definition existing (user_id session_id : Z) (r : Z * Booking.t) : Prop :=
  Booking.user_id r.2 = user_id
  ∧ Booking.session_id r.2 = session_id
  ∧ is_active (Booking.status r.2).

Global Instance existing_dec uid sid r : Decision (existing uid sid r).
Proof. unfold existing. apply _. Defined.

Definition create_booking (db : DB) (utcnow : Clock) (booking_data : BookingCreate.t)
    (user_id : Z) : result (Z * Booking.t * DB) :=
  let session_id := BookingCreate.session_id booking_data in
  match sessions db !! session_id with
  | None => Raise NotFound
  | Some session =>
    if decide (SessionModel.status session ≠ SessionStatus.SCHEDULED) then Raise NotBookable
    else if decide (SessionModel.start_time session ≤ utcnow 0%nat) then Raise PastSession
    else
      let current_bookings := get_session_booking_count db session_id in
      match classes db !! SessionModel.class_id session with
      | None => Raise AttributeError
      | Some class_obj =>
        if decide (Class.max_capacity class_obj ≤ current_bookings)
        then Raise CapacityExceeded
        else
          match first (filter (existing user_id session_id) (bookings db)) with
          | Some _ => Raise DuplicateBooking
          | None =>
            let booking_deadline :=
              SessionModel.start_time session - timedelta_hours 2 in
            if decide (booking_deadline < utcnow 1%nat) then Raise DeadlinePassed
            else
              let db_booking :=
                Booking.mk user_id session_id (BookingCreate.notes booking_data)
                  BookingStatus.PENDING (utcnow 2%nat) None None in
              let id := fresh_id (bookings db) in
              Ok (id, db_booking, set_bookings (<[id := db_booking]> (bookings db)) db)
          end
      end
  end.

(** The loop over [update_data.items()] of [update_booking]. *)
Definition apply_update (booking_data : BookingUpdate.t) (booking : Booking.t)
    : Booking.t :=
  setattr_opt Booking.set_admin_notes (BookingUpdate.admin_notes booking_data)
    (setattr_opt Booking.set_notes (BookingUpdate.notes booking_data)
      (setattr_opt Booking.set_status (BookingUpdate.status booking_data) booking)).

(** [user_id and booking.user_id != user_id]. *)
Definition not_owner (user_id : option Z) (booking : Booking.t) : Prop :=
  truthy_int user_id ∧ Some (Booking.user_id booking) ≠ user_id.

Global Instance not_owner_dec u b : Decision (not_owner u b).
Proof. unfold not_owner. apply _. Defined.

Definition update_booking (db : DB) (utcnow : Clock) (booking_id : Z)
    (booking_data : BookingUpdate.t) (user_id : option Z)
    : result (option Booking.t * DB) :=
  match get_booking db booking_id with
  | None => Ok (None, db)
  | Some booking =>
    if decide (not_owner user_id booking) then Raise UpdateForbidden
    else
      let booking' :=
        Booking.set_updated_at (Some (utcnow 0%nat))
          (apply_update booking_data booking) in
      Ok (Some booking', set_bookings (<[booking_id := booking']> (bookings db)) db)
  end.

Definition cancel_booking (db : DB) (utcnow : Clock) (booking_id : Z)
    (user_id : option Z) (reason : option string) : result (bool * DB) :=
  match get_booking db booking_id with
  | None => Ok (false, db)
  | Some booking =>
    if decide (not_owner user_id booking) then Raise Forbidden
    else
      match sessions db !! Booking.session_id booking with
      | None => Raise AttributeError
      | Some session =>
        let cancellation_deadline :=
          SessionModel.start_time session - timedelta_hours 4 in
        if decide (cancellation_deadline < utcnow 0%nat ∧ truthy_int user_id)
        then Raise CancelDeadlinePassed
        else
          let booking1 :=
            Booking.set_updated_at (Some (utcnow 1%nat))
              (Booking.set_status BookingStatus.CANCELLED booking) in
          let booking2 :=
            if decide (truthy_str reason)
            then Booking.set_admin_notes
                   (Some (str_or (Booking.admin_notes booking1) "" +:+ nl
                          +:+ "Cancellation reason: " +:+ default "" reason))
                   booking1
            else booking1 in
          Ok (true, set_bookings (<[booking_id := booking2]> (bookings db)) db)
      end
  end.

Definition confirm_booking (db : DB) (utcnow : Clock) (booking_id : Z)
    : result (bool * DB) :=
  match get_booking db booking_id with
  | None => Ok (false, db)
  | Some booking =>
    if decide (Booking.status booking ≠ BookingStatus.PENDING) then Raise InvalidTransition
    else
      let booking' :=
        Booking.set_updated_at (Some (utcnow 0%nat))
          (Booking.set_status BookingStatus.CONFIRMED booking) in
      Ok (true, set_bookings (<[booking_id := booking']> (bookings db)) db)
  end.

Definition mark_attendance (db : DB) (utcnow : Clock) (booking_id : Z)
    (attended : bool) : result (bool * DB) :=
  match get_booking db booking_id with
  | None => Ok (false, db)
  | Some booking =>
    match sessions db !! Booking.session_id booking with
    | None => Raise AttributeError
    | Some session =>
      if decide (utcnow 0%nat < SessionModel.start_time session) then Raise TooEarly
      else
        let booking' :=
          Booking.set_updated_at (Some (utcnow 1%nat))
            (Booking.set_status
               (if attended then BookingStatus.COMPLETED else BookingStatus.NO_SHOW)
               booking) in
        Ok (true, set_bookings (<[booking_id := booking']> (bookings db)) db)
    end
  end.

(** The two optional filters of [get_booking_stats] on one row. *)
Definition in_range (start_date end_date : option datetime) (r : Z * Booking.t) : Prop :=
  from_option (λ d, d ≤ Booking.booking_date r.2) True start_date
  ∧ from_option (λ d, Booking.booking_date r.2 ≤ d) True end_date.

Global Instance in_range_dec s e r : Decision (in_range s e r).
Proof. unfold in_range. destruct s, e; simpl; apply _. Defined.

(** [len([b for b in bookings if b.status == st])]. *)
Definition count_status (st : BookingStatus.t) (rows : list (Z * Booking.t)) : nat :=
  length (filter (λ r, Booking.status r.2 = st) rows).

(** The conversion of a row count to a float.  For counts below [2^53], the
    true division [a / b] of two Python integers is the IEEE division of the
    converted operands. *)
Definition float_of_count (n : nat) : float :=
  PrimFloat.of_uint63 (Uint63.of_Z (Z.of_nat n)).

(** [(n / total * 100) if total > 0 else 0]; the integer [0] of the [else]
    branch is stored in a [float] field of [BookingStats]. *)
Definition rate (n total : nat) : float :=
  if decide (0 < total)%nat
  then (float_of_count n / float_of_count total * 100)%float
  else 0%float.

Definition get_booking_stats (db : DB) (start_date end_date : option datetime)
    : BookingStats.t :=
  let bookings := all (filter (in_range start_date end_date) (bookings db)) in
  let total_bookings := length bookings in
  let confirmed_bookings := count_status BookingStatus.CONFIRMED bookings in
  let cancelled_bookings := count_status BookingStatus.CANCELLED bookings in
  let pending_bookings := count_status BookingStatus.PENDING bookings in
  let completed_bookings := count_status BookingStatus.COMPLETED bookings in
  let no_shows := count_status BookingStatus.NO_SHOW bookings in
  let completion_rate := rate completed_bookings total_bookings in
  let no_show_rate := rate no_shows total_bookings in
  BookingStats.mk total_bookings confirmed_bookings cancelled_bookings
    pending_bookings completion_rate no_show_rate.

(** The filter of [check_booking_conflicts] on one row of [Booking] joined with
    its session: another session of the same user, actively booked, whose
    times meet the [or_] clause against the target [session]. *)
Definition conflicting_booking (db : DB) (user_id session_id : Z)
    (session : SessionModel.t) (r : Z * Booking.t) : Prop :=
  Booking.user_id r.2 = user_id
  ∧ is_active (Booking.status r.2)
  ∧ Booking.session_id r.2 ≠ session_id
  ∧ match sessions db !! Booking.session_id r.2 with
    | None => False
    | Some other =>
      SessionService.time_clause (SessionModel.start_time session)
        (SessionModel.end_time session) other
    end.

Global Instance conflicting_booking_dec db u i s r :
  Decision (conflicting_booking db u i s r).
Proof.
  unfold conflicting_booking.
  destruct (sessions db !! Booking.session_id r.2); apply _.
Defined.

Definition check_booking_conflicts (db : DB) (user_id session_id : Z) : bool :=
  match sessions db !! session_id with
  | None => false
  | Some session =>
    match first (filter (conflicting_booking db user_id session_id session)
                        (bookings db)) with
    | Some _ => true
    | None => false
    end
  end.

End BookingService.

(** ** Sequences of operations

    The mutating public operations of the Session Scheduler and of the Booking
    Engine, and the database a sequence of calls leaves behind.  A call that
    raises commits nothing. *)

Inductive Op :=
| CreateSession (session_data : SessionCreate.t) (created_by : Z)
| UpdateSession (session_id : Z) (session_data : SessionUpdate.t)
| CancelSession (session_id : Z) (reason : option string)
| MarkSessionCompleted (session_id : Z)
| CreateBooking (booking_data : BookingCreate.t) (user_id : Z)
| UpdateBooking (booking_id : Z) (booking_data : BookingUpdate.t) (user_id : option Z)
| CancelBooking (booking_id : Z) (user_id : option Z) (reason : option string)
| ConfirmBooking (booking_id : Z)
| MarkAttendance (booking_id : Z) (attended : bool).

(** The database after a call that returned [r], [db] when it raised. *)
Definition committed {A} (db : DB) (r : result (A * DB)) : DB :=
  match r with Ok (_, db') => db' | Raise _ => db end.

Definition step (db : DB) (utcnow : Clock) (op : Op) : DB :=
  match op with
  | CreateSession d u => committed db (SessionService.create_session db d u)
  | UpdateSession i d => committed db (SessionService.update_session db utcnow i d)
  | CancelSession i r => (SessionService.cancel_session db utcnow i r).2
  | MarkSessionCompleted i => (SessionService.mark_session_completed db utcnow i).2
  | CreateBooking d u => committed db (BookingService.create_booking db utcnow d u)
  | UpdateBooking i d u => committed db (BookingService.update_booking db utcnow i d u)
  | CancelBooking i u r => committed db (BookingService.cancel_booking db utcnow i u r)
  | ConfirmBooking i => committed db (BookingService.confirm_booking db utcnow i)
  | MarkAttendance i a => committed db (BookingService.mark_attendance db utcnow i a)
  end.

Fixpoint run (db : DB) (calls : list (Clock * Op)) : DB :=
  match calls with
  | [] => db
  | (utcnow, op) :: rest => run (step db utcnow op) rest
  end.

(** ** [auth.py]: password validation *)

(** The exceptions of the user service: [ValueError], the
    [PasswordValidationError] of [auth.py], and an exception raised inside
    [pwd_context.hash]. *)
Inductive user_exn :=
| UserValueError (msg : string)
| PasswordValidationError (msg : string)
| HashingError (msg : string).

Inductive outcome (A : Type) :=
| Return (a : A)
| Raised (e : user_exn).
Arguments Return {A} a.
Arguments Raised {A} e.

Global Instance user_exn_eq_dec : EqDecision user_exn.
Proof. solve_decision. Defined.

(** A [str] whose characters are inspected: the list of its code points, so
    that [len] is the length of the list. *)
Definition text := list Z.

(** The text of a string of ASCII characters. *)
Definition code_points (s : string) : text :=
  (λ c, Z.of_nat (nat_of_ascii c)) <$> list_ascii_of_string s.

(** The Unicode database of the runtime: [decimal c] says that the code point
    [c] is a decimal digit (category Nd), which is what [\d] matches in a
    [str] pattern. *)
Class UnicodeData := { decimal : Z → bool }.

(** What a call of [pwd_context.hash] gives: a salted hash, or an exception of
    the library. *)
Inductive hash_outcome :=
| Hashed (hashed_password : string)
| HashRaised (msg : string).

Module Auth.

(** [settings.MIN_PASSWORD_LENGTH] of [config.py]. *)
Definition MIN_PASSWORD_LENGTH : nat := 8.

(** [re.search(r'[A-Z]', s)] and [re.search(r'[a-z]', s)] look for a code point
    in the range A-Z or a-z; [re.search(r'\d', s)] looks for a decimal digit of
    the Unicode database. *)
Definition in_range (lo hi : Z) (c : Z) : bool := (lo <=? c) && (c <=? hi).

Definition search_upper (s : text) : bool := existsb (in_range 65 90) s.
Definition search_lower (s : text) : bool := existsb (in_range 97 122) s.
Definition search_digit `{UnicodeData} (s : text) : bool := existsb decimal s.

Definition validate_password `{UnicodeData} (password : text) : outcome bool :=
  if decide (length password < MIN_PASSWORD_LENGTH)%nat
  then Raised (PasswordValidationError "Password must be at least 8 characters long")
  else if negb (search_upper password)
  then Raised (PasswordValidationError
                 "Password must contain at least one uppercase letter")
  else if negb (search_lower password)
  then Raised (PasswordValidationError
                 "Password must contain at least one lowercase letter")
  else if negb (search_digit password)
  then Raised (PasswordValidationError "Password must contain at least one digit")
  else Return true.

(** [get_password_hash]: the validation, then [pwd_context.hash(password)],
    whose outcome [hashing] is given with the call. *)
Definition get_password_hash `{UnicodeData} (hashing : hash_outcome)
    (password : text) : outcome string :=
  match validate_password password with
  | Raised e => Raised e
  | Return _ =>
    match hashing with
    | Hashed hashed_password => Return hashed_password
    | HashRaised msg => Raised (HashingError msg)
    end
  end.

End Auth.

(** ** [schemas/user.py] *)

Module UserRole.
Inductive t := STUDENT | ADMIN.

(** The string value of the enumeration member; [.upper()] leaves it as it
    is. *)
Definition value (r : t) : string :=
  match r with STUDENT => "STUDENT" | ADMIN => "ADMIN" end.
End UserRole.

Module UserCreate.
Record t := mk {
  email : string;
  name : string;
  role : UserRole.t;
  password : text;
  confirm_password : text
}.

(** The validator [validate_password] of the schema: the four checks, each
    raising [ValueError]; the value is returned as it is. *)
Definition validate_password `{UnicodeData} (v : text) : outcome text :=
  if decide (length v < 8)%nat
  then Raised (UserValueError "Password must be at least 8 characters long")
  else if negb (Auth.search_upper v)
  then Raised (UserValueError "Password must contain at least one uppercase letter")
  else if negb (Auth.search_lower v)
  then Raised (UserValueError "Password must contain at least one lowercase letter")
  else if negb (Auth.search_digit v)
  then Raised (UserValueError "Password must contain at least one digit")
  else Return v.

(** The validator [passwords_match], run after the password was accepted. *)
Definition passwords_match (v password : text) : outcome text :=
  if decide (v ≠ password)
  then Raised (UserValueError "Passwords do not match")
  else Return v.
End UserCreate.

(** [PasswordChange]. *)
Module PasswordChange.
Record t := mk {
  current_password : text;
  new_password : text;
  confirm_new_password : text
}.

(** The validator [validate_new_password]. *)
Definition validate_new_password `{UnicodeData} (v : text) : outcome text :=
  if decide (length v < 8)%nat
  then Raised (UserValueError "Password must be at least 8 characters long")
  else if negb (Auth.search_upper v)
  then Raised (UserValueError "Password must contain at least one uppercase letter")
  else if negb (Auth.search_lower v)
  then Raised (UserValueError "Password must contain at least one lowercase letter")
  else if negb (Auth.search_digit v)
  then Raised (UserValueError "Password must contain at least one digit")
  else Return v.
End PasswordChange.

(** [UserUpdate], with the reading of unset fields of [SessionUpdate]; the four
    columns are mandatory, so a given value is a proper value. *)
Module UserUpdate.
Record t := mk {
  name : option string;
  email : option string;
  role : option UserRole.t;
  is_active : option bool
}.
End UserUpdate.

(** ** The users table

    The columns of [migrations/001_initial_migration.py]. *)
Module User.
Record t := mk {
  email : string;
  name : string;
  password_hash : string;
  role : string;
  is_active : bool;
  created_at : datetime;
  updated_at : option datetime;
  last_login : option datetime;
  failed_login_attempts : Z
}.

Definition set_email (v : string) (u : t) : t :=
  mk v (name u) (password_hash u) (role u) (is_active u) (created_at u)
     (updated_at u) (last_login u) (failed_login_attempts u).
Definition set_name (v : string) (u : t) : t :=
  mk (email u) v (password_hash u) (role u) (is_active u) (created_at u)
     (updated_at u) (last_login u) (failed_login_attempts u).
Definition set_role (v : string) (u : t) : t :=
  mk (email u) (name u) (password_hash u) v (is_active u) (created_at u)
     (updated_at u) (last_login u) (failed_login_attempts u).
Definition set_is_active (v : bool) (u : t) : t :=
  mk (email u) (name u) (password_hash u) (role u) v (created_at u)
     (updated_at u) (last_login u) (failed_login_attempts u).
Definition set_updated_at (v : option datetime) (u : t) : t :=
  mk (email u) (name u) (password_hash u) (role u) (is_active u) (created_at u)
     v (last_login u) (failed_login_attempts u).
Definition set_last_login (v : option datetime) (u : t) : t :=
  mk (email u) (name u) (password_hash u) (role u) (is_active u) (created_at u)
     (updated_at u) v (failed_login_attempts u).
End User.

(** The entity store with its users table. *)
Record Store := mkStore {
  users : gmap Z User.t;
  tables : DB
}.

Definition set_users (v : gmap Z User.t) (st : Store) : Store :=
  mkStore v (tables st).

(** ** [services/user_service.py] *)

Module UserService.

Definition get_user (st : Store) (user_id : Z) : option User.t :=
  users st !! user_id.

Definition get_user_by_email (st : Store) (email : string) : option (Z * User.t) :=
  first (filter (λ r, User.email r.2 = email) (users st)).

(** [created_at] is the value the column default [now()] gives to the new
    row, [hashing] the outcome of [pwd_context.hash]. *)
Definition create_user `{UnicodeData} (st : Store) (created_at : datetime)
    (hashing : hash_outcome) (user_data : UserCreate.t)
    : outcome (Z * User.t * Store) :=
  match get_user_by_email st (UserCreate.email user_data) with
  | Some _ => Raised (UserValueError "User with this email already exists")
  | None =>
    match Auth.get_password_hash hashing (UserCreate.password user_data) with
    | Raised e => Raised e
    | Return hashed_password =>
      let db_user :=
        User.mk (UserCreate.email user_data) (UserCreate.name user_data)
          hashed_password (UserRole.value (UserCreate.role user_data)) true
          created_at None None 0 in
      let id := fresh_id (users st) in
      Return (id, db_user, set_users (<[id := db_user]> (users st)) st)
    end
  end.

(** The loop over [update_data.items()] of [update_user]. *)
Definition apply_update (user_data : UserUpdate.t) (user : User.t) : User.t :=
  setattr_opt User.set_is_active (UserUpdate.is_active user_data)
    (setattr_opt User.set_role (UserRole.value <$> UserUpdate.role user_data)
      (setattr_opt User.set_email (UserUpdate.email user_data)
        (setattr_opt User.set_name (UserUpdate.name user_data) user))).

(** [user_data.email and user_data.email != user.email]. *)
Definition changes_email (user_data : UserUpdate.t) (user : User.t) : Prop :=
  truthy_str (UserUpdate.email user_data)
  ∧ UserUpdate.email user_data ≠ Some (User.email user).

Global Instance changes_email_dec d u : Decision (changes_email d u).
Proof. unfold changes_email. apply _. Defined.

Definition update_user (st : Store) (utcnow : Clock) (user_id : Z)
    (user_data : UserUpdate.t) : outcome (option User.t * Store) :=
  match get_user st user_id with
  | None => Return (None, st)
  | Some user =>
    let taken :=
      if decide (changes_email user_data user)
      then get_user_by_email st (default "" (UserUpdate.email user_data))
      else None in
    match taken with
    | Some _ => Raised (UserValueError "Email already in use by another user")
    | None =>
      let user' :=
        User.set_updated_at (Some (utcnow 0%nat)) (apply_update user_data user) in
      Return (Some user', set_users (<[user_id := user']> (users st)) st)
    end
  end.

Definition activate_user (st : Store) (utcnow : Clock) (user_id : Z) : bool * Store :=
  match get_user st user_id with
  | None => (false, st)
  | Some user =>
    let user' :=
      User.set_updated_at (Some (utcnow 0%nat)) (User.set_is_active true user) in
    (true, set_users (<[user_id := user']> (users st)) st)
  end.

(** The filter of the [future_bookings] query of [deactivate_user] on one row
    of [Booking] joined with its session. *)
Definition future_booking (db : DB) (now : datetime) (user_id : Z)
    (r : Z * Booking.t) : Prop :=
  Booking.user_id r.2 = user_id
  ∧ match sessions db !! Booking.session_id r.2 with
    | None => False
    | Some session => now < SessionModel.start_time session
    end
  ∧ is_active (Booking.status r.2).

Global Instance future_booking_dec db now u r : Decision (future_booking db now u r).
Proof.
  unfold future_booking. destruct (sessions db !! Booking.session_id r.2); apply _.
Defined.

Definition deactivate_user (st : Store) (utcnow : Clock) (user_id : Z) : bool * Store :=
  match get_user st user_id with
  | None => (false, st)
  | Some user =>
    let user' :=
      User.set_updated_at (Some (utcnow 0%nat)) (User.set_is_active false user) in
    let db := tables st in
    let future_bookings :=
      all (filter (future_booking db (utcnow 1%nat) user_id) (bookings db)) in
    let bookings' :=
      SessionService.cancel_each utcnow 2 future_bookings (bookings db) in
    (true, mkStore (<[user_id := user']> (users st)) (set_bookings bookings' db))
  end.

Definition promote_to_admin (st : Store) (utcnow : Clock) (user_id : Z)
    : bool * Store :=
  match get_user st user_id with
  | None => (false, st)
  | Some user =>
    let user' :=
      User.set_updated_at (Some (utcnow 0%nat))
        (User.set_role (UserRole.value UserRole.ADMIN) user) in
    (true, set_users (<[user_id := user']> (users st)) st)
  end.

Definition demote_from_admin (st : Store) (utcnow : Clock) (user_id : Z)
    : bool * Store :=
  match get_user st user_id with
  | None => (false, st)
  | Some user =>
    let user' :=
      User.set_updated_at (Some (utcnow 0%nat))
        (User.set_role (UserRole.value UserRole.STUDENT) user) in
    (true, set_users (<[user_id := user']> (users st)) st)
  end.

(** [get_admin_users]. *)
Definition get_admin_users (st : Store) : list (Z * User.t) :=
  all (filter (λ r, User.role r.2 = UserRole.value UserRole.ADMIN
                    ∧ User.is_active r.2 = true) (users st)).

End UserService.

(** ** Predicates of the specification *)

(** The derived capacity invariant: for every session, the number of its
    active bookings is at most the capacity of its class. *)
Definition capacity_ok (db : DB) : Prop :=
  ∀ sid s c,
    sessions db !! sid = Some s →
    classes db !! SessionModel.class_id s = Some c →
    BookingService.get_session_booking_count db sid ≤ Class.max_capacity c.

(** The constraints of the data model the services rely on: a booking refers
    to a stored session, a session to a stored class, and the capacity of a
    class is at least 1 ([ClassBase.max_capacity], [ge=1]). *)
Definition store_ok (db : DB) : Prop :=
  (∀ bid b, bookings db !! bid = Some b →
            is_Some (sessions db !! Booking.session_id b))
  ∧ (∀ sid s, sessions db !! sid = Some s →
              is_Some (classes db !! SessionModel.class_id s))
  ∧ (∀ cid c, classes db !! cid = Some c → 1 ≤ Class.max_capacity c).

(** An [update_booking] call that writes an active status over a status that is
    not active. *)
Definition reactivates (db : DB) (op : Op) : Prop :=
  match op with
  | UpdateBooking booking_id booking_data _ =>
    match bookings db !! booking_id, BookingUpdate.status booking_data with
    | Some b, Some st => is_active st ∧ ¬ is_active (Booking.status b)
    | _, _ => False
    end
  | _ => False
  end.

(** No call of the sequence reactivates a booking, each call taken in the
    database the calls before it leave behind. *)
Fixpoint never_reactivates (db : DB) (calls : list (Clock * Op)) : Prop :=
  match calls with
  | [] => True
  | (utcnow, op) :: rest =>
    ¬ reactivates db op ∧ never_reactivates (step db utcnow op) rest
  end.

(** An active booking of the specification: its status is PENDING or
    CONFIRMED. *)
Definition activeStatus (st : BookingStatus.t) : Prop :=
  st = BookingStatus.PENDING ∨ st = BookingStatus.CONFIRMED.

Global Instance activeStatus_dec st : Decision (activeStatus st).
Proof. unfold activeStatus. apply _. Defined.

(** The active booking count of the specification,
    [count(Booking where session = S and status in {PENDING, CONFIRMED})],
    counted over the rows of the table. *)
Definition activeBookingCount (db : DB) (sessionId : Z) : Z :=
  Z.of_nat
    (length
       (filter (λ r : Z * Booking.t,
                  Booking.session_id r.2 = sessionId
                  ∧ activeStatus (Booking.status r.2))
          (map_to_list (bookings db)))).

(** The ordered checks of createBooking, in the words of the specification.
    [now_start], [now_deadline] and [now_stamp] are the current time as read
    for the past-session check, for the deadline check and for the booking
    timestamp. *)
Inductive createBooking_spec (db : DB) (now_start now_deadline now_stamp : datetime)
    (sessionId userId : Z) (notes : option string)
    : result (Z * Booking.t * DB) → Prop :=
| cb_NotFound :
    sessions db !! sessionId = None →
    createBooking_spec db now_start now_deadline now_stamp sessionId userId notes
      (Raise NotFound)
| cb_NotBookable s :
    sessions db !! sessionId = Some s →
    SessionModel.status s ≠ SessionStatus.SCHEDULED →
    createBooking_spec db now_start now_deadline now_stamp sessionId userId notes
      (Raise NotBookable)
| cb_PastSession s :
    sessions db !! sessionId = Some s →
    SessionModel.status s = SessionStatus.SCHEDULED →
    SessionModel.start_time s ≤ now_start →
    createBooking_spec db now_start now_deadline now_stamp sessionId userId notes
      (Raise PastSession)
| cb_CapacityExceeded s c :
    sessions db !! sessionId = Some s →
    SessionModel.status s = SessionStatus.SCHEDULED →
    now_start < SessionModel.start_time s →
    classes db !! SessionModel.class_id s = Some c →
    Class.max_capacity c ≤ activeBookingCount db sessionId →
    createBooking_spec db now_start now_deadline now_stamp sessionId userId notes
      (Raise CapacityExceeded)
| cb_DuplicateBooking s c i b :
    sessions db !! sessionId = Some s →
    SessionModel.status s = SessionStatus.SCHEDULED →
    now_start < SessionModel.start_time s →
    classes db !! SessionModel.class_id s = Some c →
    activeBookingCount db sessionId < Class.max_capacity c →
    bookings db !! i = Some b →
    Booking.user_id b = userId →
    Booking.session_id b = sessionId →
    activeStatus (Booking.status b) →
    createBooking_spec db now_start now_deadline now_stamp sessionId userId notes
      (Raise DuplicateBooking)
| cb_DeadlinePassed s c :
    sessions db !! sessionId = Some s →
    SessionModel.status s = SessionStatus.SCHEDULED →
    now_start < SessionModel.start_time s →
    classes db !! SessionModel.class_id s = Some c →
    activeBookingCount db sessionId < Class.max_capacity c →
    (∀ i b, bookings db !! i = Some b →
            ¬ (Booking.user_id b = userId ∧ Booking.session_id b = sessionId
               ∧ activeStatus (Booking.status b))) →
    now_deadline > SessionModel.start_time s - timedelta_hours 2 →
    createBooking_spec db now_start now_deadline now_stamp sessionId userId notes
      (Raise DeadlinePassed)
| cb_Created s c id :
    sessions db !! sessionId = Some s →
    SessionModel.status s = SessionStatus.SCHEDULED →
    now_start < SessionModel.start_time s →
    classes db !! SessionModel.class_id s = Some c →
    activeBookingCount db sessionId < Class.max_capacity c →
    (∀ i b, bookings db !! i = Some b →
            ¬ (Booking.user_id b = userId ∧ Booking.session_id b = sessionId
               ∧ activeStatus (Booking.status b))) →
    now_deadline ≤ SessionModel.start_time s - timedelta_hours 2 →
    bookings db !! id = None →
    let booking :=
      Booking.mk userId sessionId notes BookingStatus.PENDING now_stamp None None in
    createBooking_spec db now_start now_deadline now_stamp sessionId userId notes
      (Ok (id, booking, set_bookings (<[id := booking]> (bookings db)) db)).

(** A clock that reads the same instant at every reading. *)
Definition at_time (t : datetime) : Clock := λ _, t.

(** Every reading of the clock is more than 4 hours before [t]. *)
Definition well_before (t : datetime) (utcnow : Clock) : Prop :=
  ∀ k, utcnow k + timedelta_hours 4 < t.

(** The calls of the scenario of two users on one session. *)
Definition scenario_holds (db : DB) (sid u1 u2 : Z) (n1 n2 reason : option string)
    (clock1 clock2 clock3 clock4 : Clock) : Prop :=
  ∃ id1 b1 db1,
    BookingService.create_booking db clock1 (BookingCreate.mk sid n1) u1
    = Ok (id1, b1, db1)
    ∧ Booking.status b1 = BookingStatus.PENDING
    ∧ BookingService.create_booking db1 clock2 (BookingCreate.mk sid n2) u2
      = Raise CapacityExceeded
    ∧ ∃ db2,
        BookingService.cancel_booking db1 clock3 id1 (Some u1) reason = Ok (true, db2)
        ∧ ∃ id2 b2 db3,
            BookingService.create_booking db2 clock4 (BookingCreate.mk sid n2) u2
            = Ok (id2, b2, db3)
            ∧ Booking.status b2 = BookingStatus.PENDING.

(** The overlap rule of the specification for two half-open intervals. *)
Definition overlap (s1 e1 s2 e2 : datetime) : Prop := s1 < e2 ∧ s2 < e1.

(** A stored session that conflicts with a request, in the words of the
    specification: live, overlapping, and with the same location, the
    locations being compared only when both are given. *)
Definition spec_conflict (start_time end_time : datetime) (location : option string)
    (s : SessionModel.t) : Prop :=
  is_live (SessionModel.status s)
  ∧ overlap (SessionModel.start_time s) (SessionModel.end_time s) start_time end_time
  ∧ (∀ l1 l2, SessionModel.location s = Some l1 → location = Some l2 → l1 = l2).

(** The other reading of the same sentence: the two sessions share a
    location, which both of them give. *)
Definition spec_conflict_shared (start_time end_time : datetime)
    (location : option string) (s : SessionModel.t) : Prop :=
  is_live (SessionModel.status s)
  ∧ overlap (SessionModel.start_time s) (SessionModel.end_time s) start_time end_time
  ∧ (∃ l, SessionModel.location s = Some l ∧ location = Some l).

(** What [check_scheduling_conflicts] tests: the location of the request is
    compared whenever the request gives a non-empty one, and then a stored
    session without location does not match. *)
Definition code_conflict (start_time end_time : datetime) (location : option string)
    (s : SessionModel.t) : Prop :=
  is_live (SessionModel.status s)
  ∧ overlap (SessionModel.start_time s) (SessionModel.end_time s) start_time end_time
  ∧ (truthy_str location → SessionModel.location s = location).

(** The values the conflict check of [update_session] is run with: the values
    of the patch merged with the stored ones. *)
Definition merged_start (d : SessionUpdate.t) (s : SessionModel.t) : datetime :=
  default (SessionModel.start_time s) (SessionUpdate.start_time d).

Definition merged_end (d : SessionUpdate.t) (s : SessionModel.t) : datetime :=
  default (SessionModel.end_time s) (SessionUpdate.end_time d).

(** The location of the check: the one of the patch when the patch gives a
    non-empty one, else the stored one. *)
Definition merged_location (d : SessionUpdate.t) (s : SessionModel.t) : option string :=
  match SessionUpdate.location d with
  | Some (Some l) => if decide (l = EmptyString) then SessionModel.location s else Some l
  | _ => SessionModel.location s
  end.

(** Some session other than [session_id] conflicts with the merged values, the
    conflict being the one of createSession: a live session whose range
    overlaps the merged range under the half-open rule, at the merged
    location when there is one. *)
Definition update_conflict (db : DB) (session_id : Z) (d : SessionUpdate.t)
    (s : SessionModel.t) : Prop :=
  ∃ j x, j ≠ session_id ∧ sessions db !! j = Some x
         ∧ code_conflict (merged_start d s) (merged_end d s) (merged_location d s) x.

(** The row the cascade writes for [booking] at clock reading [t]: the status
    and the update timestamp are set, every other column is kept. *)
Definition cascaded (t : datetime) (booking : Booking.t) : Booking.t :=
  Booking.mk (Booking.user_id booking) (Booking.session_id booking)
    (Booking.notes booking) BookingStatus.CANCELLED (Booking.booking_date booking) (Some t)
    (Booking.admin_notes booking).

(** The row [cancel_session] writes for [session] at clock reading [t]. *)
Definition cancelled_session (t : datetime) (reason : option string)
    (session : SessionModel.t) : SessionModel.t :=
  SessionModel.set_updated_at (Some t)
    (SessionModel.set_special_notes
       (Some (str_or (SessionModel.special_notes session) "" +:+ nl
              +:+ "Cancelled: " +:+ str_or reason "No reason provided"))
       (SessionModel.set_status SessionStatus.CANCELLED session)).

(** A booking whose creation time lies in the optional date window of
    computeStats. *)
Definition inWindow (start_date end_date : option datetime) (b : Booking.t) : Prop :=
  match start_date with Some d => d ≤ Booking.booking_date b | None => True end
  ∧ match end_date with Some d => Booking.booking_date b ≤ d | None => True end.

Global Instance inWindow_dec s e b : Decision (inWindow s e b).
Proof. unfold inWindow. destruct s, e; apply _. Defined.

(** [n / total * 100] in IEEE 754 binary64 arithmetic, on the integers
    themselves: [n] and [total] converted to binary64, the quotient rounded to
    nearest even, then the product with 100 rounded to nearest even.  Integers
    below [2^53] are converted exactly, and for them this is the value of the
    expression [n / total * 100] on two integers. *)
Definition ieee_rate (n total : Z) : spec_float :=
  SF64mul
    (SF64div (binary_normalize prec emax n 0 false)
             (binary_normalize prec emax total 0 false))
    (binary_normalize prec emax 100 0 false).

(** The calls that write the status of booking [booking_id] without looking at
    its current status. *)
Definition overwrites (booking_id : Z) (op : Op) : Prop :=
  match op with
  | CancelBooking i _ _ => i = booking_id
  | MarkAttendance i _ => i = booking_id
  | UpdateBooking i d _ => i = booking_id ∧ is_Some (BookingUpdate.status d)
  | _ => False
  end.

(** The acting user is given: the argument is an integer, whatever its value. *)
Definition supplied (user_id : option Z) : Prop := is_Some user_id.

(** ** Worked examples *)

(** The database used by the worked examples: one class of capacity 1, one
    session of that class scheduled from hour 100 to hour 101 at location
    ["A"], no booking. *)
Definition ex_session : SessionModel.t :=
  SessionModel.mk 1 (timedelta_hours 100) (timedelta_hours 101) (Some "A") None
    SessionStatus.SCHEDULED 9 None.

Definition ex_db : DB :=
  mkDB {[ 1 := Class.mk 1 ]} {[ 1 := ex_session ]} ∅.

(** [ex_db] with the location of its session removed. *)
Definition ex_db_no_location : DB :=
  mkDB {[ 1 := Class.mk 1 ]} {[ 1 := SessionModel.set_location None ex_session ]} ∅.

(** Two sessions of class 1 over the same hour, at ["A"] (key 1) and at ["B"]
    (key 2). *)
Definition ex_db_two_rooms : DB :=
  mkDB {[ 1 := Class.mk 1 ]}
       (<[ 2 := SessionModel.set_location (Some "B") ex_session ]> {[ 1 := ex_session ]})
       ∅.

(** [ex_db] with three bookings of its session: pending, confirmed and
    completed. *)
Definition ex_db_booked : DB :=
  set_bookings
    (<[ 3 := Booking.mk 5 1 None BookingStatus.COMPLETED 0 None None ]>
       (<[ 2 := Booking.mk 6 1 None BookingStatus.CONFIRMED 0 None None ]>
          {[ 1 := Booking.mk 7 1 None BookingStatus.PENDING 0 None None ]}))
    ex_db.

(** A request for the hour of [ex_session] at the given location. *)
Definition ex_request (location : option string) : SessionCreate.t :=
  SessionCreate.mk 1 (timedelta_hours 100) (timedelta_hours 101) location None.

(** A patch that only moves a session to location ["A"]. *)
Definition move_to_A : SessionUpdate.t :=
  SessionUpdate.mk None None (Some (Some "A")) None None.

(** A patch that starts a session half an hour later and moves it to
    location ["A"]. *)
Definition later_at_A : SessionUpdate.t :=
  SessionUpdate.mk (Some (timedelta_hours 100 + 1800000000)) None (Some (Some "A"))
    None None.

(** A patch that gives only a start time, four hours after the end of
    [ex_session]. *)
Definition start_after_end : SessionUpdate.t :=
  SessionUpdate.mk (Some (timedelta_hours 105)) None None None None.

(** [ex_db_two_rooms] with a third session at ["B"], from hour 104 to hour
    106. *)
Definition ex_db_three_sessions : DB :=
  mkDB {[ 1 := Class.mk 1 ]}
       (<[ 3 := SessionModel.mk 1 (timedelta_hours 104) (timedelta_hours 106)
                  (Some "B") None SessionStatus.SCHEDULED 9 None ]>
          (sessions ex_db_two_rooms))
       ∅.

(** The calls that break the capacity invariant on [ex_db]: user 7 books and
    cancels, user 8 books, then an administrative [update_booking] writes
    CONFIRMED over the cancelled booking of user 7. *)
Definition reactivating_calls : list (Clock * Op) :=
  [ (at_time 0, CreateBooking (BookingCreate.mk 1 None) 7);
    (at_time 0, CancelBooking 1 (Some 7) None);
    (at_time 0, CreateBooking (BookingCreate.mk 1 None) 8);
    (at_time 0,
     UpdateBooking 1 (BookingUpdate.mk (Some BookingStatus.CONFIRMED) None None) None) ].

(** The calls of the scenario on [ex_db], followed by a note edit. *)
Definition scenario_calls : list (Clock * Op) :=
  [ (at_time 0, CreateBooking (BookingCreate.mk 1 None) 7);
    (at_time 0, CreateBooking (BookingCreate.mk 1 None) 8);
    (at_time 0, CancelBooking 1 (Some 7) None);
    (at_time 0, CreateBooking (BookingCreate.mk 1 None) 8);
    (at_time 0, UpdateBooking 1 (BookingUpdate.mk None (Some (Some "late")) None) None) ].

(** ** Further predicates *)

(** At most one active booking for each pair of a user and a session. *)
Definition unique_active (db : DB) : Prop :=
  ∀ i j b1 b2,
    bookings db !! i = Some b1 →
    bookings db !! j = Some b2 →
    Booking.user_id b1 = Booking.user_id b2 →
    Booking.session_id b1 = Booking.session_id b2 →
    is_active (Booking.status b1) →
    is_active (Booking.status b2) →
    i = j.

(** The call is made on a booking or a session that is not stored. *)
Definition target_missing (db : DB) (op : Op) : Prop :=
  match op with
  | CreateSession _ _ | CreateBooking _ _ => False
  | UpdateSession i _ | CancelSession i _ | MarkSessionCompleted i =>
    sessions db !! i = None
  | UpdateBooking i _ _ | CancelBooking i _ _ | ConfirmBooking i | MarkAttendance i _ =>
    bookings db !! i = None
  end.

(** The call returns [None] or [False], as the services do for a row they do
    not find, and gives the database back. *)
Definition returns_nothing (db : DB) (utcnow : Clock) (op : Op) : Prop :=
  match op with
  | CreateSession _ _ | CreateBooking _ _ => False
  | UpdateSession i d => SessionService.update_session db utcnow i d = Ok (None, db)
  | CancelSession i r => SessionService.cancel_session db utcnow i r = (false, db)
  | MarkSessionCompleted i =>
    SessionService.mark_session_completed db utcnow i = (false, db)
  | UpdateBooking i d u => BookingService.update_booking db utcnow i d u = Ok (None, db)
  | CancelBooking i u r => BookingService.cancel_booking db utcnow i u r = Ok (false, db)
  | ConfirmBooking i => BookingService.confirm_booking db utcnow i = Ok (false, db)
  | MarkAttendance i a => BookingService.mark_attendance db utcnow i a = Ok (false, db)
  end.

(** Every booking of [db'] is a booking of [db] with the same user and
    session, and is active only if it was. *)
Definition bookings_shrink (db db' : DB) : Prop :=
  ∀ i b', bookings db' !! i = Some b' →
    ∃ b, bookings db !! i = Some b
         ∧ Booking.user_id b' = Booking.user_id b
         ∧ Booking.session_id b' = Booking.session_id b
         ∧ (is_active (Booking.status b') → is_active (Booking.status b)).

(** [ex_db_two_rooms] with a class of capacity 2. *)
Definition ex_db_two_seats : DB :=
  mkDB {[ 1 := Class.mk 2 ]} (sessions ex_db_two_rooms) ∅.

(** No two stored users have the same email. *)
Definition unique_emails (st : Store) : Prop :=
  ∀ i j u1 u2,
    users st !! i = Some u1 →
    users st !! j = Some u2 →
    User.email u1 = User.email u2 →
    i = j.

(** The mutating operations of the user service. *)
Inductive UserOp :=
| CreateUser (created_at : datetime) (hashing : hash_outcome)
    (user_data : UserCreate.t)
| UpdateUser (user_id : Z) (user_data : UserUpdate.t)
| ActivateUser (user_id : Z)
| DeactivateUser (user_id : Z)
| PromoteToAdmin (user_id : Z)
| DemoteFromAdmin (user_id : Z).

(** The store after a call that returned [r], [st] when it raised. *)
Definition user_committed {A} (st : Store) (r : outcome (A * Store)) : Store :=
  match r with Return (_, st') => st' | Raised _ => st end.

Definition user_step `{UnicodeData} (st : Store) (utcnow : Clock) (op : UserOp)
    : Store :=
  match op with
  | CreateUser t h d => user_committed st (UserService.create_user st t h d)
  | UpdateUser i d => user_committed st (UserService.update_user st utcnow i d)
  | ActivateUser i => (UserService.activate_user st utcnow i).2
  | DeactivateUser i => (UserService.deactivate_user st utcnow i).2
  | PromoteToAdmin i => (UserService.promote_to_admin st utcnow i).2
  | DemoteFromAdmin i => (UserService.demote_from_admin st utcnow i).2
  end.

Fixpoint user_run `{UnicodeData} (st : Store) (calls : list (Clock * UserOp))
    : Store :=
  match calls with
  | [] => st
  | (utcnow, op) :: rest => user_run (user_step st utcnow op) rest
  end.

(** What [EmailStr] guarantees of the emails of a call: they are not empty. *)
Definition emails_given (op : UserOp) : Prop :=
  match op with
  | UpdateUser _ d => UserUpdate.email d ≠ Some EmptyString
  | _ => True
  end.

(** A store with two users, the second an administrator, over
    [ex_db_booked]. *)
Definition ex_store : Store :=
  mkStore
    (<[ 7 := User.mk "ann@example.com" "Ann" "h1" "STUDENT" true 0 None None 0 ]>
       {[ 5 := User.mk "bob@example.com" "Bob" "h2" "ADMIN" true 0 None None 0 ]})
    ex_db_booked.

(** The decimal digits among the code points below U+06F0: the digits 0-9 and
    the Arabic-Indic digits U+0660 to U+0669. *)
Definition decimal_below_06F0 : UnicodeData :=
  {| decimal c := Auth.in_range 48 57 c || Auth.in_range 1632 1641 c |}.

(** A registration with the email of user 5, then a patch that gives user 7
    that email. *)
Definition taken_email_calls : list (Clock * UserOp) :=
  [ (at_time 0,
     CreateUser 3 (Hashed "h3")
       (UserCreate.mk "bob@example.com" "Rob" UserRole.STUDENT
          (code_points "Passw0rd") (code_points "Passw0rd")));
    (at_time 0,
     UpdateUser 7 (UserUpdate.mk None (Some "bob@example.com") None None)) ].

(** [ex_db_two_seats] with four bookings: user 7 holds a confirmed booking of
    session 2, a pending booking of session 1 and a cancelled booking of
    session 2; user 8 holds a pending booking of session 2. *)
Definition ex_db_two_seats_booked : DB :=
  set_bookings
    (<[ 4 := Booking.mk 7 2 None BookingStatus.CANCELLED 0 None None ]>
       (<[ 3 := Booking.mk 8 2 None BookingStatus.PENDING 0 None None ]>
          (<[ 2 := Booking.mk 7 1 None BookingStatus.PENDING 0 None None ]>
             {[ 1 := Booking.mk 7 2 None BookingStatus.CONFIRMED 0 None None ]})))
    ex_db_two_seats.

(** The users of [ex_store] over [ex_db_two_seats_booked]. *)
Definition ex_store_two_seats : Store :=
  mkStore (users ex_store) ex_db_two_seats_booked.

(** * Properties *)

(** ** The entity store *)

Lemma foldr_max_bound (l : list Z) (k : Z) : k ∈ l → k ≤ foldr Z.max 0 l.
Proof.
  induction l as [|a l IH]; simpl.
  - intros H. inversion H.
  - intros [->|H]%elem_of_cons; [lia|]. specialize (IH H). lia.
Qed.

Lemma foldr_max_nonneg (l : list Z) : 0 ≤ foldr Z.max 0 l.
Proof. induction l; simpl; lia. Qed.

(** The key of a new row is not the key of a stored row. *)
Lemma fresh_id_fresh {A} (m : gmap Z A) : m !! fresh_id m = None.
Proof.
  destruct (m !! fresh_id m) as [x|] eqn:E; [|done].
  apply elem_of_map_to_list in E.
  assert (fresh_id m ∈ (map_to_list m).*1) as Hin.
  { apply list_elem_of_fmap. by exists (fresh_id m, x). }
  apply foldr_max_bound in Hin. unfold fresh_id in Hin at 1. lia.
Qed.

(** Keys are numbered from 1. *)
Lemma fresh_id_pos {A} (m : gmap Z A) : 0 < fresh_id m.
Proof. unfold fresh_id. pose proof (foldr_max_nonneg (map_to_list m).*1). lia. Qed.

Lemma first_None {A} (m : gmap Z A) : first m = None ↔ m = ∅.
Proof.
  unfold first. rewrite <- map_to_list_empty_iff.
  destruct (map_to_list m); simpl; split; congruence.
Qed.

Lemma first_filter_None {A} (P : Z * A → Prop) `{!∀ x, Decision (P x)} (m : gmap Z A) :
  first (filter P m) = None ↔ ∀ i x, m !! i = Some x → ¬ P (i, x).
Proof.
  rewrite first_None. rewrite map_empty_filter. unfold map_Forall. done.
Qed.

Lemma first_filter_Some {A} (P : Z * A → Prop) `{!∀ x, Decision (P x)} (m : gmap Z A) r :
  first (filter P m) = Some r → m !! r.1 = Some r.2 ∧ P r.
Proof.
  unfold first. intros Hf.
  assert (r ∈ map_to_list (filter P m)) as Hin.
  { destruct (map_to_list (filter P m)); simplify_eq/=. left. }
  destruct r as [i x]. apply elem_of_map_to_list in Hin.
  by apply map_lookup_filter_Some in Hin.
Qed.

Lemma all_nil {A} (m : gmap Z A) : all m = [] ↔ m = ∅.
Proof. apply map_to_list_empty_iff. Qed.

Lemma all_filter_nil {A} (P : Z * A → Prop) `{!∀ x, Decision (P x)} (m : gmap Z A) :
  all (filter P m) = [] ↔ ∀ i x, m !! i = Some x → ¬ P (i, x).
Proof. rewrite all_nil. rewrite map_empty_filter. unfold map_Forall. done. Qed.

(** ** Counting the rows of a filtered table *)

Section counting.
Context {A : Type} (P : Z * A → Prop) `{!∀ x, Decision (P x)}.
Implicit Types m : gmap Z A.

Lemma size_filter_insert_None m i x :
  m !! i = None →
  size (filter P (<[i := x]> m))
  = if decide (P (i, x)) then S (size (filter P m)) else size (filter P m).
Proof.
  intros Hi. rewrite map_filter_insert. case_decide.
  - rewrite map_size_insert_None; [done|].
    apply map_lookup_filter_None. by left.
  - by rewrite delete_id.
Qed.

Lemma size_filter_insert_le m i x :
  (P (i, x) → ∃ y, m !! i = Some y ∧ P (i, y)) →
  (size (filter P (<[i := x]> m)) ≤ size (filter P m))%nat.
Proof.
  intros Hold. rewrite map_filter_insert. case_decide as HP.
  - destruct (Hold HP) as (y & Hy & HPy).
    rewrite map_size_insert_Some; [done|].
    exists y. by apply map_lookup_filter_Some.
  - rewrite map_filter_delete, map_size_delete.
    destruct (filter P m !! i); simpl; lia.
Qed.

Lemma size_filter_insert_drop m i x y :
  m !! i = Some y → P (i, y) → ¬ P (i, x) →
  size (filter P (<[i := x]> m)) = pred (size (filter P m)).
Proof.
  intros Hy HPy HP. rewrite map_filter_insert. case_decide; [done|].
  rewrite map_filter_delete, map_size_delete.
  by rewrite (map_lookup_filter_Some_2 P m i y).
Qed.

Lemma size_filter_0 m :
  size (filter P m) = 0%nat ↔ ∀ i x, m !! i = Some x → ¬ P (i, x).
Proof. rewrite map_size_empty_iff, map_empty_filter. done. Qed.
End counting.

(** ** createBooking: the ordered checks *)

(** Counting the rows of [query.all()] that pass a test is counting the rows of
    the table that pass it. *)
Lemma length_filter_all {A} (Q : Z * A → Prop) `{!∀ x, Decision (Q x)} (m : gmap Z A) :
  length (filter Q (all m)) = size (filter Q m).
Proof.
  unfold all. induction m as [|i x m Hi IH] using map_ind.
  - by rewrite map_to_list_empty, map_filter_empty, map_size_empty.
  - rewrite map_to_list_insert by done.
    rewrite size_filter_insert_None by done.
    rewrite filter_cons. case_decide; simpl; by rewrite IH.
Qed.

(** The count of [get_session_booking_count] is the active booking count of the
    specification. *)
Lemma get_session_booking_count_spec db sid :
  BookingService.get_session_booking_count db sid = activeBookingCount db sid.
Proof.
  unfold BookingService.get_session_booking_count, activeBookingCount.
  f_equal. rewrite <- length_filter_all. reflexivity.
Qed.

(** C2. [create_booking] performs the checks of createBooking in the order of
    the specification: session not found, session not SCHEDULED, start time
    not after now, active booking count at least the capacity of the class,
    an active booking of the same user for the session, now after the start
    time minus 2 hours; when none fails it persists and returns a booking
    with status PENDING stamped with now.  The active booking count is the
    count of the specification, taken over the rows of the table: on a
    SCHEDULED future session the call raises CapacityExceeded exactly when
    that count has reached the capacity.  The six failures are distinct
    exceptions, and a call made exactly 2 hours before the start does not
    fail with DeadlinePassed. *)
Theorem create_booking_ordered_checks (db : DB) (utcnow : Clock)
    (booking_data : BookingCreate.t) (user_id : Z) :
  (∀ s, sessions db !! BookingCreate.session_id booking_data = Some s →
        is_Some (classes db !! SessionModel.class_id s)) →
  createBooking_spec db (utcnow 0%nat) (utcnow 1%nat) (utcnow 2%nat)
    (BookingCreate.session_id booking_data) user_id (BookingCreate.notes booking_data)
    (BookingService.create_booking db utcnow booking_data user_id)
  ∧ NoDup [NotFound; NotBookable; PastSession; CapacityExceeded; DuplicateBooking;
           DeadlinePassed]
  ∧ (∀ s, sessions db !! BookingCreate.session_id booking_data = Some s →
          utcnow 1%nat = SessionModel.start_time s - timedelta_hours 2 →
          BookingService.create_booking db utcnow booking_data user_id
          ≠ Raise DeadlinePassed)
  ∧ (∀ s c, sessions db !! BookingCreate.session_id booking_data = Some s →
            classes db !! SessionModel.class_id s = Some c →
            SessionModel.status s = SessionStatus.SCHEDULED →
            utcnow 0%nat < SessionModel.start_time s →
            (BookingService.create_booking db utcnow booking_data user_id
             = Raise CapacityExceeded
             ↔ Class.max_capacity c
               ≤ activeBookingCount db (BookingCreate.session_id booking_data))).
Proof.
  intros Hclass. split; [|split; [|split]].
  - unfold BookingService.create_booking.
    destruct (sessions db !! BookingCreate.session_id booking_data) as [s|] eqn:Hs;
      [|by apply cb_NotFound].
    destruct (Hclass s eq_refl) as [c Hc].
    case_decide as Hst; [by eapply cb_NotBookable|].
    assert (SessionModel.status s = SessionStatus.SCHEDULED) as Hsched.
    { destruct (decide (SessionModel.status s = SessionStatus.SCHEDULED));
        [done|contradiction]. }
    case_decide as Hpast; [by eapply cb_PastSession|].
    rewrite Hc. cbv zeta. rewrite get_session_booking_count_spec.
    case_decide as Hcap; [eapply cb_CapacityExceeded; eauto; lia|].
    destruct (first (filter _ (bookings db))) as [[i b]|] eqn:Hdup.
    + apply first_filter_Some in Hdup as [Hb (Hu & Hsid & Hact)]. simpl in *.
      eapply cb_DuplicateBooking; eauto; lia.
    + rewrite first_filter_None in Hdup.
      case_decide as Hdl.
      * eapply cb_DeadlinePassed; eauto; lia.
      * eapply cb_Created; eauto; try lia. apply fresh_id_fresh.
  - apply (bool_decide_unpack _). by vm_compute.
  - intros s Hs Hnow. unfold BookingService.create_booking. cbv zeta. rewrite Hs.
    destruct (Hclass s Hs) as [c Hc]. rewrite Hc.
    repeat case_decide; try discriminate;
      destruct (first _); try discriminate; lia.
  - intros s c Hs Hc Hsched Hfuture.
    unfold BookingService.create_booking. cbv zeta.
    rewrite Hs, Hc, get_session_booking_count_spec.
    rewrite decide_False by (rewrite Hsched; auto).
    rewrite decide_False by lia.
    case_decide as Hcap; [done|]. split; [|done].
    destruct (first _); [discriminate|]. case_decide; discriminate.
Qed.

(** The theorem on [ex_db_booked], whose session of capacity 1 has two active
    bookings, for user 8 booking it at time 0. *)
Lemma create_booking_ordered_checks_witness :
  createBooking_spec ex_db_booked 0 0 0 1 8 None
    (BookingService.create_booking ex_db_booked (at_time 0) (BookingCreate.mk 1 None) 8)
  ∧ (BookingService.create_booking ex_db_booked (at_time 0) (BookingCreate.mk 1 None) 8
     = Raise CapacityExceeded
     ↔ 1 ≤ activeBookingCount ex_db_booked 1).
Proof.
  destruct (create_booking_ordered_checks ex_db_booked (at_time 0)
              (BookingCreate.mk 1 None) 8) as (Hspec & _ & _ & Hcap).
  - intros s Hs. simpl in Hs. unfold ex_db_booked, ex_db in Hs. simpl in Hs.
    rewrite lookup_singleton_eq in Hs. injection Hs as <-.
    exists (Class.mk 1). reflexivity.
  - split; [exact Hspec|].
    apply (Hcap ex_session (Class.mk 1)); [reflexivity|reflexivity|reflexivity|].
    by vm_compute.
Defined.

(** The checks on [ex_db], whose session starts at hour 100: one minute before
    the 2-hour mark and at the mark the booking is created, one minute after
    the mark the deadline has passed, at the start the session is past; a
    second booking meets the capacity check before the duplicate check. *)
Example create_booking_before_deadline :
  ∃ db', BookingService.create_booking ex_db
           (at_time (timedelta_hours 98 - 60000000)) (BookingCreate.mk 1 None) 7
         = Ok (1,
               Booking.mk 7 1 None BookingStatus.PENDING
                 (timedelta_hours 98 - 60000000) None None,
               db').
Proof. eexists. by vm_compute. Qed.

Example create_booking_at_deadline :
  ∃ db', BookingService.create_booking ex_db
           (at_time (timedelta_hours 98)) (BookingCreate.mk 1 None) 7
         = Ok (1, Booking.mk 7 1 None BookingStatus.PENDING (timedelta_hours 98) None None,
               db').
Proof. eexists. by vm_compute. Qed.

Example create_booking_after_deadline :
  BookingService.create_booking ex_db
    (at_time (timedelta_hours 98 + 60000000)) (BookingCreate.mk 1 None) 7
  = Raise DeadlinePassed.
Proof. by vm_compute. Qed.

Example create_booking_at_start :
  BookingService.create_booking ex_db
    (at_time (timedelta_hours 100)) (BookingCreate.mk 1 None) 7
  = Raise PastSession.
Proof. by vm_compute. Qed.

Example create_booking_unknown_session :
  BookingService.create_booking ex_db (at_time 0) (BookingCreate.mk 2 None) 7
  = Raise NotFound.
Proof. by vm_compute. Qed.

Example create_booking_full_before_duplicate :
  BookingService.create_booking ex_db_booked (at_time 0) (BookingCreate.mk 1 None) 7
  = Raise CapacityExceeded.
Proof. by vm_compute. Qed.

(** ** Row updates and the invariants of the store *)

Lemma booking_apply_update_session_id d b :
  Booking.session_id (BookingService.apply_update d b) = Booking.session_id b.
Proof. destruct d as [[?|] [?|] [?|]]; reflexivity. Qed.

Lemma booking_apply_update_user_id d b :
  Booking.user_id (BookingService.apply_update d b) = Booking.user_id b.
Proof. destruct d as [[?|] [?|] [?|]]; reflexivity. Qed.

Lemma booking_apply_update_status d b :
  Booking.status (BookingService.apply_update d b)
  = default (Booking.status b) (BookingUpdate.status d).
Proof. destruct d as [[?|] [?|] [?|]]; reflexivity. Qed.

Lemma session_apply_update_class_id d s :
  SessionModel.class_id (SessionService.apply_update d s) = SessionModel.class_id s.
Proof. destruct d as [[?|] [?|] [?|] [?|] [?|]]; reflexivity. Qed.

Lemma not_active_CANCELLED : ¬ is_active BookingStatus.CANCELLED.
Proof. intros [?|?]; discriminate. Qed.

(** The capacity invariant survives any change that keeps the classes, keeps
    the class of every session and adds no active booking to any session. *)
Lemma capacity_ok_mono db db' :
  classes db' = classes db →
  (∀ sid s', sessions db' !! sid = Some s' →
             ∃ s, sessions db !! sid = Some s
                  ∧ SessionModel.class_id s' = SessionModel.class_id s) →
  (∀ sid, BookingService.get_session_booking_count db' sid
          ≤ BookingService.get_session_booking_count db sid) →
  capacity_ok db → capacity_ok db'.
Proof.
  intros Hcls Hses Hcnt Hcap sid s' c Hs' Hc.
  destruct (Hses sid s' Hs') as (s & Hs & Hcid).
  rewrite Hcls, Hcid in Hc. specialize (Hcap sid s c Hs Hc).
  specialize (Hcnt sid). lia.
Qed.

Lemma store_ok_set_booking db i b b' :
  bookings db !! i = Some b →
  Booking.session_id b' = Booking.session_id b →
  store_ok db → store_ok (set_bookings (<[i := b']> (bookings db)) db).
Proof.
  intros Hb Hsid (Hfk & Hcls & Hcap). split; [|done].
  intros j x. simpl. rewrite lookup_insert. case_decide.
  - intros [= <-]. rewrite Hsid. eauto.
  - eauto.
Qed.

Lemma capacity_ok_set_booking db i b b' :
  bookings db !! i = Some b →
  Booking.session_id b' = Booking.session_id b →
  (is_active (Booking.status b') → is_active (Booking.status b)) →
  capacity_ok db → capacity_ok (set_bookings (<[i := b']> (bookings db)) db).
Proof.
  intros Hb Hsid Hact Hcap sid s c Hs Hc. simpl in *.
  specialize (Hcap sid s c Hs Hc).
  unfold BookingService.get_session_booking_count in *. simpl.
  assert (size (filter (BookingService.counted sid) (<[i := b']> (bookings db)))
          ≤ size (filter (BookingService.counted sid) (bookings db)))%nat as Hle; [|lia].
  apply size_filter_insert_le.
  intros [Hx Ha]. exists b. split; [done|]. split; simpl in *; [congruence|auto].
Qed.

Lemma store_ok_set_session db i s s' :
  sessions db !! i = Some s →
  SessionModel.class_id s' = SessionModel.class_id s →
  store_ok db → store_ok (set_sessions (<[i := s']> (sessions db)) db).
Proof.
  intros Hs Hcid (Hfk & Hcls & Hcap). split; [|split; [|done]]; simpl.
  - intros j x Hx. apply lookup_insert_is_Some'. right. eauto.
  - intros j x. rewrite lookup_insert. case_decide.
    + intros [= <-]. rewrite Hcid. eauto.
    + eauto.
Qed.

Lemma capacity_ok_set_session db i s s' :
  sessions db !! i = Some s →
  SessionModel.class_id s' = SessionModel.class_id s →
  capacity_ok db → capacity_ok (set_sessions (<[i := s']> (sessions db)) db).
Proof.
  intros Hs Hcid Hcap sid x c. simpl. rewrite lookup_insert. case_decide.
  - intros [= <-]. rewrite Hcid. subst. intros Hc. by apply (Hcap sid s c).
  - intros Hx Hc. by apply (Hcap sid x c).
Qed.

(** ** The cascade of [cancel_session] *)

Lemma cancel_each_lookup utcnow rows : ∀ k tbl j,
  NoDup rows.*1 →
  (∀ b, (j, b) ∈ rows →
        ∃ n, SessionService.cancel_each utcnow k rows tbl !! j
             = Some (cascaded (utcnow n) b))
  ∧ (j ∉ rows.*1 → SessionService.cancel_each utcnow k rows tbl !! j = tbl !! j).
Proof.
  induction rows as [|[i b] rest IH]; intros k tbl j Hnd.
  - split; [intros b Hb; inversion Hb|done].
  - rewrite fmap_cons in Hnd. apply NoDup_cons in Hnd as [Hi Hnd].
    cbn [SessionService.cancel_each].
    change (Booking.set_updated_at (Some (utcnow k))
              (Booking.set_status BookingStatus.CANCELLED b))
      with (cascaded (utcnow k) b).
    destruct (IH (S k)
                (<[i := cascaded (utcnow k) b]> tbl) j Hnd) as [IH1 IH2].
    split.
    + intros b0 [Heq|Hin]%elem_of_cons.
      * injection Heq as -> ->. exists k.
        rewrite IH2 by done. apply lookup_insert_eq.
      * by apply IH1.
    + intros Hj. apply not_elem_of_cons in Hj as [Hne Hj].
      rewrite IH2 by done. by apply lookup_insert_ne.
Qed.

Lemma cancel_each_count_le utcnow sid rows : ∀ k tbl,
  (size (filter (BookingService.counted sid)
                (SessionService.cancel_each utcnow k rows tbl))
   ≤ size (filter (BookingService.counted sid) tbl))%nat.
Proof.
  induction rows as [|[i b] rest IH]; intros k tbl; simpl; [done|].
  etrans; [apply IH|]. apply size_filter_insert_le.
  intros [_ Hact]. simpl in Hact. by apply not_active_CANCELLED in Hact.
Qed.

Lemma cancel_each_session_id utcnow (Q : Z → Prop) rows : ∀ k tbl,
  (∀ j b, tbl !! j = Some b → Q (Booking.session_id b)) →
  (∀ i b, (i, b) ∈ rows → Q (Booking.session_id b)) →
  ∀ j b, SessionService.cancel_each utcnow k rows tbl !! j = Some b →
         Q (Booking.session_id b).
Proof.
  induction rows as [|[i b] rest IH]; intros k tbl Htbl Hrows; simpl; [done|].
  apply IH.
  - intros j x. rewrite lookup_insert. case_decide.
    + intros [= <-]. simpl. apply (Hrows i b). left.
    + apply Htbl.
  - intros i' b' Hin. apply (Hrows i' b'). by right.
Qed.

Lemma elem_of_all_filter {A} (P : Z * A → Prop) `{!∀ x, Decision (P x)}
    (m : gmap Z A) i x :
  (i, x) ∈ all (filter P m) ↔ m !! i = Some x ∧ P (i, x).
Proof. unfold all. rewrite elem_of_map_to_list. apply map_lookup_filter_Some. Qed.

Lemma cancel_session_store_ok db utcnow sid reason :
  store_ok db → store_ok (SessionService.cancel_session db utcnow sid reason).2.
Proof.
  intros (Hfk & Hcls & Hcap). unfold SessionService.cancel_session.
  unfold SessionService.get_session.
  destruct (sessions db !! sid) as [s|] eqn:Hs; [|done]. simpl.
  split; [|split; [|done]]; simpl.
  - apply (cancel_each_session_id utcnow
             (λ x, is_Some (<[sid := _]> (sessions db) !! x))).
    + intros j b Hb. apply lookup_insert_is_Some'. right. eauto.
    + intros i b [Hb _]%elem_of_all_filter.
      apply lookup_insert_is_Some'. right. eauto.
  - intros j x. rewrite lookup_insert. case_decide.
    + intros [= <-]. simpl. eauto.
    + eauto.
Qed.

Lemma cancel_session_capacity_ok db utcnow sid reason :
  capacity_ok db → capacity_ok (SessionService.cancel_session db utcnow sid reason).2.
Proof.
  unfold SessionService.cancel_session, SessionService.get_session.
  destruct (sessions db !! sid) as [s|] eqn:Hs; [|done]. simpl.
  apply capacity_ok_mono; simpl; [done| |].
  - intros j s'. rewrite lookup_insert. case_decide as Heq.
    + subst j. intros [= <-]. by exists s.
    + intros Hj. by exists s'.
  - intros j. unfold BookingService.get_session_booking_count. simpl.
    apply Nat2Z.inj_le, cancel_each_count_le.
Qed.

(** ** One call preserves the invariants *)

Lemma create_session_store_ok db d u :
  store_ok db → store_ok (committed db (SessionService.create_session db d u)).
Proof.
  intros Hok. unfold SessionService.create_session.
  destruct (classes db !! SessionCreate.class_id d) as [c|] eqn:Hc; [|done].
  destruct (SessionService.check_scheduling_conflicts _ _ _ _ _); [|done].
  destruct Hok as (Hfk & Hcls & Hcap). simpl.
  split; [|split; [|done]]; simpl.
  - intros j x Hx. apply lookup_insert_is_Some'. right. eauto.
  - intros j x. rewrite lookup_insert. case_decide.
    + intros [= <-]. simpl. eauto.
    + eauto.
Qed.

Lemma create_session_capacity_ok db d u :
  store_ok db → capacity_ok db →
  capacity_ok (committed db (SessionService.create_session db d u)).
Proof.
  intros (Hfk & Hcls & Hpos) Hcap. unfold SessionService.create_session.
  destruct (classes db !! SessionCreate.class_id d) as [c|] eqn:Hc; [|done].
  destruct (SessionService.check_scheduling_conflicts _ _ _ _ _); [|done].
  simpl. intros sid s c0. simpl. rewrite lookup_insert. case_decide as Heq.
  - subst sid. intros [= <-]. simpl. intros Hc0.
    unfold BookingService.get_session_booking_count. simpl.
    assert (size (filter (BookingService.counted (fresh_id (sessions db)))
                         (bookings db)) = 0%nat) as ->.
    { apply size_filter_0. intros i b Hb [Hsid _]. simpl in Hsid.
      destruct (Hfk i b Hb) as [s Hs]. rewrite Hsid, fresh_id_fresh in Hs. done. }
    specialize (Hpos _ _ Hc0). lia.
  - intros Hs Hc0. by apply (Hcap sid s c0).
Qed.

Lemma create_booking_store_ok db utcnow d u :
  store_ok db → store_ok (committed db (BookingService.create_booking db utcnow d u)).
Proof.
  intros Hok. unfold BookingService.create_booking. cbv zeta.
  destruct (sessions db !! BookingCreate.session_id d) as [s|] eqn:Hs; [|done].
  repeat (case_decide; [done|]).
  destruct (classes db !! SessionModel.class_id s) as [c|]; [|done].
  case_decide; [done|]. destruct (first _); [done|]. case_decide; [done|].
  destruct Hok as (Hfk & Hcls & Hcap). split; [|done]. simpl.
  intros j x. rewrite lookup_insert. case_decide.
  - intros [= <-]. simpl. eauto.
  - eauto.
Qed.

Lemma create_booking_capacity_ok db utcnow d u :
  capacity_ok db →
  capacity_ok (committed db (BookingService.create_booking db utcnow d u)).
Proof.
  intros Hcap. unfold BookingService.create_booking. cbv zeta.
  destruct (sessions db !! BookingCreate.session_id d) as [s|] eqn:Hs; [|done].
  repeat (case_decide; [done|]).
  destruct (classes db !! SessionModel.class_id s) as [c|] eqn:Hc; [|done].
  case_decide as Hfull; [done|]. destruct (first _); [done|]. case_decide; [done|].
  simpl. intros sid s0 c0 Hs0 Hc0. simpl in *.
  specialize (Hcap sid s0 c0 Hs0 Hc0).
  unfold BookingService.get_session_booking_count in *. simpl.
  rewrite size_filter_insert_None by apply fresh_id_fresh.
  case_decide as Hnew; [|done].
  destruct Hnew as [Hsid _]. simpl in Hsid. subst sid.
  rewrite Hs in Hs0. injection Hs0 as <-. rewrite Hc in Hc0. injection Hc0 as <-.
  lia.
Qed.

Lemma step_store_ok db utcnow op : store_ok db → store_ok (step db utcnow op).
Proof.
  intros Hok. destruct op as [d u|i d|i r|i|d u|i d u|i u r|i|i a]; simpl.
  - by apply create_session_store_ok.
  - unfold SessionService.update_session, SessionService.get_session.
    destruct (sessions db !! i) as [s|] eqn:Hs; [|done].
    destruct (if decide _ then _ else _); [|done]. simpl.
    eapply store_ok_set_session; eauto. apply session_apply_update_class_id.
  - by apply cancel_session_store_ok.
  - unfold SessionService.mark_session_completed, SessionService.get_session.
    destruct (sessions db !! i) as [s|] eqn:Hs; [|done]. simpl.
    eapply store_ok_set_session; eauto.
  - by apply create_booking_store_ok.
  - unfold BookingService.update_booking, BookingService.get_booking.
    destruct (bookings db !! i) as [b|] eqn:Hb; [|done].
    case_decide; [done|]. simpl.
    eapply store_ok_set_booking; eauto. apply booking_apply_update_session_id.
  - unfold BookingService.cancel_booking, BookingService.get_booking.
    destruct (bookings db !! i) as [b|] eqn:Hb; [|done].
    case_decide; [done|].
    destruct (sessions db !! Booking.session_id b); [|done].
    case_decide; [done|]. simpl.
    eapply store_ok_set_booking; eauto. by case_decide.
  - unfold BookingService.confirm_booking, BookingService.get_booking.
    destruct (bookings db !! i) as [b|] eqn:Hb; [|done].
    case_decide; [done|]. simpl. eapply store_ok_set_booking; eauto.
  - unfold BookingService.mark_attendance, BookingService.get_booking.
    destruct (bookings db !! i) as [b|] eqn:Hb; [|done].
    destruct (sessions db !! Booking.session_id b); [|done].
    case_decide; [done|]. simpl. eapply store_ok_set_booking; eauto.
Qed.

Lemma step_capacity_ok db utcnow op :
  store_ok db → capacity_ok db → ¬ reactivates db op →
  capacity_ok (step db utcnow op).
Proof.
  intros Hok Hcap Hre.
  destruct op as [d u|i d|i r|i|d u|i d u|i u r|i|i a]; simpl.
  - by apply create_session_capacity_ok.
  - unfold SessionService.update_session, SessionService.get_session.
    destruct (sessions db !! i) as [s|] eqn:Hs; [|done].
    destruct (if decide _ then _ else _); [|done]. simpl.
    eapply capacity_ok_set_session; eauto. apply session_apply_update_class_id.
  - by apply cancel_session_capacity_ok.
  - unfold SessionService.mark_session_completed, SessionService.get_session.
    destruct (sessions db !! i) as [s|] eqn:Hs; [|done]. simpl.
    eapply capacity_ok_set_session; eauto.
  - by apply create_booking_capacity_ok.
  - unfold BookingService.update_booking, BookingService.get_booking.
    destruct (bookings db !! i) as [b|] eqn:Hb; [|done].
    case_decide; [done|]. simpl.
    eapply capacity_ok_set_booking; eauto.
    + apply booking_apply_update_session_id.
    + simpl. rewrite booking_apply_update_status.
      simpl in Hre. rewrite Hb in Hre.
      destruct (BookingUpdate.status d) as [st|]; simpl; [|done].
      intros Hst. destruct (decide (is_active (Booking.status b))); [done|].
      destruct Hre. done.
  - unfold BookingService.cancel_booking, BookingService.get_booking.
    destruct (bookings db !! i) as [b|] eqn:Hb; [|done].
    case_decide; [done|].
    destruct (sessions db !! Booking.session_id b); [|done].
    case_decide; [done|]. simpl.
    eapply capacity_ok_set_booking; eauto; case_decide; simpl; try done;
      intros Hact; by apply not_active_CANCELLED in Hact.
  - unfold BookingService.confirm_booking, BookingService.get_booking.
    destruct (bookings db !! i) as [b|] eqn:Hb; [|done].
    case_decide as Hst; [done|]. simpl.
    eapply capacity_ok_set_booking; eauto. simpl. intros _. left.
    destruct (decide (Booking.status b = BookingStatus.PENDING)); [done|contradiction].
  - unfold BookingService.mark_attendance, BookingService.get_booking.
    destruct (bookings db !! i) as [b|] eqn:Hb; [|done].
    destruct (sessions db !! Booking.session_id b); [|done].
    case_decide; [done|]. simpl.
    eapply capacity_ok_set_booking; eauto. simpl.
    destruct a; intros [?|?]; discriminate.
Qed.

Lemma run_invariants calls : ∀ db,
  store_ok db → capacity_ok db → never_reactivates db calls →
  store_ok (run db calls) ∧ capacity_ok (run db calls).
Proof.
  induction calls as [|[utcnow op] rest IH]; intros db Hok Hcap Hnr; simpl; [done|].
  destruct Hnr as [Hre Hrest]. apply IH; [| |done].
  - by apply step_store_ok.
  - by apply step_capacity_ok.
Qed.

(** ** The capacity invariant and the capacity-1 scenario *)

Lemma create_booking_created db utcnow sid notes u s c :
  sessions db !! sid = Some s →
  SessionModel.status s = SessionStatus.SCHEDULED →
  utcnow 0%nat < SessionModel.start_time s →
  classes db !! SessionModel.class_id s = Some c →
  BookingService.get_session_booking_count db sid < Class.max_capacity c →
  (∀ i b, bookings db !! i = Some b → ¬ BookingService.existing u sid (i, b)) →
  utcnow 1%nat ≤ SessionModel.start_time s - timedelta_hours 2 →
  BookingService.create_booking db utcnow (BookingCreate.mk sid notes) u
  = Ok (fresh_id (bookings db),
        Booking.mk u sid notes BookingStatus.PENDING (utcnow 2%nat) None None,
        set_bookings (<[fresh_id (bookings db) :=
                          Booking.mk u sid notes BookingStatus.PENDING (utcnow 2%nat)
                            None None]>
                        (bookings db)) db).
Proof.
  intros Hs Hst Hpast Hc Hcap Hdup Hdl.
  unfold BookingService.create_booking. simpl. rewrite Hs, Hc.
  rewrite decide_False by (rewrite Hst; auto).
  rewrite decide_False by lia.
  rewrite decide_False by lia.
  rewrite (proj2 (first_filter_None (BookingService.existing u sid) (bookings db)) Hdup).
  by rewrite decide_False by lia.
Qed.

Lemma create_booking_full db utcnow sid notes u s c :
  sessions db !! sid = Some s →
  SessionModel.status s = SessionStatus.SCHEDULED →
  utcnow 0%nat < SessionModel.start_time s →
  classes db !! SessionModel.class_id s = Some c →
  Class.max_capacity c ≤ BookingService.get_session_booking_count db sid →
  BookingService.create_booking db utcnow (BookingCreate.mk sid notes) u
  = Raise CapacityExceeded.
Proof.
  intros Hs Hst Hpast Hc Hcap.
  unfold BookingService.create_booking. simpl. rewrite Hs, Hc.
  rewrite decide_False by (rewrite Hst; auto).
  rewrite decide_False by lia.
  by rewrite decide_True by lia.
Qed.

Lemma no_counted_no_existing db sid u :
  BookingService.get_session_booking_count db sid = 0 →
  ∀ i b, bookings db !! i = Some b → ¬ BookingService.existing u sid (i, b).
Proof.
  unfold BookingService.get_session_booking_count. intros H0 i b Hb (_ & Hsid & Hact).
  assert (size (filter (BookingService.counted sid) (bookings db)) = 0%nat) as Hz by lia.
  rewrite size_filter_0 in Hz. by apply (Hz i b Hb).
Qed.

Lemma scenario_capacity_one db sid s c u1 u2 n1 n2 reason clock1 clock2 clock3 clock4 :
  sessions db !! sid = Some s →
  SessionModel.status s = SessionStatus.SCHEDULED →
  classes db !! SessionModel.class_id s = Some c →
  Class.max_capacity c = 1 →
  BookingService.get_session_booking_count db sid = 0 →
  well_before (SessionModel.start_time s) clock1 →
  well_before (SessionModel.start_time s) clock2 →
  well_before (SessionModel.start_time s) clock3 →
  well_before (SessionModel.start_time s) clock4 →
  scenario_holds db sid u1 u2 n1 n2 reason clock1 clock2 clock3 clock4.
Proof.
  intros Hs Hst Hc Hcap H0 W1 W2 W3 W4.
  assert (0 < timedelta_hours 2 < timedelta_hours 4) as Hh by (by vm_compute).
  set (b1 := Booking.mk u1 sid n1 BookingStatus.PENDING (clock1 2%nat) None None).
  set (id1 := fresh_id (bookings db)).
  set (db1 := set_bookings (<[id1 := b1]> (bookings db)) db).
  assert (BookingService.get_session_booking_count db1 sid = 1) as H1.
  { unfold BookingService.get_session_booking_count in *. simpl.
    rewrite size_filter_insert_None by apply fresh_id_fresh.
    rewrite decide_True; [lia|]. split; [done|by left]. }
  exists id1, b1, db1. split; [|split; [done|split]].
  - apply (create_booking_created db clock1 sid n1 u1 s c); try done.
    + specialize (W1 0%nat). lia.
    + lia.
    + by apply no_counted_no_existing.
    + specialize (W1 1%nat). lia.
  - apply (create_booking_full db1 clock2 sid n2 u2 s c); try done.
    + specialize (W2 0%nat). lia.
    + lia.
  - set (b1c := Booking.set_updated_at (Some (clock3 1%nat))
                  (Booking.set_status BookingStatus.CANCELLED b1)).
    set (b2c := if decide (truthy_str reason)
                then Booking.set_admin_notes
                       (Some (str_or (Booking.admin_notes b1c) "" +:+ nl
                              +:+ "Cancellation reason: " +:+ default "" reason)) b1c
                else b1c).
    set (db2 := set_bookings (<[id1 := b2c]> (bookings db1)) db1).
    assert (Booking.status b2c = BookingStatus.CANCELLED
            ∧ Booking.session_id b2c = sid) as [Hb2s Hb2i].
    { unfold b2c. by case_decide. }
    assert (BookingService.get_session_booking_count db2 sid = 0) as H2.
    { unfold BookingService.get_session_booking_count in *. simpl.
      rewrite (size_filter_insert_drop _ _ id1 b2c b1).
      - simpl in H1. lia.
      - apply lookup_insert_eq.
      - split; [done|by left].
      - intros [_ Hact]. simpl in Hact. rewrite Hb2s in Hact.
        by apply not_active_CANCELLED in Hact. }
    exists db2. split.
    + unfold BookingService.cancel_booking, BookingService.get_booking. simpl.
      rewrite lookup_insert_eq. simpl.
      rewrite decide_False by (intros [_ Hne]; by apply Hne).
      rewrite Hs. rewrite decide_False; [done|].
      intros [Hlate _]. specialize (W3 0%nat). lia.
    + eexists _, _, _. split; [|shelve].
      apply (create_booking_created db2 clock4 sid n2 u2 s c); try done.
      * specialize (W4 0%nat). lia.
      * lia.
      * by apply no_counted_no_existing.
      * specialize (W4 1%nat). lia.
      Unshelve. reflexivity.
Qed.

Lemma ex_db_store_ok : store_ok ex_db.
Proof.
  unfold store_ok, ex_db. simpl. split; [|split].
  - intros bid b Hb. by rewrite lookup_empty in Hb.
  - intros sid s [<- <-]%lookup_singleton_Some. exists (Class.mk 1). by vm_compute.
  - intros cid c [<- <-]%lookup_singleton_Some. done.
Qed.

Lemma ex_db_capacity_ok : capacity_ok ex_db.
Proof.
  intros sid s c _ Hc. unfold BookingService.get_session_booking_count.
  unfold ex_db in *. simpl in *.
  rewrite map_filter_empty, map_size_empty.
  apply lookup_singleton_Some in Hc as [_ <-]. done.
Qed.

(** C1, as the specification states it: the invariant does not survive every
    sequence of the public operations. *)
Lemma capacity_invariant_counterexample :
  store_ok ex_db ∧ capacity_ok ex_db ∧ ¬ capacity_ok (run ex_db reactivating_calls).
Proof.
  split; [apply ex_db_store_ok|split; [apply ex_db_capacity_ok|]].
  intros Hcap. specialize (Hcap 1 ex_session (Class.mk 1) eq_refl eq_refl).
  vm_compute in Hcap. by apply Hcap.
Qed.

(** C1, amended.  Under any sequence of the public operations executed one
    after the other in which no updateBooking call writes an active status
    (PENDING or CONFIRMED) over a status that is not active, every session keeps
    count(bookings of S with status PENDING or CONFIRMED) <= max_capacity of its
    class.  And for a class of capacity 1 and a session without active booking
    that starts more than 4 hours after every clock reading: the booking of U1
    succeeds with PENDING, the booking of U2 fails with CapacityExceeded, the
    cancellation by U1 succeeds, and the next booking of U2 succeeds. *)
Theorem capacity_invariant_guarded (db : DB) (calls : list (Clock * Op))
    (sid : Z) (s : SessionModel.t) (c : Class.t) (u1 u2 : Z)
    (n1 n2 reason : option string) (clock1 clock2 clock3 clock4 : Clock) :
  store_ok db →
  capacity_ok db →
  (never_reactivates db calls → capacity_ok (run db calls))
  ∧ (sessions db !! sid = Some s →
     SessionModel.status s = SessionStatus.SCHEDULED →
     classes db !! SessionModel.class_id s = Some c →
     Class.max_capacity c = 1 →
     BookingService.get_session_booking_count db sid = 0 →
     well_before (SessionModel.start_time s) clock1 →
     well_before (SessionModel.start_time s) clock2 →
     well_before (SessionModel.start_time s) clock3 →
     well_before (SessionModel.start_time s) clock4 →
     scenario_holds db sid u1 u2 n1 n2 reason clock1 clock2 clock3 clock4).
Proof.
  intros Hok Hcap. split.
  - intros Hnr. by apply run_invariants.
  - apply scenario_capacity_one.
Qed.

(** The theorem on [ex_db], for the calls of [scenario_calls] and users 7 and 8. *)
Lemma capacity_invariant_guarded_witness :
  capacity_ok (run ex_db scenario_calls)
  ∧ scenario_holds ex_db 1 7 8 None None None
      (at_time 0) (at_time 0) (at_time 0) (at_time 0).
Proof.
  destruct (capacity_invariant_guarded ex_db scenario_calls 1 ex_session (Class.mk 1)
              7 8 None None None (at_time 0) (at_time 0) (at_time 0) (at_time 0)
              ex_db_store_ok ex_db_capacity_ok) as [Hinv Hsc].
  split.
  - apply Hinv. vm_compute. tauto.
  - apply Hsc; try reflexivity; intros k; by vm_compute.
Defined.

(** ** createSession and the scheduling conflicts *)

Lemma time_clause_overlap start_time end_time s :
  SessionModel.start_time s < SessionModel.end_time s →
  start_time < end_time →
  SessionService.time_clause start_time end_time s
  ↔ overlap (SessionModel.start_time s) (SessionModel.end_time s) start_time end_time.
Proof. unfold SessionService.time_clause, overlap. lia. Qed.

Lemma check_scheduling_conflicts_nil db start_time end_time location exclude :
  SessionService.check_scheduling_conflicts db start_time end_time location exclude = []
  ↔ ∀ i s, sessions db !! i = Some s →
           ¬ SessionService.conflicting start_time end_time location exclude (i, s).
Proof. unfold SessionService.check_scheduling_conflicts. apply all_filter_nil. Qed.

Lemma check_scheduling_conflicts_cons db start_time end_time location exclude :
  SessionService.check_scheduling_conflicts db start_time end_time location exclude ≠ []
  ↔ ∃ i s, sessions db !! i = Some s
           ∧ SessionService.conflicting start_time end_time location exclude (i, s).
Proof.
  split.
  - intros Hne.
    destruct (SessionService.check_scheduling_conflicts db start_time end_time
                location exclude) as [|[i s] rest] eqn:E; [done|].
    assert ((i, s) ∈ SessionService.check_scheduling_conflicts db start_time end_time
                       location exclude) as Hin by (rewrite E; left).
    apply elem_of_all_filter in Hin. eauto.
  - intros (i & s & Hs & Hc) Hnil.
    rewrite check_scheduling_conflicts_nil in Hnil. by apply (Hnil i s).
Qed.

(** The condition on the stored sessions is not vacuous: the validator of
    [SessionUpdate] compares the two times only when the patch gives both, so
    [update_session] can store an end before the start. *)
Example update_session_stores_empty_range :
  ∃ s' db',
    SessionService.update_session ex_db (at_time 0) 1
      (SessionUpdate.mk None (Some (timedelta_hours 99)) None None None)
    = Ok (Some s', db')
    ∧ SessionModel.end_time s' < SessionModel.start_time s'.
Proof. eexists _, _. split; by vm_compute. Qed.

(** C3, as the specification states it, fails under both readings of the
    location clause.  A request at location ["B"] over the hour of a stored
    session that has no location is accepted, although no location comparison
    applies; and a request without location over the hour of the session
    stored at ["A"] is refused, although the two do not share a location. *)
Lemma create_session_conflict_counterexample :
  (spec_conflict (timedelta_hours 100) (timedelta_hours 101) (Some "B")
     (SessionModel.set_location None ex_session)
   ∧ sessions ex_db_no_location !! 1 = Some (SessionModel.set_location None ex_session)
   ∧ SessionService.create_session ex_db_no_location (ex_request (Some "B")) 9
     ≠ Raise SchedulingConflict)
  ∧ (SessionService.create_session ex_db (ex_request None) 9 = Raise SchedulingConflict
     ∧ ∀ i s, sessions ex_db !! i = Some s →
              ¬ spec_conflict_shared (timedelta_hours 100) (timedelta_hours 101) None s).
Proof.
  split; [split; [|split]|split].
  - split; [by left|]. split; [by vm_compute|]. intros l1 l2 Hl1. discriminate.
  - by vm_compute.
  - by vm_compute.
  - by vm_compute.
  - intros i s _ (_ & _ & l & _ & Hl). discriminate.
Qed.

(** C3, amended.  For an existing class, endTime > startTime and stored
    sessions that satisfy end > start, createSession fails with
    SchedulingConflict exactly when some stored session with status SCHEDULED
    or ONGOING overlaps the requested range under the half-open rule and,
    when the request gives a non-empty location, has that same location (a
    request without location conflicts with every overlapping live session, a
    stored session without location never conflicts with a request that gives
    one); otherwise it persists a new session with status SCHEDULED. *)
Theorem create_session_conflict (db : DB) (session_data : SessionCreate.t)
    (created_by : Z) (class_obj : Class.t) :
  classes db !! SessionCreate.class_id session_data = Some class_obj →
  SessionCreate.validate_end_time session_data →
  (∀ i s, sessions db !! i = Some s →
          SessionModel.start_time s < SessionModel.end_time s) →
  let conflict :=
    ∃ i s, sessions db !! i = Some s
           ∧ code_conflict (SessionCreate.start_time session_data)
               (SessionCreate.end_time session_data)
               (SessionCreate.location session_data) s in
  (SessionService.create_session db session_data created_by = Raise SchedulingConflict
   ↔ conflict)
  ∧ (¬ conflict →
     ∃ id db_session,
       SessionService.create_session db session_data created_by
       = Ok (id, db_session, set_sessions (<[id := db_session]> (sessions db)) db)
       ∧ sessions db !! id = None
       ∧ SessionModel.status db_session = SessionStatus.SCHEDULED
       ∧ SessionModel.class_id db_session = SessionCreate.class_id session_data
       ∧ SessionModel.start_time db_session = SessionCreate.start_time session_data
       ∧ SessionModel.end_time db_session = SessionCreate.end_time session_data
       ∧ SessionModel.location db_session = SessionCreate.location session_data).
Proof.
  intros Hc Hvalid Hstored conflict.
  assert (conflict ↔
          SessionService.check_scheduling_conflicts db
            (SessionCreate.start_time session_data)
            (SessionCreate.end_time session_data)
            (SessionCreate.location session_data) None ≠ []) as Hiff.
  { rewrite check_scheduling_conflicts_cons. unfold conflict.
    split; intros (i & s & Hs & Hcf); exists i, s; (split; [done|]).
    - destruct Hcf as (Hlive & Hov & Hloc). split; [done|]. split; [|split].
      + apply time_clause_overlap; eauto.
      + done.
      + intros [].
    - destruct Hcf as (Hlive & Hov & Hloc & _). split; [done|]. split; [|done].
      apply time_clause_overlap in Hov; eauto. }
  unfold SessionService.create_session. rewrite Hc.
  destruct (SessionService.check_scheduling_conflicts _ _ _ _ _) as [|r rest].
  - split.
    + split; [discriminate|]. intros Hcf. apply Hiff in Hcf. done.
    + intros _. eexists _, _. split; [reflexivity|].
      split; [apply fresh_id_fresh|done].
  - split.
    + split; [intros _; by apply Hiff|done].
    + intros Hn. destruct Hn. by apply Hiff.
Qed.

(** The theorem on [ex_db], for a request over the hour of its session at ["A"]. *)
Lemma create_session_conflict_witness :
  SessionService.create_session ex_db (ex_request (Some "A")) 9 = Raise SchedulingConflict
  ↔ ∃ i s, sessions ex_db !! i = Some s
           ∧ code_conflict (timedelta_hours 100) (timedelta_hours 101) (Some "A") s.
Proof.
  apply (create_session_conflict ex_db (ex_request (Some "A")) 9 (Class.mk 1)).
  - reflexivity.
  - by vm_compute.
  - unfold ex_db. simpl. intros i s [<- <-]%lookup_singleton_Some. by vm_compute.
Defined.

(** ** updateSession *)

(** The location [update_session] passes to the check. *)
Lemma merged_location_eq d s :
  opt_str_or (SessionUpdate.location_attr d) (SessionModel.location s)
  = merged_location d s.
Proof.
  unfold merged_location, opt_str_or, SessionUpdate.location_attr.
  destruct (SessionUpdate.location d) as [[l|]|]; simpl; try done.
  destruct (decide (l = EmptyString)) as [->|Hl].
  - by rewrite decide_False by (intros H; by apply H).
  - by rewrite decide_True.
Qed.

(** C4, as the specification states it, fails: a patch that changes only the
    location is not checked.  Moving the session at ["B"] to ["A"], where
    another session is scheduled over the same hour, succeeds, although that
    session overlaps the merged range at the merged location. *)
Lemma update_session_conflict_counterexample :
  sessions ex_db_two_rooms !! 2 = Some (SessionModel.set_location (Some "B") ex_session)
  ∧ update_conflict ex_db_two_rooms 2 move_to_A
      (SessionModel.set_location (Some "B") ex_session)
  ∧ ∃ s' db',
      SessionService.update_session ex_db_two_rooms (at_time 0) 2 move_to_A
      = Ok (Some s', db')
      ∧ SessionModel.location s' = Some "A"
      ∧ sessions db' !! 1 = Some ex_session
      ∧ sessions db' !! 2 = Some s'.
Proof.
  split; [by vm_compute|split].
  - exists 1, ex_session. split; [done|]. split; [by vm_compute|].
    split; [by left|]. split; [|by vm_compute].
    split; by vm_compute.
  - eexists _, _. split; [by vm_compute|]. by vm_compute.
Qed.

(** C4, amended.  For an updateSession call on a stored session (whose key is
    not 0), in a store whose sessions end after they start and for a patch
    whose merged range ends after it starts: when the patch gives a start
    time or an end time, the call fails with SchedulingConflict exactly when
    some other session with status SCHEDULED or ONGOING overlaps, under the
    half-open rule, the range of the patched values merged with the stored
    ones, at the merged location (the one of the patch when it is non-empty,
    else the stored one) when there is one; when the patch gives neither
    time, no check is made, whatever the patch does to the location.  A call
    that does not fail applies only the fields present in the patch, stamps
    the update timestamp and leaves every other session as it was. *)
Theorem update_session_conflict (db : DB) (utcnow : Clock) (session_id : Z)
    (session_data : SessionUpdate.t) (session : SessionModel.t) :
  sessions db !! session_id = Some session →
  session_id ≠ 0 →
  (∀ i s, sessions db !! i = Some s →
          SessionModel.start_time s < SessionModel.end_time s) →
  merged_start session_data session < merged_end session_data session →
  let timed := is_Some (SessionUpdate.start_time session_data)
               ∨ is_Some (SessionUpdate.end_time session_data) in
  let result := SessionService.update_session db utcnow session_id session_data in
  (result = Raise UpdateSchedulingConflict
   ↔ timed ∧ update_conflict db session_id session_data session)
  ∧ (¬ (timed ∧ update_conflict db session_id session_data session) →
     ∃ s', result = Ok (Some s', set_sessions (<[session_id := s']> (sessions db)) db)
       ∧ SessionModel.start_time s'
         = default (SessionModel.start_time session) (SessionUpdate.start_time session_data)
       ∧ SessionModel.end_time s'
         = default (SessionModel.end_time session) (SessionUpdate.end_time session_data)
       ∧ SessionModel.location s'
         = default (SessionModel.location session) (SessionUpdate.location session_data)
       ∧ SessionModel.special_notes s'
         = default (SessionModel.special_notes session)
             (SessionUpdate.special_notes session_data)
       ∧ SessionModel.status s'
         = default (SessionModel.status session) (SessionUpdate.status session_data)
       ∧ SessionModel.class_id s' = SessionModel.class_id session
       ∧ SessionModel.created_by s' = SessionModel.created_by session
       ∧ SessionModel.updated_at s' = Some (utcnow 0%nat)).
Proof.
  intros Hs Hid Hstored Hrange timed result.
  assert (update_conflict db session_id session_data session ↔
          SessionService.check_scheduling_conflicts db
            (merged_start session_data session) (merged_end session_data session)
            (merged_location session_data session) (Some session_id) ≠ []) as Hiff.
  { rewrite check_scheduling_conflicts_cons. unfold update_conflict.
    split.
    - intros (j & x & Hne & Hx & Hlive & Hov & Hloc). exists j, x.
      split; [done|]. split; [done|]. split; [|split; [done|]].
      + apply time_clause_overlap; eauto.
      + simpl. intros _ [= ->]. done.
    - intros (j & x & Hx & Hlive & Htime & Hloc & Hex). exists j, x.
      split; [simpl in Hex; intros ->; by apply Hex|].
      split; [done|]. split; [done|]. split; [|done].
      apply time_clause_overlap in Htime; eauto. }
  unfold result, SessionService.update_session, SessionService.get_session.
  rewrite Hs. fold timed. cbv zeta. rewrite merged_location_eq.
  unfold merged_start, merged_end in Hiff.
  destruct (decide timed) as [Ht|Ht].
  - destruct (SessionService.check_scheduling_conflicts _ _ _ _ _) as [|r rest].
    + split.
      * split; [discriminate|]. intros [_ Hcf]. apply Hiff in Hcf. done.
      * intros _. eexists. split; [reflexivity|].
        destruct session_data as [[?|] [?|] [?|] [?|] [?|]]; done.
    + split.
      * split; [intros _; split; [done|by apply Hiff]|done].
      * intros Hn. destruct Hn. split; [done|by apply Hiff].
  - split.
    + split; [discriminate|]. by intros [? _].
    + intros _. eexists. split; [reflexivity|].
      destruct session_data as [[?|] [?|] [?|] [?|] [?|]]; done.
Qed.

(** The theorem on [ex_db_two_rooms]: starting the session at ["B"] half an hour
    later at ["A"] meets the session scheduled at ["A"] over that hour. *)
Lemma update_session_conflict_witness :
  SessionService.update_session ex_db_two_rooms (at_time 0) 2 later_at_A
  = Raise UpdateSchedulingConflict
  ∧ update_conflict ex_db_two_rooms 2 later_at_A
      (SessionModel.set_location (Some "B") ex_session).
Proof.
  assert (update_conflict ex_db_two_rooms 2 later_at_A
            (SessionModel.set_location (Some "B") ex_session)) as Hconflict.
  { exists 1, ex_session. split; [done|]. split; [by vm_compute|].
    split; [by left|]. split; [|by vm_compute]. split; by vm_compute. }
  pose proof (update_session_conflict ex_db_two_rooms (at_time 0) 2 later_at_A
                (SessionModel.set_location (Some "B") ex_session)) as Hthm.
  destruct Hthm as [Hraise _].
  - by vm_compute.
  - lia.
  - intros i s. unfold ex_db_two_rooms. simpl.
    rewrite lookup_insert. case_decide.
    + intros [= <-]. by vm_compute.
    + intros [<- <-]%lookup_singleton_Some. by vm_compute.
  - by vm_compute.
  - split; [|exact Hconflict]. apply Hraise. split; [|exact Hconflict].
    left. by eexists.
Defined.

(** The condition on the merged range is needed: the validator of
    [SessionUpdate] compares the two times only when the patch gives both, and
    a patch that gives only a start after the stored end is checked with a
    range that ends before it starts.  On [ex_db_three_sessions] such a patch
    on session 2 raises SchedulingConflict because of session 3, whose range
    does not overlap the merged one under the half-open rule. *)
Example update_session_inverted_range :
  SessionService.update_session ex_db_three_sessions (at_time 0) 2 start_after_end
  = Raise UpdateSchedulingConflict
  ∧ ¬ update_conflict ex_db_three_sessions 2 start_after_end
        (SessionModel.set_location (Some "B") ex_session).
Proof.
  split; [by vm_compute|].
  intros (j & x & Hj & Hx & _ & [Hov1 Hov2] & _).
  unfold ex_db_three_sessions, ex_db_two_rooms in Hx. simpl in Hx.
  rewrite lookup_insert in Hx. case_decide as H3.
  - injection Hx as <-. revert Hov1. by vm_compute.
  - rewrite lookup_insert in Hx. case_decide; [done|].
    apply lookup_singleton_Some in Hx as [<- <-]. revert Hov2. by vm_compute.
Qed.

(** ** cancelSession: cascade and repeated cancellation *)

Lemma cancel_session_found db utcnow sid reason s :
  sessions db !! sid = Some s →
  SessionService.cancel_session db utcnow sid reason
  = (true,
     mkDB (classes db)
       (<[sid := cancelled_session (utcnow 0%nat) reason s]> (sessions db))
       (SessionService.cancel_each utcnow 1
          (all (filter (SessionService.to_cancel sid) (bookings db))) (bookings db))).
Proof.
  intros Hs. unfold SessionService.cancel_session, SessionService.get_session.
  by rewrite Hs.
Qed.

Lemma cancel_session_bookings db utcnow sid reason s i :
  sessions db !! sid = Some s →
  match bookings db !! i with
  | None => bookings (SessionService.cancel_session db utcnow sid reason).2 !! i = None
  | Some b =>
    if decide (Booking.session_id b = sid ∧ is_active (Booking.status b))
    then ∃ n, bookings (SessionService.cancel_session db utcnow sid reason).2 !! i
              = Some (cascaded (utcnow n) b)
    else bookings (SessionService.cancel_session db utcnow sid reason).2 !! i = Some b
  end.
Proof.
  intros Hs. unfold SessionService.cancel_session, SessionService.get_session.
  rewrite Hs. simpl.
  set (rows := all (filter (SessionService.to_cancel sid) (bookings db))).
  assert (NoDup rows.*1) as Hnd by apply NoDup_fst_map_to_list.
  destruct (cancel_each_lookup utcnow rows 1%nat (bookings db) i Hnd) as [Hin Hout].
  assert (∀ j b, (j, b) ∈ rows ↔ bookings db !! j = Some b
                                 ∧ Booking.session_id b = sid
                                 ∧ is_active (Booking.status b)) as Hrows.
  { intros j b. unfold rows. by rewrite elem_of_all_filter. }
  destruct (bookings db !! i) as [b|] eqn:Hb.
  - case_decide as Hm.
    + apply Hin, Hrows. done.
    + rewrite Hout; [done|].
      intros ([j x] & Hj & Hx%Hrows)%list_elem_of_fmap. simpl in Hj. subst j.
      destruct Hx as [Hx Hx']. rewrite Hb in Hx. injection Hx as ->. done.
  - rewrite Hout; [done|].
    intros ([j x] & Hj & Hx%Hrows)%list_elem_of_fmap. simpl in Hj. subst j.
    destruct Hx as [Hx _]. rewrite Hb in Hx. done.
Qed.

(** C5. [cancel_session] on a stored session returns [True], and every booking
    of that session whose status is PENDING or CONFIRMED becomes CANCELLED with
    its update timestamp set to a reading of the clock and no other field
    changed, whatever the time and the start of the session; every other
    booking, in particular one that is COMPLETED, NO_SHOW or CANCELLED, is left
    as it was, and no booking is added. *)
Theorem cancel_session_cascade (db : DB) (utcnow : Clock) (session_id : Z)
    (reason : option string) (session : SessionModel.t) :
  sessions db !! session_id = Some session →
  let out := SessionService.cancel_session db utcnow session_id reason in
  out.1 = true
  ∧ (∀ i b, bookings db !! i = Some b →
            Booking.session_id b = session_id →
            is_active (Booking.status b) →
            ∃ n, bookings out.2 !! i
                 = Some (Booking.mk (Booking.user_id b) (Booking.session_id b)
                           (Booking.notes b) BookingStatus.CANCELLED (Booking.booking_date b)
                           (Some (utcnow n)) (Booking.admin_notes b)))
  ∧ (∀ i b, bookings db !! i = Some b →
            ¬ (Booking.session_id b = session_id ∧ is_active (Booking.status b)) →
            bookings out.2 !! i = Some b)
  ∧ (∀ i, bookings db !! i = None → bookings out.2 !! i = None).
Proof.
  intros Hs out. split; [|split; [|split]].
  - unfold out, SessionService.cancel_session, SessionService.get_session.
    by rewrite Hs.
  - intros i b Hb Hsid Hact.
    pose proof (cancel_session_bookings db utcnow session_id reason session i Hs) as H.
    rewrite Hb in H. by rewrite decide_True in H.
  - intros i b Hb Hno.
    pose proof (cancel_session_bookings db utcnow session_id reason session i Hs) as H.
    rewrite Hb in H. by rewrite decide_False in H.
  - intros i Hb.
    pose proof (cancel_session_bookings db utcnow session_id reason session i Hs) as H.
    by rewrite Hb in H.
Qed.

(** The theorem on [ex_db_booked], for session 1. *)
Lemma cancel_session_cascade_witness :
  (SessionService.cancel_session ex_db_booked (at_time 5) 1 None).1 = true
  ∧ (∀ i b, bookings ex_db_booked !! i = Some b →
            Booking.session_id b = 1 →
            is_active (Booking.status b) →
            ∃ n, bookings (SessionService.cancel_session ex_db_booked (at_time 5) 1 None).2
                 !! i
                 = Some (Booking.mk (Booking.user_id b) (Booking.session_id b)
                           (Booking.notes b) BookingStatus.CANCELLED (Booking.booking_date b)
                           (Some (at_time 5 n)) (Booking.admin_notes b)))
  ∧ (∀ i b, bookings ex_db_booked !! i = Some b →
            ¬ (Booking.session_id b = 1 ∧ is_active (Booking.status b)) →
            bookings (SessionService.cancel_session ex_db_booked (at_time 5) 1 None).2 !! i
            = Some b)
  ∧ (∀ i, bookings ex_db_booked !! i = None →
          bookings (SessionService.cancel_session ex_db_booked (at_time 5) 1 None).2 !! i
          = None).
Proof.
  apply (cancel_session_cascade ex_db_booked (at_time 5) 1 None ex_session).
  reflexivity.
Defined.

(** C6, as the specification states it, fails: the second call appends the
    note again. *)
Lemma cancel_session_twice_counterexample :
  let db1 := (SessionService.cancel_session ex_db (at_time 0) 1 (Some "rain")).2 in
  let db2 := (SessionService.cancel_session db1 (at_time 0) 1 (Some "rain")).2 in
  SessionModel.special_notes <$> sessions db1 !! 1
  = Some (Some (nl +:+ "Cancelled: rain"))
  ∧ SessionModel.special_notes <$> sessions db2 !! 1
    = Some (Some (nl +:+ "Cancelled: rain" +:+ nl +:+ "Cancelled: rain"))
  ∧ SessionModel.special_notes <$> sessions db2 !! 1
    ≠ SessionModel.special_notes <$> sessions db1 !! 1.
Proof. split; [by vm_compute|split; by vm_compute]. Qed.

Lemma str_or_empty (x : option string) : str_or x "" = default "" x.
Proof. destruct x as [s|]; simpl; [|done]. by case_decide. Qed.

(** C6, amended.  A second cancelSession call on a session that is already
    CANCELLED is permitted and returns [True]; it leaves the status CANCELLED
    and changes no booking, but it appends the cancellation note once more:
    the notes after the second call are the notes after the first call
    followed by a line feed and ["Cancelled: "] with the reason (["No reason
    provided"] when the reason is absent or empty). *)
Theorem cancel_session_twice (db : DB) (clock1 clock2 : Clock) (session_id : Z)
    (reason : option string) (session : SessionModel.t) :
  sessions db !! session_id = Some session →
  let out1 := SessionService.cancel_session db clock1 session_id reason in
  let out2 := SessionService.cancel_session out1.2 clock2 session_id reason in
  out2.1 = true
  ∧ bookings out2.2 = bookings out1.2
  ∧ ∃ s1 s2 notes1,
      sessions out1.2 !! session_id = Some s1
      ∧ sessions out2.2 !! session_id = Some s2
      ∧ SessionModel.status s1 = SessionStatus.CANCELLED
      ∧ SessionModel.status s2 = SessionStatus.CANCELLED
      ∧ SessionModel.special_notes s1 = Some notes1
      ∧ SessionModel.special_notes s2
        = Some (notes1 +:+ nl +:+ "Cancelled: " +:+ str_or reason "No reason provided").
Proof.
  intros Hs out1 out2.
  assert (filter (SessionService.to_cancel session_id) (bookings out1.2) = ∅) as Hnone.
  { apply map_empty_filter. intros i b' Hb' [Hsid Hact]. simpl in *.
    pose proof (cancel_session_bookings db clock1 session_id reason session i Hs) as H.
    fold out1 in H. rewrite Hb' in H.
    destruct (bookings db !! i) as [b|]; [|done].
    case_decide as Hm.
    - destruct H as [n [= ->]]. by apply not_active_CANCELLED in Hact.
    - injection H as ->. by apply Hm. }
  assert (sessions out1.2 !! session_id
          = Some (cancelled_session (clock1 0%nat) reason session)) as Hs1.
  { unfold out1. rewrite (cancel_session_found _ _ _ _ _ Hs). simpl.
    apply lookup_insert_eq. }
  unfold out2. rewrite (cancel_session_found _ _ _ _ _ Hs1). simpl.
  rewrite Hnone. unfold all. rewrite map_to_list_empty. simpl.
  split; [done|]. split; [done|].
  eexists _, _, _. rewrite Hs1, lookup_insert_eq.
  repeat (split; [reflexivity|]).
  unfold cancelled_session. cbn -[str_or String.append nl].
  by rewrite (str_or_empty (Some _)).
Qed.

(** The theorem on [ex_db_booked], for two calls on session 1 without reason. *)
Lemma cancel_session_twice_witness :
  let out1 := SessionService.cancel_session ex_db_booked (at_time 0) 1 None in
  let out2 := SessionService.cancel_session out1.2 (at_time 9) 1 None in
  out2.1 = true
  ∧ bookings out2.2 = bookings out1.2
  ∧ ∃ s1 s2 notes1,
      sessions out1.2 !! 1 = Some s1
      ∧ sessions out2.2 !! 1 = Some s2
      ∧ SessionModel.status s1 = SessionStatus.CANCELLED
      ∧ SessionModel.status s2 = SessionStatus.CANCELLED
      ∧ SessionModel.special_notes s1 = Some notes1
      ∧ SessionModel.special_notes s2
        = Some (notes1 +:+ nl +:+ "Cancelled: " +:+ str_or None "No reason provided").
Proof.
  apply (cancel_session_twice ex_db_booked (at_time 0) (at_time 9) 1 None ex_session).
  reflexivity.
Defined.

(** ** Terminal bookings *)

(** C7, as the specification states it, fails: on the COMPLETED booking 3 of
    [ex_db_booked], an administrative cancelBooking writes CANCELLED,
    markAttendance writes NO_SHOW and updateBooking writes PENDING. *)
Lemma terminal_status_counterexample :
  Booking.status <$> bookings ex_db_booked !! 3 = Some BookingStatus.COMPLETED
  ∧ is_terminal BookingStatus.COMPLETED
  ∧ Booking.status <$>
      bookings (step ex_db_booked (at_time 0) (CancelBooking 3 None None)) !! 3
    = Some BookingStatus.CANCELLED
  ∧ Booking.status <$>
      bookings (step ex_db_booked (at_time (timedelta_hours 200))
                  (MarkAttendance 3 false)) !! 3
    = Some BookingStatus.NO_SHOW
  ∧ Booking.status <$>
      bookings (step ex_db_booked (at_time 0)
                  (UpdateBooking 3
                     (BookingUpdate.mk (Some BookingStatus.PENDING) None None) None)) !! 3
    = Some BookingStatus.PENDING.
Proof.
  split; [by vm_compute|]. split; [right; by left|].
  split; [by vm_compute|]. split; by vm_compute.
Qed.

Lemma terminal_not_active st : is_terminal st → ¬ is_active st.
Proof. intros [-> | [-> | ->]] [?|?]; discriminate. Qed.

(** C7, amended.  Once a booking is in a terminal state (CANCELLED, COMPLETED
    or NO_SHOW), its status is left unchanged by every call except a
    cancelBooking or a markAttendance on that booking and an updateBooking on it
    whose patch has a status: confirmBooking refuses it, the cascade of
    cancelSession skips it, and note edits through updateBooking keep it.
    Those three calls are not guarded by the current status: where they
    succeed they write CANCELLED, COMPLETED or NO_SHOW, and the status of the
    patch. *)
Theorem terminal_status_kept (db : DB) (utcnow : Clock) (op : Op) (booking_id : Z)
    (booking : Booking.t) :
  bookings db !! booking_id = Some booking →
  is_terminal (Booking.status booking) →
  (¬ overwrites booking_id op →
   ∃ b', bookings (step db utcnow op) !! booking_id = Some b'
         ∧ Booking.status b' = Booking.status booking)
  ∧ (∀ user_id reason db',
       BookingService.cancel_booking db utcnow booking_id user_id reason = Ok (true, db') →
       Booking.status <$> bookings db' !! booking_id = Some BookingStatus.CANCELLED)
  ∧ (∀ attended db',
       BookingService.mark_attendance db utcnow booking_id attended = Ok (true, db') →
       Booking.status <$> bookings db' !! booking_id
       = Some (if attended then BookingStatus.COMPLETED else BookingStatus.NO_SHOW))
  ∧ (∀ d st user_id b' db',
       BookingUpdate.status d = Some st →
       BookingService.update_booking db utcnow booking_id d user_id = Ok (Some b', db') →
       Booking.status <$> bookings db' !! booking_id = Some st).
Proof.
  intros Hb Hterm. split; [|split; [|split]].
  - intros Hop. destruct op as [d u|i d|i r|i|d u|i d u|i u r|i|i a]; simpl in *.
    + exists booking. split; [|done].
      unfold SessionService.create_session.
      destruct (classes db !! _); [|done].
      by destruct (SessionService.check_scheduling_conflicts _ _ _ _ _).
    + exists booking. split; [|done].
      unfold SessionService.update_session, SessionService.get_session.
      destruct (sessions db !! i); [|done].
      by destruct (if decide _ then _ else _).
    + exists booking. split; [|done].
      destruct (sessions db !! i) as [s|] eqn:Hs.
      * pose proof (cancel_session_bookings db utcnow i r s booking_id Hs) as H.
        rewrite Hb in H. rewrite decide_False in H; [done|].
        intros [_ Hact]. by apply terminal_not_active in Hact.
      * unfold SessionService.cancel_session, SessionService.get_session.
        by rewrite Hs.
    + exists booking. split; [|done].
      unfold SessionService.mark_session_completed, SessionService.get_session.
      by destruct (sessions db !! i).
    + exists booking. split; [|done].
      unfold BookingService.create_booking. cbv zeta.
      destruct (sessions db !! _) as [s|]; [|done].
      repeat (case_decide; [done|]).
      destruct (classes db !! _); [|done].
      case_decide; [done|]. destruct (first _); [done|]. case_decide; [done|].
      simpl. rewrite lookup_insert_ne; [done|].
      intros Heq. rewrite <- Heq, fresh_id_fresh in Hb. done.
    + unfold BookingService.update_booking, BookingService.get_booking.
      destruct (decide (i = booking_id)) as [->|Hne].
      * rewrite Hb. case_decide; [by exists booking|]. simpl.
        rewrite lookup_insert_eq. eexists. split; [done|]. simpl.
        rewrite booking_apply_update_status.
        destruct (BookingUpdate.status d) as [st|] eqn:Hst; [|done].
        destruct Hop. split; [done|by eexists].
      * exists booking. split; [|done].
        destruct (bookings db !! i); [|done]. case_decide; [done|]. simpl.
        by rewrite lookup_insert_ne.
    + exists booking. split; [|done].
      unfold BookingService.cancel_booking, BookingService.get_booking.
      destruct (bookings db !! i) as [b|]; [|done]. case_decide; [done|].
      destruct (sessions db !! _); [|done]. case_decide; [done|]. simpl.
      by rewrite lookup_insert_ne.
    + exists booking. split; [|done].
      unfold BookingService.confirm_booking, BookingService.get_booking.
      destruct (decide (i = booking_id)) as [->|Hne].
      * rewrite Hb. case_decide as Hst; [done|].
        assert (Booking.status booking = BookingStatus.PENDING) as Hp.
        { destruct (decide (Booking.status booking = BookingStatus.PENDING));
            [done|contradiction]. }
        rewrite Hp in Hterm. destruct Hterm as [?|[?|?]]; discriminate.
      * destruct (bookings db !! i); [|done]. case_decide; [done|]. simpl.
        by rewrite lookup_insert_ne.
    + exists booking. split; [|done].
      unfold BookingService.mark_attendance, BookingService.get_booking.
      destruct (bookings db !! i) as [b|]; [|done].
      destruct (sessions db !! _); [|done]. case_decide; [done|]. simpl.
      by rewrite lookup_insert_ne.
  - intros user_id reason db'.
    unfold BookingService.cancel_booking, BookingService.get_booking. rewrite Hb.
    case_decide; [done|]. destruct (sessions db !! _); [|done].
    case_decide; [done|]. intros [= <-]. simpl. rewrite lookup_insert_eq.
    by case_decide.
  - intros attended db'.
    unfold BookingService.mark_attendance, BookingService.get_booking. rewrite Hb.
    destruct (sessions db !! _); [|done]. case_decide; [done|].
    intros [= <-]. simpl. by rewrite lookup_insert_eq.
  - intros d st user_id b' db' Hst.
    unfold BookingService.update_booking, BookingService.get_booking. rewrite Hb.
    case_decide; [done|]. intros [= <- <-]. simpl. rewrite lookup_insert_eq. simpl.
    by rewrite booking_apply_update_status, Hst.
Qed.

(** The theorem on the completed booking 3 of [ex_db_booked], for confirmBooking. *)
Lemma terminal_status_kept_witness :
  ∃ b', bookings (step ex_db_booked (at_time 0) (ConfirmBooking 3)) !! 3 = Some b'
        ∧ Booking.status b' = BookingStatus.COMPLETED.
Proof.
  apply (terminal_status_kept ex_db_booked (at_time 0) (ConfirmBooking 3) 3
           (Booking.mk 5 1 None BookingStatus.COMPLETED 0 None None)).
  - reflexivity.
  - right. by left.
  - simpl. tauto.
Defined.

(** ** cancelBooking, updateBooking and the acting user *)

(** The checks of [cancel_booking] for an acting user that is absent or not 0:
    Forbidden exactly when the acting user is given and is not the owner,
    DeadlinePassed exactly when the owner acts later than 4 hours before the
    start, and otherwise the booking is stored CANCELLED with the update
    timestamp stamped and the reason, when there is one, appended to the admin
    notes. *)
Lemma cancel_booking_checks db utcnow booking_id user_id reason booking session :
  bookings db !! booking_id = Some booking →
  sessions db !! Booking.session_id booking = Some session →
  user_id ≠ Some 0 →
  let result := BookingService.cancel_booking db utcnow booking_id user_id reason in
  let late := utcnow 0%nat > SessionModel.start_time session - timedelta_hours 4 in
  let foreign := supplied user_id ∧ user_id ≠ Some (Booking.user_id booking) in
  (result = Raise Forbidden ↔ foreign)
  ∧ (result = Raise CancelDeadlinePassed ↔ ¬ foreign ∧ late ∧ supplied user_id)
  ∧ (¬ foreign → ¬ (late ∧ supplied user_id) →
     ∃ b', result = Ok (true, set_bookings (<[booking_id := b']> (bookings db)) db)
           ∧ Booking.status b' = BookingStatus.CANCELLED
           ∧ Booking.updated_at b' = Some (utcnow 1%nat)
           ∧ Booking.admin_notes b'
             = (if decide (truthy_str reason)
                then Some (default "" (Booking.admin_notes booking) +:+ nl
                           +:+ "Cancellation reason: " +:+ default "" reason)
                else Booking.admin_notes booking)
           ∧ Booking.user_id b' = Booking.user_id booking
           ∧ Booking.session_id b' = Booking.session_id booking
           ∧ Booking.notes b' = Booking.notes booking
           ∧ Booking.booking_date b' = Booking.booking_date booking).
Proof.
  intros Hb Hs Hnz result late foreign.
  assert (truthy_int user_id ↔ supplied user_id) as Htruthy.
  { destruct user_id as [u|]; simpl.
    - split; [by eexists|]. intros _ ->. done.
    - split; [done|]. by intros [? ?]. }
  assert (BookingService.not_owner user_id booking ↔ foreign) as Hown.
  { unfold BookingService.not_owner, foreign. rewrite Htruthy.
    split; intros [? Hne]; (split; [done|]); intros Heq; by apply Hne. }
  unfold result, BookingService.cancel_booking, BookingService.get_booking.
  rewrite Hb.
  destruct (decide (BookingService.not_owner user_id booking)) as [Hf|Hf].
  - apply Hown in Hf. split; [done|]. split; [|done].
    split; [discriminate|]. by intros [? _].
  - rewrite Hown in Hf. rewrite Hs.
    destruct (decide (_ ∧ truthy_int user_id)) as [[Hl Ht]|Hl].
    + apply Htruthy in Ht. split; [split; [discriminate|done]|].
      split; [|intros _ Hn; destruct Hn; split; [unfold late; lia|done]].
      split; [intros _|done]. split; [done|]. split; [unfold late; lia|done].
    + split; [split; [discriminate|done]|].
      split.
      * split; [discriminate|]. intros (_ & Hlate & Hsup). destruct Hl.
        split; [unfold late in Hlate; lia|by apply Htruthy].
      * intros _ _. eexists. split; [reflexivity|].
        case_decide; simpl; rewrite ?str_or_empty; done.
Qed.

(** C8, at the acting user 0.  One hour before the start of the session, the
    call [cancel_booking(1, user_id=0)] on the pending booking of user 7 raises
    neither Forbidden nor DeadlinePassed: it cancels the booking. *)
Theorem cancel_booking_zero_user_not_forbidden :
  Booking.user_id <$> bookings ex_db_booked !! 1 = Some 7
  ∧ supplied (Some 0)
  ∧ at_time (timedelta_hours 99) 0%nat
    > SessionModel.start_time ex_session - timedelta_hours 4
  ∧ ∃ db',
      BookingService.cancel_booking ex_db_booked (at_time (timedelta_hours 99)) 1
        (Some 0) None
      = Ok (true, db')
      ∧ Booking.status <$> bookings db' !! 1 = Some BookingStatus.CANCELLED.
Proof.
  split; [by vm_compute|]. split; [by eexists|]. split; [by vm_compute|].
  eexists. split; [by vm_compute|]. by vm_compute.
Qed.

(** C10. For [cancel_booking] and [update_booking], the acting user 0 is treated as
    an absent acting user: the calls return what the administrative calls
    return, so the ownership check is skipped and, for [cancel_booking], the
    4-hour deadline check too. *)
Theorem zero_user_is_admin (db : DB) (utcnow : Clock) (booking_id : Z)
    (booking_data : BookingUpdate.t) (reason : option string) :
  BookingService.cancel_booking db utcnow booking_id (Some 0) reason
  = BookingService.cancel_booking db utcnow booking_id None reason
  ∧ BookingService.update_booking db utcnow booking_id booking_data (Some 0)
    = BookingService.update_booking db utcnow booking_id booking_data None
  ∧ BookingService.cancel_booking db utcnow booking_id (Some 0) reason ≠ Raise Forbidden
  ∧ BookingService.cancel_booking db utcnow booking_id (Some 0) reason
    ≠ Raise CancelDeadlinePassed
  ∧ BookingService.update_booking db utcnow booking_id booking_data (Some 0)
    ≠ Raise UpdateForbidden.
Proof.
  assert (∀ b, ¬ BookingService.not_owner (Some 0) b) as Hzero.
  { intros b [Ht _]. by apply Ht. }
  assert (∀ b, ¬ BookingService.not_owner None b) as Hnone.
  { by intros b [Ht _]. }
  assert (∀ P, ¬ (P ∧ truthy_int (Some 0))) as Hlate0.
  { intros P [_ Ht]. by apply Ht. }
  assert (∀ P, ¬ (P ∧ truthy_int None)) as Hlate.
  { by intros P [_ Ht]. }
  unfold BookingService.cancel_booking, BookingService.update_booking,
    BookingService.get_booking.
  destruct (bookings db !! booking_id) as [b|]; [|done].
  rewrite !(decide_False (P := BookingService.not_owner _ b)) by auto.
  split; [|split; [done|split; [|split; [|done]]]].
  - destruct (sessions db !! Booking.session_id b); [|done].
    by rewrite !(decide_False (P := _ ∧ truthy_int _)) by auto.
  - destruct (sessions db !! Booking.session_id b); [|done].
    by rewrite !(decide_False (P := _ ∧ truthy_int _)) by auto.
  - destruct (sessions db !! Booking.session_id b); [|done].
    by rewrite !(decide_False (P := _ ∧ truthy_int _)) by auto.
Qed.

(** ** computeStats *)

(** The rows [get_booking_stats] reads are the bookings in the window. *)
Lemma filter_in_range_window s e (m : gmap Z Booking.t) :
  filter (BookingService.in_range s e) m = filter (λ r, inWindow s e r.2) m.
Proof. apply map_filter_ext. intros i b _. reflexivity. Qed.

Lemma count_status_window s e st (m : gmap Z Booking.t) :
  BookingService.count_status st (all (filter (BookingService.in_range s e) m))
  = size (filter (λ r, inWindow s e r.2 ∧ Booking.status r.2 = st) m).
Proof.
  unfold BookingService.count_status. rewrite length_filter_all.
  rewrite filter_in_range_window, map_filter_filter. f_equal.
  apply map_filter_ext. intros i b _. simpl. tauto.
Qed.

(** The rate of the code on two counts below [2^53], the second not 0. *)
Lemma rate_ieee (n total : nat) :
  (0 < total)%nat → Z.of_nat n < 2 ^ 53 → Z.of_nat total < 2 ^ 53 →
  Prim2SF (BookingService.rate n total) = ieee_rate (Z.of_nat n) (Z.of_nat total).
Proof.
  intros Hpos Hn Htotal. unfold BookingService.rate, ieee_rate.
  rewrite decide_True by done.
  rewrite FloatAxioms.mul_spec, FloatAxioms.div_spec.
  unfold BookingService.float_of_count.
  rewrite !of_uint63_spec, !Uint63.of_Z_spec.
  assert (2 ^ 53 < wB) by (by vm_compute).
  rewrite !Z.mod_small by lia. reflexivity.
Qed.

(** C9. [get_booking_stats] counts the bookings whose creation time lies in the
    optional date window.  With [total], [completed] and [no_shows] the
    numbers of those bookings, of the COMPLETED ones and of the NO_SHOW ones
    among them, both rates are 0 when [total] is 0, and otherwise they are
    completed / total * 100 and no_shows / total * 100 in IEEE 754 binary64
    arithmetic on these integers (for a table of fewer than [2^53] rows). *)
Theorem get_booking_stats_rates (db : DB) (start_date end_date : option datetime) :
  Z.of_nat (size (bookings db)) < 2 ^ 53 →
  let stats := BookingService.get_booking_stats db start_date end_date in
  let total :=
    size (filter (λ r, inWindow start_date end_date r.2) (bookings db)) in
  let completed :=
    size (filter (λ r, inWindow start_date end_date r.2
                       ∧ Booking.status r.2 = BookingStatus.COMPLETED) (bookings db)) in
  let no_shows :=
    size (filter (λ r, inWindow start_date end_date r.2
                       ∧ Booking.status r.2 = BookingStatus.NO_SHOW) (bookings db)) in
  BookingStats.total_bookings stats = total
  ∧ (total = 0%nat →
     BookingStats.completion_rate stats = 0%float
     ∧ BookingStats.no_show_rate stats = 0%float)
  ∧ (total ≠ 0%nat →
     Prim2SF (BookingStats.completion_rate stats)
     = ieee_rate (Z.of_nat completed) (Z.of_nat total)
     ∧ Prim2SF (BookingStats.no_show_rate stats)
       = ieee_rate (Z.of_nat no_shows) (Z.of_nat total)).
Proof.
  intros Hsize stats total completed no_shows.
  assert (BookingStats.total_bookings stats = total) as Htotal.
  { unfold stats, BookingService.get_booking_stats. simpl.
    unfold all. by rewrite length_map_to_list, filter_in_range_window. }
  assert (BookingStats.completion_rate stats
          = BookingService.rate completed total) as Hcompleted.
  { rewrite <- Htotal. unfold stats, BookingService.get_booking_stats. simpl.
    by rewrite count_status_window. }
  assert (BookingStats.no_show_rate stats
          = BookingService.rate no_shows total) as Hno_shows.
  { rewrite <- Htotal. unfold stats, BookingService.get_booking_stats. simpl.
    by rewrite count_status_window. }
  assert (∀ P `{!∀ x, Decision (P x)},
            (size (filter P (bookings db)) ≤ size (bookings db))%nat) as Hle.
  { intros P ?. apply map_subseteq_size, map_filter_subseteq. }
  pose proof (Hle (λ r, inWindow start_date end_date r.2) _) as Ht.
  pose proof (Hle (λ r, inWindow start_date end_date r.2
                        ∧ Booking.status r.2 = BookingStatus.COMPLETED) _) as Hc.
  pose proof (Hle (λ r, inWindow start_date end_date r.2
                        ∧ Booking.status r.2 = BookingStatus.NO_SHOW) _) as Hn.
  fold total in Ht. fold completed in Hc. fold no_shows in Hn.
  split; [done|]. rewrite Hcompleted, Hno_shows. split.
  - intros ->. unfold BookingService.rate. by rewrite decide_False by lia.
  - intros Hpos. split; apply rate_ieee; lia.
Qed.

(** The theorem on [ex_db_booked], with one completed booking out of three: the
    completion rate is the binary64 number nearest to 100/3 below it, the
    no-show rate is 0. *)
Lemma get_booking_stats_rates_witness :
  BookingStats.total_bookings (BookingService.get_booking_stats ex_db_booked None None)
  = 3%nat
  ∧ BookingStats.completion_rate (BookingService.get_booking_stats ex_db_booked None None)
    = SF2Prim (ieee_rate 1 3)
  ∧ SF2Prim (ieee_rate 1 3) = 0x1.0aaaaaaaaaaaap+5%float
  ∧ BookingStats.no_show_rate (BookingService.get_booking_stats ex_db_booked None None)
    = SF2Prim (ieee_rate 0 3)
  ∧ SF2Prim (ieee_rate 0 3) = 0%float.
Proof.
  destruct (get_booking_stats_rates ex_db_booked None None)
    as (Htotal & _ & Hrates); [by vm_compute|].
  destruct Hrates as [Hc Hn]; [by vm_compute|].
  split; [exact Htotal|].
  split; [rewrite <- (SF2Prim_Prim2SF (BookingStats.completion_rate _)), Hc;
          by vm_compute|].
  split; [by vm_compute|].
  split; [rewrite <- (SF2Prim_Prim2SF (BookingStats.no_show_rate _)), Hn;
          by vm_compute|].
  by vm_compute.
Defined.

(** The statistics of [ex_db_booked], with one completed booking out of three,
    and of the empty window before time 0. *)
Example get_booking_stats_third :
  BookingStats.completion_rate (BookingService.get_booking_stats ex_db_booked None None)
  = 0x1.0aaaaaaaaaaaap+5%float
  ∧ BookingStats.no_show_rate (BookingService.get_booking_stats ex_db_booked None None)
    = 0%float
  ∧ BookingStats.completion_rate
      (BookingService.get_booking_stats ex_db_booked None (Some (-1)))
    = 0%float.
Proof. split; [by vm_compute|split; by vm_compute]. Qed.

(** * Further properties of the services *)

(** ** The effect of createBooking *)

Lemma create_booking_Ok_inv db utcnow d u id b db' :
  BookingService.create_booking db utcnow d u = Ok (id, b, db') →
  ∃ s c,
    sessions db !! BookingCreate.session_id d = Some s
    ∧ SessionModel.status s = SessionStatus.SCHEDULED
    ∧ utcnow 0%nat < SessionModel.start_time s
    ∧ classes db !! SessionModel.class_id s = Some c
    ∧ BookingService.get_session_booking_count db (BookingCreate.session_id d)
      < Class.max_capacity c
    ∧ (∀ i x, bookings db !! i = Some x →
              ¬ BookingService.existing u (BookingCreate.session_id d) (i, x))
    ∧ utcnow 1%nat ≤ SessionModel.start_time s - timedelta_hours 2
    ∧ id = fresh_id (bookings db)
    ∧ b = Booking.mk u (BookingCreate.session_id d) (BookingCreate.notes d)
            BookingStatus.PENDING (utcnow 2%nat) None None
    ∧ db' = set_bookings (<[id := b]> (bookings db)) db.
Proof.
  unfold BookingService.create_booking. cbv zeta.
  destruct (sessions db !! BookingCreate.session_id d) as [s|] eqn:Hs; [|done].
  case_decide as Hst; [done|]. case_decide as Hpast; [done|].
  destruct (classes db !! SessionModel.class_id s) as [c|] eqn:Hc; [|done].
  case_decide as Hcap; [done|].
  destruct (first _) eqn:Hdup; [done|]. case_decide as Hdl; [done|].
  intros [= <- <- <-]. exists s, c.
  rewrite first_filter_None in Hdup.
  split; [done|]. split.
  { destruct (decide (SessionModel.status s = SessionStatus.SCHEDULED));
      [done|contradiction]. }
  repeat (split; [first [done | lia]|]). done.
Qed.

Lemma count_insert_new db id b sid :
  bookings db !! id = None →
  BookingService.get_session_booking_count
    (set_bookings (<[id := b]> (bookings db)) db) sid
  = BookingService.get_session_booking_count db sid
    + (if decide (BookingService.counted sid (id, b)) then 1 else 0).
Proof.
  intros Hid. unfold BookingService.get_session_booking_count. simpl.
  rewrite size_filter_insert_None by done. case_decide; lia.
Qed.

(** The rows after a successful [create_booking]. *)
Lemma create_booking_rows db utcnow d u id b db' :
  BookingService.create_booking db utcnow d u = Ok (id, b, db') →
  bookings db !! id = None
  ∧ bookings db' !! id = Some b
  ∧ (∀ j, j ≠ id → bookings db' !! j = bookings db !! j)
  ∧ sessions db' = sessions db
  ∧ classes db' = classes db
  ∧ Booking.status b = BookingStatus.PENDING
  ∧ Booking.user_id b = u
  ∧ Booking.session_id b = BookingCreate.session_id d.
Proof.
  intros (s & c & _ & _ & _ & _ & _ & _ & _ & -> & -> & ->)%create_booking_Ok_inv.
  split; [apply fresh_id_fresh|]. split; [apply lookup_insert_eq|].
  split; [intros j Hj; by apply lookup_insert_ne|]. done.
Qed.

(** The active booking counts after a successful [create_booking]. *)
Lemma create_booking_counts db utcnow d u id b db' sid :
  BookingService.create_booking db utcnow d u = Ok (id, b, db') →
  BookingService.get_session_booking_count db' sid
  = BookingService.get_session_booking_count db sid
    + (if decide (sid = BookingCreate.session_id d) then 1 else 0).
Proof.
  intros (s & c & _ & _ & _ & _ & _ & _ & _ & -> & -> & ->)%create_booking_Ok_inv.
  rewrite count_insert_new by apply fresh_id_fresh.
  destruct (decide (sid = BookingCreate.session_id d)) as [->|Hsid].
  - rewrite decide_True; [done|]. split; [done|by left].
  - rewrite decide_False; [done|]. intros [Heq _]. simpl in Heq. congruence.
Qed.

(** X1. A successful [create_booking] stores the returned booking under a key
    that was free, where [get_booking] finds it; it leaves every other
    booking, the sessions and the classes as they were; the active booking
    count of the booked session grows by exactly one and the count of every
    other session is unchanged. *)
Theorem create_booking_effect (db : DB) (utcnow : Clock) (booking_data : BookingCreate.t)
    (user_id id : Z) (booking : Booking.t) (db' : DB) :
  BookingService.create_booking db utcnow booking_data user_id = Ok (id, booking, db') →
  bookings db !! id = None
  ∧ id ≠ 0
  ∧ BookingService.get_booking db' id = Some booking
  ∧ (∀ j, j ≠ id → bookings db' !! j = bookings db !! j)
  ∧ sessions db' = sessions db
  ∧ classes db' = classes db
  ∧ Booking.status booking = BookingStatus.PENDING
  ∧ Booking.user_id booking = user_id
  ∧ Booking.session_id booking = BookingCreate.session_id booking_data
  ∧ BookingService.get_session_booking_count db' (BookingCreate.session_id booking_data)
    = BookingService.get_session_booking_count db (BookingCreate.session_id booking_data)
      + 1
  ∧ (∀ sid, sid ≠ BookingCreate.session_id booking_data →
            BookingService.get_session_booking_count db' sid
            = BookingService.get_session_booking_count db sid).
Proof.
  intros Hok.
  pose proof (create_booking_rows _ _ _ _ _ _ _ Hok)
    as (Hfree & Hget & Hrest & Hses & Hcls & Hst & Hu & Hsid).
  pose proof (λ sid, create_booking_counts _ _ _ _ _ _ _ sid Hok) as Hcnt.
  apply create_booking_Ok_inv in Hok
    as (_ & _ & _ & _ & _ & _ & _ & _ & _ & -> & _ & _).
  pose proof (fresh_id_pos (bookings db)) as Hpos.
  split; [done|]. split; [lia|]. repeat (split; [done|]). split.
  - rewrite Hcnt. by rewrite decide_True.
  - intros sid Hne. rewrite Hcnt, decide_False by done. lia.
Qed.

(** X1 on [ex_db], for user 7 booking session 1 at time 0. *)
Lemma create_booking_effect_witness :
  BookingService.get_session_booking_count
    (committed ex_db
       (BookingService.create_booking ex_db (at_time 0) (BookingCreate.mk 1 None) 7)) 1
  = BookingService.get_session_booking_count ex_db 1 + 1.
Proof.
  eapply (create_booking_effect ex_db (at_time 0) (BookingCreate.mk 1 None) 7).
  by vm_compute.
Defined.

(** X2. After a successful [create_booking], a second booking of the same
    session by the same user, made while the session has not started, is
    refused: with CapacityExceeded when the first booking took the last seat,
    and with DuplicateBooking otherwise. *)
Theorem create_booking_twice (db : DB) (clock1 clock2 : Clock)
    (booking_data again : BookingCreate.t) (user_id id : Z) (booking : Booking.t)
    (db' : DB) (session : SessionModel.t) (class_obj : Class.t) :
  BookingService.create_booking db clock1 booking_data user_id = Ok (id, booking, db') →
  BookingCreate.session_id again = BookingCreate.session_id booking_data →
  sessions db !! BookingCreate.session_id booking_data = Some session →
  classes db !! SessionModel.class_id session = Some class_obj →
  clock2 0%nat < SessionModel.start_time session →
  BookingService.create_booking db' clock2 again user_id
  = if decide (Class.max_capacity class_obj
               ≤ BookingService.get_session_booking_count db
                   (BookingCreate.session_id booking_data) + 1)
    then Raise CapacityExceeded
    else Raise DuplicateBooking.
Proof.
  intros Hok Hsame Hs Hc Hfuture.
  pose proof (create_booking_rows _ _ _ _ _ _ _ Hok)
    as (Hfree & Hget & _ & Hses & Hcls & Hst & Hu & Hsid).
  pose proof (create_booking_counts _ _ _ _ _ _ _
                (BookingCreate.session_id booking_data) Hok) as Hcnt.
  rewrite decide_True in Hcnt by done.
  apply create_booking_Ok_inv in Hok
    as (s & c & Hs' & Hsched & _ & _ & _ & _ & _ & _ & _ & _).
  rewrite Hs in Hs'. injection Hs' as <-.
  unfold BookingService.create_booking. cbv zeta.
  rewrite Hsame, Hses, Hs, Hcls, Hc, Hcnt.
  rewrite decide_False by (rewrite Hsched; auto).
  rewrite decide_False by lia.
  case_decide; [done|].
  destruct (first _) eqn:Hfirst; [done|].
  rewrite first_filter_None in Hfirst.
  destruct (Hfirst id booking Hget). split; [done|]. split; [done|].
  simpl. rewrite Hst. by left.
Qed.

(** X2 on [ex_db_two_seats]: the second booking of user 7 is a duplicate. *)
Lemma create_booking_twice_witness :
  BookingService.create_booking
    (committed ex_db_two_seats
       (BookingService.create_booking ex_db_two_seats (at_time 0)
          (BookingCreate.mk 1 None) 7))
    (at_time 5) (BookingCreate.mk 1 (Some "again")) 7
  = Raise DuplicateBooking.
Proof.
  apply (create_booking_twice ex_db_two_seats (at_time 0) (at_time 5)
           (BookingCreate.mk 1 None) (BookingCreate.mk 1 (Some "again")) 7 1
           (Booking.mk 7 1 None BookingStatus.PENDING 0 None None)
           (committed ex_db_two_seats
              (BookingService.create_booking ex_db_two_seats (at_time 0)
                 (BookingCreate.mk 1 None) 7))
           ex_session (Class.mk 2)).
  - by vm_compute.
  - reflexivity.
  - by vm_compute.
  - by vm_compute.
  - by vm_compute.
Defined.

(** ** confirmBooking, markAttendance, updateBooking, cancelBooking *)

(** X3. On a stored booking, [confirm_booking] raises InvalidTransition exactly
    when the status is not PENDING; on a PENDING booking it stores CONFIRMED
    with the update timestamp and keeps every other column, and a second
    [confirm_booking] on the result raises InvalidTransition. *)
Theorem confirm_booking_once (db : DB) (utcnow : Clock) (booking_id : Z)
    (booking : Booking.t) :
  bookings db !! booking_id = Some booking →
  let confirmed :=
    Booking.mk (Booking.user_id booking) (Booking.session_id booking)
      (Booking.notes booking) BookingStatus.CONFIRMED (Booking.booking_date booking)
      (Some (utcnow 0%nat)) (Booking.admin_notes booking) in
  let db' := set_bookings (<[booking_id := confirmed]> (bookings db)) db in
  (BookingService.confirm_booking db utcnow booking_id = Raise InvalidTransition
   ↔ Booking.status booking ≠ BookingStatus.PENDING)
  ∧ (Booking.status booking = BookingStatus.PENDING →
     BookingService.confirm_booking db utcnow booking_id = Ok (true, db')
     ∧ ∀ clock2, BookingService.confirm_booking db' clock2 booking_id
                 = Raise InvalidTransition).
Proof.
  intros Hb confirmed db'.
  unfold BookingService.confirm_booking, BookingService.get_booking. rewrite Hb.
  split.
  - case_decide; [done|]. split; [discriminate|]. intros Hne.
    destruct (decide (Booking.status booking = BookingStatus.PENDING)); contradiction.
  - intros Hp. rewrite decide_False by (rewrite Hp; auto). split; [done|].
    intros clock2. simpl. rewrite lookup_insert_eq. by rewrite decide_True.
Qed.

(** X3 on the pending booking 1 of [ex_db_booked]. *)
Lemma confirm_booking_once_witness :
  BookingService.confirm_booking ex_db_booked (at_time 0) 1 = Raise InvalidTransition
  ↔ BookingStatus.PENDING ≠ BookingStatus.PENDING.
Proof.
  apply (confirm_booking_once ex_db_booked (at_time 0) 1
           (Booking.mk 7 1 None BookingStatus.PENDING 0 None None)).
  by vm_compute.
Defined.

(** X4. On a stored booking of a stored session, [mark_attendance] raises
    TooEarly exactly when the clock reads a time before the start of the
    session; from the start on it succeeds whatever the current status of the
    booking, stores COMPLETED or NO_SHOW with the update timestamp and keeps
    every other column. *)
Theorem mark_attendance_checks (db : DB) (utcnow : Clock) (booking_id : Z)
    (attended : bool) (booking : Booking.t) (session : SessionModel.t) :
  bookings db !! booking_id = Some booking →
  sessions db !! Booking.session_id booking = Some session →
  let marked :=
    Booking.mk (Booking.user_id booking) (Booking.session_id booking)
      (Booking.notes booking)
      (if attended then BookingStatus.COMPLETED else BookingStatus.NO_SHOW)
      (Booking.booking_date booking) (Some (utcnow 1%nat))
      (Booking.admin_notes booking) in
  (BookingService.mark_attendance db utcnow booking_id attended = Raise TooEarly
   ↔ utcnow 0%nat < SessionModel.start_time session)
  ∧ (SessionModel.start_time session ≤ utcnow 0%nat →
     BookingService.mark_attendance db utcnow booking_id attended
     = Ok (true, set_bookings (<[booking_id := marked]> (bookings db)) db)).
Proof.
  intros Hb Hs marked.
  unfold BookingService.mark_attendance, BookingService.get_booking.
  rewrite Hb, Hs. split.
  - case_decide; [done|]. split; [discriminate|]. lia.
  - intros Hstarted. by rewrite decide_False by lia.
Qed.

(** X4 on the completed booking 3 of [ex_db_booked], at the start of the
    session. *)
Lemma mark_attendance_checks_witness :
  BookingService.mark_attendance ex_db_booked (at_time (timedelta_hours 100)) 3 true
  = Raise TooEarly
  ↔ timedelta_hours 100 < SessionModel.start_time ex_session.
Proof.
  apply (mark_attendance_checks ex_db_booked (at_time (timedelta_hours 100)) 3 true
           (Booking.mk 5 1 None BookingStatus.COMPLETED 0 None None) ex_session).
  - by vm_compute.
  - by vm_compute.
Defined.

(** X5. On a stored booking, [update_booking] raises Forbidden exactly when the
    acting user is given, is not 0 and is not the owner.  Otherwise it stores
    the booking with each of status, notes and admin notes replaced when the
    patch gives it and kept when it does not, the update timestamp stamped,
    and the user, the session and the booking date kept; no other booking
    changes. *)
Theorem update_booking_patch (db : DB) (utcnow : Clock) (booking_id : Z)
    (booking_data : BookingUpdate.t) (user_id : option Z) (booking : Booking.t) :
  bookings db !! booking_id = Some booking →
  let foreign := ∃ u, user_id = Some u ∧ u ≠ 0 ∧ u ≠ Booking.user_id booking in
  let updated :=
    Booking.mk (Booking.user_id booking) (Booking.session_id booking)
      (default (Booking.notes booking) (BookingUpdate.notes booking_data))
      (default (Booking.status booking) (BookingUpdate.status booking_data))
      (Booking.booking_date booking) (Some (utcnow 0%nat))
      (default (Booking.admin_notes booking) (BookingUpdate.admin_notes booking_data)) in
  (BookingService.update_booking db utcnow booking_id booking_data user_id
   = Raise UpdateForbidden ↔ foreign)
  ∧ (¬ foreign →
     BookingService.update_booking db utcnow booking_id booking_data user_id
     = Ok (Some updated, set_bookings (<[booking_id := updated]> (bookings db)) db)).
Proof.
  intros Hb foreign updated.
  assert (BookingService.not_owner user_id booking ↔ foreign) as Hown.
  { unfold BookingService.not_owner, foreign. split.
    - intros [Ht Hne]. destruct user_id as [u|]; [|done]. exists u.
      split; [done|]. split; [done|]. intros ->. by apply Hne.
    - intros (u & -> & Hz & Hne). split; [done|]. intros [= <-]. done. }
  unfold BookingService.update_booking, BookingService.get_booking. rewrite Hb.
  destruct (decide (BookingService.not_owner user_id booking)) as [Hf|Hf].
  - split; [by split; [intros _; apply Hown|]|]. intros Hn. destruct Hn. by apply Hown.
  - split.
    + split; [discriminate|]. intros Hfo. destruct Hf. by apply Hown.
    + intros _.
      destruct booking_data as [[?|] [?|] [?|]]; reflexivity.
Qed.

(** X5 on booking 1 of [ex_db_booked], owned by user 7, for user 8. *)
Lemma update_booking_patch_witness :
  BookingService.update_booking ex_db_booked (at_time 0) 1
    (BookingUpdate.mk None (Some (Some "note")) None) (Some 8)
  = Raise UpdateForbidden
  ↔ ∃ u, Some 8 = Some u ∧ u ≠ 0 ∧ u ≠ 7.
Proof.
  apply (update_booking_patch ex_db_booked (at_time 0) 1
           (BookingUpdate.mk None (Some (Some "note")) None) (Some 8)
           (Booking.mk 7 1 None BookingStatus.PENDING 0 None None)).
  by vm_compute.
Defined.

Lemma count_set_booking db i b b' sid :
  bookings db !! i = Some b →
  BookingService.get_session_booking_count
    (set_bookings (<[i := b']> (bookings db)) db) sid
  = BookingService.get_session_booking_count db sid
    - (if decide (BookingService.counted sid (i, b)) then 1 else 0)
    + (if decide (BookingService.counted sid (i, b')) then 1 else 0).
Proof.
  intros Hb. unfold BookingService.get_session_booking_count. simpl.
  rewrite map_filter_insert.
  destruct (decide (BookingService.counted sid (i, b))) as [Hc|Hc];
    destruct (decide (BookingService.counted sid (i, b'))) as [Hc'|Hc'].
  - rewrite map_size_insert_Some; [lia|].
    exists b. by apply map_lookup_filter_Some.
  - rewrite map_filter_delete, map_size_delete.
    rewrite (map_lookup_filter_Some_2 _ _ i b) by done.
    assert (size (filter (BookingService.counted sid) (bookings db)) ≠ 0%nat).
    { apply map_size_ne_0_lookup. exists i, b. by apply map_lookup_filter_Some. }
    lia.
  - rewrite map_size_insert_None; [lia|].
    apply map_lookup_filter_None. right. intros x Hx. congruence.
  - rewrite map_filter_delete, map_size_delete.
    rewrite (proj2 (map_lookup_filter_None _ _ i)); [simpl; lia|].
    right. intros x Hx. congruence.
Qed.

(** X6. A successful [cancel_booking] frees a seat exactly when the booking
    was active: the active booking count of its session drops by one for a
    PENDING or CONFIRMED booking and is unchanged for any other status, and
    the count of every other session is unchanged. *)
Theorem cancel_booking_frees_seat (db : DB) (utcnow : Clock) (booking_id : Z)
    (user_id : option Z) (reason : option string) (booking : Booking.t) (db' : DB) :
  bookings db !! booking_id = Some booking →
  BookingService.cancel_booking db utcnow booking_id user_id reason = Ok (true, db') →
  BookingService.get_session_booking_count db' (Booking.session_id booking)
  = BookingService.get_session_booking_count db (Booking.session_id booking)
    - (if decide (is_active (Booking.status booking)) then 1 else 0)
  ∧ (∀ sid, sid ≠ Booking.session_id booking →
            BookingService.get_session_booking_count db' sid
            = BookingService.get_session_booking_count db sid).
Proof.
  intros Hb. unfold BookingService.cancel_booking, BookingService.get_booking.
  rewrite Hb. case_decide; [done|].
  destruct (sessions db !! _); [|done]. case_decide; [done|].
  intros [= <-].
  match goal with |- context [<[booking_id := ?x]> _] => set (b2 := x) end.
  assert (∀ sid, ¬ BookingService.counted sid (booking_id, b2)) as Hcancelled.
  { intros sid [_ Hact]. simpl in Hact.
    assert (Booking.status b2 = BookingStatus.CANCELLED) as Hst
      by (unfold b2; by case_decide).
    rewrite Hst in Hact. by apply not_active_CANCELLED in Hact. }
  clearbody b2. split.
  - rewrite (count_set_booking _ _ booking) by done.
    rewrite (decide_False (P := BookingService.counted _ (_, b2))) by done.
    destruct (decide (is_active (Booking.status booking))) as [Ha|Ha].
    + rewrite decide_True by (by split). lia.
    + rewrite decide_False by (by intros [_ ?]). lia.
  - intros sid Hsid. rewrite (count_set_booking _ _ booking) by done.
    rewrite (decide_False (P := BookingService.counted _ (_, b2))) by done.
    rewrite decide_False; [lia|]. intros [Heq _]. simpl in Heq. congruence.
Qed.

(** X6 on the pending booking 1 of [ex_db_booked], cancelled by its owner. *)
Lemma cancel_booking_frees_seat_witness :
  BookingService.get_session_booking_count
    (committed ex_db_booked
       (BookingService.cancel_booking ex_db_booked (at_time 0) 1 (Some 7) None)) 1
  = BookingService.get_session_booking_count ex_db_booked 1 - 1.
Proof.
  eapply (cancel_booking_frees_seat ex_db_booked (at_time 0) 1 (Some 7) None
            (Booking.mk 7 1 None BookingStatus.PENDING 0 None None)).
  - by vm_compute.
  - by vm_compute.
Defined.

(** ** What no call does *)

(** X7. A call on a booking or a session that is not stored raises nothing,
    whoever the acting user and whatever the time: it returns [None] or
    [False], and the database after the call is the database before it. *)
Theorem step_target_missing (db : DB) (utcnow : Clock) (op : Op) :
  target_missing db op → returns_nothing db utcnow op ∧ step db utcnow op = db.
Proof.
  destruct op as [d u|i d|i r|i|d u|i d u|i u r|i|i a]; simpl; try done; intros Hm.
  - unfold SessionService.update_session, SessionService.get_session. by rewrite Hm.
  - unfold SessionService.cancel_session, SessionService.get_session. by rewrite Hm.
  - unfold SessionService.mark_session_completed, SessionService.get_session.
    by rewrite Hm.
  - unfold BookingService.update_booking, BookingService.get_booking. by rewrite Hm.
  - unfold BookingService.cancel_booking, BookingService.get_booking. by rewrite Hm.
  - unfold BookingService.confirm_booking, BookingService.get_booking. by rewrite Hm.
  - unfold BookingService.mark_attendance, BookingService.get_booking. by rewrite Hm.
Qed.

(** X7 on [ex_db], which stores no booking 4, for a user who owns none. *)
Lemma step_target_missing_witness :
  BookingService.cancel_booking ex_db (at_time 0) 4 (Some 7) None = Ok (false, ex_db)
  ∧ step ex_db (at_time 0) (CancelBooking 4 (Some 7) None) = ex_db.
Proof.
  apply (step_target_missing ex_db (at_time 0) (CancelBooking 4 (Some 7) None)).
  by vm_compute.
Defined.

(** X8. No call removes a row or rewrites its identity: after any call the
    classes are unchanged, every stored booking is still stored under its key
    with the same user, session and booking date, and every stored session is
    still stored under its key with the same class and creator. *)
Theorem step_keeps_rows (db : DB) (utcnow : Clock) (op : Op) :
  classes (step db utcnow op) = classes db
  ∧ (∀ i b, bookings db !! i = Some b →
       ∃ b', bookings (step db utcnow op) !! i = Some b'
             ∧ Booking.user_id b' = Booking.user_id b
             ∧ Booking.session_id b' = Booking.session_id b
             ∧ Booking.booking_date b' = Booking.booking_date b)
  ∧ (∀ i s, sessions db !! i = Some s →
       ∃ s', sessions (step db utcnow op) !! i = Some s'
             ∧ SessionModel.class_id s' = SessionModel.class_id s
             ∧ SessionModel.created_by s' = SessionModel.created_by s).
Proof.
  assert (∀ (m : gmap Z Booking.t) k x i b,
            (∀ y, m !! k = Some y →
                  Booking.user_id x = Booking.user_id y
                  ∧ Booking.session_id x = Booking.session_id y
                  ∧ Booking.booking_date x = Booking.booking_date y) →
            m !! i = Some b →
            ∃ b', <[k := x]> m !! i = Some b'
                  ∧ Booking.user_id b' = Booking.user_id b
                  ∧ Booking.session_id b' = Booking.session_id b
                  ∧ Booking.booking_date b' = Booking.booking_date b) as Hset.
  { intros m k x i b Hk Hi. rewrite lookup_insert. case_decide as Heq.
    - subst k. exists x. split; [done|]. by apply Hk.
    - by exists b. }
  assert (∀ (m : gmap Z SessionModel.t) k x i s,
            (∀ y, m !! k = Some y →
                  SessionModel.class_id x = SessionModel.class_id y
                  ∧ SessionModel.created_by x = SessionModel.created_by y) →
            m !! i = Some s →
            ∃ s', <[k := x]> m !! i = Some s'
                  ∧ SessionModel.class_id s' = SessionModel.class_id s
                  ∧ SessionModel.created_by s' = SessionModel.created_by s) as Hses.
  { intros m k x i s Hk Hi. rewrite lookup_insert. case_decide as Heq.
    - subst k. exists x. split; [done|]. by apply Hk.
    - by exists s. }
  destruct op as [d u|i d|i r|i|d u|i d u|i u r|i|i a]; simpl.
  - unfold SessionService.create_session.
    destruct (classes db !! _); [|by eauto 10].
    destruct (SessionService.check_scheduling_conflicts _ _ _ _ _); [|by eauto 10].
    simpl. split; [done|]. split; [by eauto 10|].
    intros j s Hj. apply Hses; [|done].
    intros y Hy. by rewrite fresh_id_fresh in Hy.
  - unfold SessionService.update_session, SessionService.get_session.
    destruct (sessions db !! i) as [s0|] eqn:Hs0; [|by eauto 10].
    destruct (if decide _ then _ else _); [|by eauto 10].
    simpl. split; [done|]. split; [by eauto 10|].
    intros j s Hj. apply Hses; [|done].
    intros y Hy. rewrite Hs0 in Hy. injection Hy as <-.
    by destruct d as [[?|] [?|] [?|] [?|] [?|]].
  - destruct (sessions db !! i) as [s0|] eqn:Hs0.
    + split; [by rewrite (cancel_session_found _ _ _ _ _ Hs0)|]. split.
      * intros j b Hj.
        pose proof (cancel_session_bookings db utcnow i r s0 j Hs0) as H.
        rewrite Hj in H. case_decide.
        -- destruct H as [n H]. by eexists.
        -- by exists b.
      * rewrite (cancel_session_found _ _ _ _ _ Hs0). simpl.
        intros j s Hj. apply Hses; [|done].
        intros y Hy. rewrite Hs0 in Hy. by injection Hy as <-.
    + unfold SessionService.cancel_session, SessionService.get_session.
      rewrite Hs0. by eauto 10.
  - unfold SessionService.mark_session_completed, SessionService.get_session.
    destruct (sessions db !! i) as [s0|] eqn:Hs0; [|by eauto 10].
    simpl. split; [done|]. split; [by eauto 10|].
    intros j s Hj. apply Hses; [|done].
    intros y Hy. rewrite Hs0 in Hy. by injection Hy as <-.
  - destruct (BookingService.create_booking db utcnow d u) as [[[id b] db']|e] eqn:Hok;
      [|by eauto 10].
    apply create_booking_Ok_inv in Hok
      as (s & c & _ & _ & _ & _ & _ & _ & _ & -> & -> & ->).
    simpl. split; [done|]. split; [|by eauto 10].
    intros j x Hj. apply Hset; [|done].
    intros y Hy. by rewrite fresh_id_fresh in Hy.
  - unfold BookingService.update_booking, BookingService.get_booking.
    destruct (bookings db !! i) as [b0|] eqn:Hb0; [|by eauto 10].
    case_decide; [by eauto 10|]. simpl. split; [done|]. split; [|by eauto 10].
    intros j x Hj. apply Hset; [|done].
    intros y Hy. rewrite Hb0 in Hy. injection Hy as <-.
    by destruct d as [[?|] [?|] [?|]].
  - unfold BookingService.cancel_booking, BookingService.get_booking.
    destruct (bookings db !! i) as [b0|] eqn:Hb0; [|by eauto 10].
    case_decide; [by eauto 10|].
    destruct (sessions db !! _); [|by eauto 10].
    case_decide; [by eauto 10|]. simpl. split; [done|]. split; [|by eauto 10].
    intros j x Hj. apply Hset; [|done].
    intros y Hy. rewrite Hb0 in Hy. injection Hy as <-. by case_decide.
  - unfold BookingService.confirm_booking, BookingService.get_booking.
    destruct (bookings db !! i) as [b0|] eqn:Hb0; [|by eauto 10].
    case_decide; [by eauto 10|]. simpl. split; [done|]. split; [|by eauto 10].
    intros j x Hj. apply Hset; [|done].
    intros y Hy. rewrite Hb0 in Hy. by injection Hy as <-.
  - unfold BookingService.mark_attendance, BookingService.get_booking.
    destruct (bookings db !! i) as [b0|] eqn:Hb0; [|by eauto 10].
    destruct (sessions db !! _); [|by eauto 10].
    case_decide; [by eauto 10|]. simpl. split; [done|]. split; [|by eauto 10].
    intros j x Hj. apply Hset; [|done].
    intros y Hy. rewrite Hb0 in Hy. by injection Hy as <-.
Qed.

(** ** One active booking for a user and a session *)

Lemma bookings_shrink_unique db db' :
  bookings_shrink db db' → unique_active db → unique_active db'.
Proof.
  intros Hsh Hu i j b1 b2 Hi Hj Huid Hsid Ha1 Ha2.
  destruct (Hsh i b1 Hi) as (x1 & Hx1 & Hu1 & Hs1 & Hact1).
  destruct (Hsh j b2 Hj) as (x2 & Hx2 & Hu2 & Hs2 & Hact2).
  apply (Hu i j x1 x2); auto; congruence.
Qed.

Lemma bookings_shrink_same db db' :
  bookings db' = bookings db → bookings_shrink db db'.
Proof. intros Heq i b Hb. rewrite Heq in Hb. by exists b. Qed.

Lemma bookings_shrink_set db i b b' :
  bookings db !! i = Some b →
  Booking.user_id b' = Booking.user_id b →
  Booking.session_id b' = Booking.session_id b →
  (is_active (Booking.status b') → is_active (Booking.status b)) →
  bookings_shrink db (set_bookings (<[i := b']> (bookings db)) db).
Proof.
  intros Hb Hu Hs Ha j x. simpl. rewrite lookup_insert. case_decide as Heq.
  - subst j. intros [= <-]. by exists b.
  - intros Hx. by exists x.
Qed.

Lemma step_bookings_shrink db utcnow op :
  ¬ reactivates db op →
  (∀ d u, op ≠ CreateBooking d u) →
  bookings_shrink db (step db utcnow op).
Proof.
  intros Hre Hnc.
  destruct op as [d u|i d|i r|i|d u|i d u|i u r|i|i a]; simpl.
  - unfold SessionService.create_session.
    destruct (classes db !! _); [|by apply bookings_shrink_same].
    destruct (SessionService.check_scheduling_conflicts _ _ _ _ _);
      by apply bookings_shrink_same.
  - unfold SessionService.update_session, SessionService.get_session.
    destruct (sessions db !! i); [|by apply bookings_shrink_same].
    destruct (if decide _ then _ else _); by apply bookings_shrink_same.
  - destruct (sessions db !! i) as [s0|] eqn:Hs0.
    + intros j b' Hj.
      pose proof (cancel_session_bookings db utcnow i r s0 j Hs0) as H.
      destruct (bookings db !! j) as [b|]; [|congruence].
      exists b. split; [done|]. case_decide as Hm.
      * destruct H as [n H]. rewrite H in Hj. injection Hj as <-.
        repeat (split; [done|]). intros Ha. by apply not_active_CANCELLED in Ha.
      * rewrite H in Hj. by injection Hj as <-.
    + unfold SessionService.cancel_session, SessionService.get_session.
      rewrite Hs0. by apply bookings_shrink_same.
  - unfold SessionService.mark_session_completed, SessionService.get_session.
    destruct (sessions db !! i); by apply bookings_shrink_same.
  - by destruct (Hnc d u).
  - unfold BookingService.update_booking, BookingService.get_booking.
    destruct (bookings db !! i) as [b0|] eqn:Hb0; [|by apply bookings_shrink_same].
    case_decide; [by apply bookings_shrink_same|]. simpl.
    apply (bookings_shrink_set db i b0); [done|..].
    + apply booking_apply_update_user_id.
    + apply booking_apply_update_session_id.
    + simpl. rewrite booking_apply_update_status.
      simpl in Hre. rewrite Hb0 in Hre.
      destruct (BookingUpdate.status d) as [st|]; simpl; [|done].
      intros Hst. destruct (decide (is_active (Booking.status b0))); [done|].
      destruct Hre. done.
  - unfold BookingService.cancel_booking, BookingService.get_booking.
    destruct (bookings db !! i) as [b0|] eqn:Hb0; [|by apply bookings_shrink_same].
    case_decide; [by apply bookings_shrink_same|].
    destruct (sessions db !! _); [|by apply bookings_shrink_same].
    case_decide; [by apply bookings_shrink_same|]. simpl.
    apply (bookings_shrink_set db i b0); [done|by case_decide|by case_decide|].
    case_decide; simpl; intros Ha; by apply not_active_CANCELLED in Ha.
  - unfold BookingService.confirm_booking, BookingService.get_booking.
    destruct (bookings db !! i) as [b0|] eqn:Hb0; [|by apply bookings_shrink_same].
    case_decide as Hst; [by apply bookings_shrink_same|]. simpl.
    apply (bookings_shrink_set db i b0); [done..|]. simpl. intros _. left.
    destruct (decide (Booking.status b0 = BookingStatus.PENDING)); [done|contradiction].
  - unfold BookingService.mark_attendance, BookingService.get_booking.
    destruct (bookings db !! i) as [b0|] eqn:Hb0; [|by apply bookings_shrink_same].
    destruct (sessions db !! _); [|by apply bookings_shrink_same].
    case_decide; [by apply bookings_shrink_same|]. simpl.
    apply (bookings_shrink_set db i b0); [done..|]. simpl.
    destruct a; intros [?|?]; discriminate.
Qed.

Lemma step_unique_active db utcnow op :
  unique_active db → ¬ reactivates db op → unique_active (step db utcnow op).
Proof.
  intros Hu Hre.
  assert ((∃ d u, op = CreateBooking d u) ∨ ∀ d u, op ≠ CreateBooking d u)
    as [(d & u & ->)|Hnc].
  { destruct op; try (right; intros ? ?; discriminate). left. eauto. }
  - simpl.
    destruct (BookingService.create_booking db utcnow d u) as [[[id b] db']|e] eqn:Hok;
      [|done].
    apply create_booking_Ok_inv in Hok
      as (s & c & _ & _ & _ & _ & _ & Hdup & _ & -> & -> & ->).
    simpl. pose proof (fresh_id_fresh (bookings db)) as Hfresh.
    intros i j b1 b2. simpl. rewrite !lookup_insert.
    destruct (decide (fresh_id (bookings db) = i)) as [Hi|Hi];
      destruct (decide (fresh_id (bookings db) = j)) as [Hj|Hj].
    + congruence.
    + intros [= <-] Hb2 Huid Hsid _ Ha2. simpl in *.
      destruct (Hdup j b2 Hb2). by split; [|split].
    + intros Hb1 [= <-] Huid Hsid Ha1 _. simpl in *.
      destruct (Hdup i b1 Hb1). by split; [|split].
    + apply Hu.
  - eapply bookings_shrink_unique; [|done]. by apply step_bookings_shrink.
Qed.

(** X9. At most one active booking for each pair of a user and a session: the
    property is kept by every sequence of calls in which no [update_booking]
    writes an active status over a status that is not active. *)
Theorem run_unique_active (calls : list (Clock * Op)) (db : DB) :
  unique_active db → never_reactivates db calls → unique_active (run db calls).
Proof.
  revert db. induction calls as [|[utcnow op] rest IH]; intros db Hu Hnr; [done|].
  destruct Hnr as [Hre Hrest]. simpl. apply IH; [|done].
  by apply step_unique_active.
Qed.

(** X9 on [ex_db] and the calls of [scenario_calls]. *)
Lemma run_unique_active_witness : unique_active (run ex_db scenario_calls).
Proof.
  apply (run_unique_active scenario_calls ex_db).
  - intros i j b1 b2 Hi. unfold ex_db in Hi. simpl in Hi.
    by rewrite lookup_empty in Hi.
  - vm_compute. tauto.
Defined.

(** ** Sessions: cancellation, completion, creation *)

Lemma filter_counted_ext (m1 m2 : gmap Z Booking.t) sid :
  (∀ i b, m1 !! i = Some b ∧ BookingService.counted sid (i, b)
          ↔ m2 !! i = Some b ∧ BookingService.counted sid (i, b)) →
  filter (BookingService.counted sid) m1 = filter (BookingService.counted sid) m2.
Proof.
  intros Hext. apply map_eq. intros i. apply option_eq. intros b.
  rewrite !map_lookup_filter_Some. apply Hext.
Qed.

(** X10. [cancel_session] on a stored session closes it: afterwards the
    session has no active booking, every call of [create_booking] for it raises
    NotBookable whatever the time, the user and the free seats, and the
    active booking count of every other session is what it was. *)
Theorem cancel_session_closes (db : DB) (utcnow : Clock) (session_id : Z)
    (reason : option string) (session : SessionModel.t) :
  sessions db !! session_id = Some session →
  let db' := (SessionService.cancel_session db utcnow session_id reason).2 in
  BookingService.get_session_booking_count db' session_id = 0
  ∧ (∀ sid, sid ≠ session_id →
            BookingService.get_session_booking_count db' sid
            = BookingService.get_session_booking_count db sid)
  ∧ (∀ clock booking_data user_id,
       BookingCreate.session_id booking_data = session_id →
       BookingService.create_booking db' clock booking_data user_id
       = Raise NotBookable).
Proof.
  intros Hs db'.
  assert (∀ i, match bookings db !! i with
               | None => bookings db' !! i = None
               | Some b =>
                 if decide (Booking.session_id b = session_id
                            ∧ is_active (Booking.status b))
                 then ∃ n, bookings db' !! i = Some (cascaded (utcnow n) b)
                 else bookings db' !! i = Some b
               end) as Hrows.
  { intros i. apply (cancel_session_bookings db utcnow session_id reason session i Hs). }
  split; [|split].
  - unfold BookingService.get_session_booking_count.
    assert (size (filter (BookingService.counted session_id) (bookings db')) = 0%nat)
      as ->; [|done].
    apply size_filter_0. intros i b' Hb' [Hsid Hact]. simpl in *.
    specialize (Hrows i). rewrite Hb' in Hrows.
    destruct (bookings db !! i) as [b|]; [|done]. case_decide as Hm.
    + destruct Hrows as [n [= ->]]. by apply not_active_CANCELLED in Hact.
    + injection Hrows as ->. by apply Hm.
  - intros sid Hsid. unfold BookingService.get_session_booking_count.
    f_equal. f_equal. apply filter_counted_ext. intros i b.
    specialize (Hrows i). destruct (bookings db !! i) as [b0|].
    + case_decide as Hm.
      * destruct Hrows as [n ->]. split.
        -- intros [[= <-] [_ Hact]]. by apply not_active_CANCELLED in Hact.
        -- intros [[= ->] [Hx _]]. simpl in Hx. destruct Hm. congruence.
      * by rewrite Hrows.
    + by rewrite Hrows.
  - intros clock d u Hd. unfold BookingService.create_booking. cbv zeta.
    unfold db'. rewrite (cancel_session_found _ _ _ _ _ Hs). simpl.
    rewrite Hd, lookup_insert_eq. reflexivity.
Qed.

(** X10 on [ex_db_booked] and its session 1. *)
Lemma cancel_session_closes_witness :
  BookingService.get_session_booking_count
    (SessionService.cancel_session ex_db_booked (at_time 0) 1 None).2 1 = 0.
Proof.
  apply (cancel_session_closes ex_db_booked (at_time 0) 1 None ex_session).
  by vm_compute.
Defined.

(** X11. [mark_session_completed] on a stored session succeeds whatever the
    time and the current status, stores the status COMPLETED with the update
    timestamp and keeps the other columns; it does not touch the bookings, so
    the PENDING and CONFIRMED bookings of the session stay active, and every
    later [create_booking] for the session raises NotBookable. *)
Theorem mark_session_completed_effect (db : DB) (utcnow : Clock) (session_id : Z)
    (session : SessionModel.t) :
  sessions db !! session_id = Some session →
  let completed :=
    SessionModel.mk (SessionModel.class_id session) (SessionModel.start_time session)
      (SessionModel.end_time session) (SessionModel.location session)
      (SessionModel.special_notes session) SessionStatus.COMPLETED
      (SessionModel.created_by session) (Some (utcnow 0%nat)) in
  let out := SessionService.mark_session_completed db utcnow session_id in
  out = (true, set_sessions (<[session_id := completed]> (sessions db)) db)
  ∧ bookings out.2 = bookings db
  ∧ BookingService.get_session_booking_count out.2 session_id
    = BookingService.get_session_booking_count db session_id
  ∧ (∀ clock booking_data user_id,
       BookingCreate.session_id booking_data = session_id →
       BookingService.create_booking out.2 clock booking_data user_id
       = Raise NotBookable).
Proof.
  intros Hs completed out. unfold out, SessionService.mark_session_completed,
    SessionService.get_session. rewrite Hs. simpl.
  split; [done|]. split; [done|]. split; [done|].
  intros clock d u Hd. unfold BookingService.create_booking. cbv zeta. simpl.
  rewrite Hd, lookup_insert_eq. reflexivity.
Qed.

(** X11 on [ex_db_booked] and its session 1, long before the session starts. *)
Lemma mark_session_completed_effect_witness :
  BookingService.get_session_booking_count
    (SessionService.mark_session_completed ex_db_booked (at_time 0) 1).2 1
  = BookingService.get_session_booking_count ex_db_booked 1.
Proof.
  apply (mark_session_completed_effect ex_db_booked (at_time 0) 1 ex_session).
  by vm_compute.
Defined.

Lemma create_session_Ok_inv db d u id s db' :
  SessionService.create_session db d u = Ok (id, s, db') →
  is_Some (classes db !! SessionCreate.class_id d)
  ∧ SessionService.check_scheduling_conflicts db (SessionCreate.start_time d)
      (SessionCreate.end_time d) (SessionCreate.location d) None = []
  ∧ id = fresh_id (sessions db)
  ∧ s = SessionModel.mk (SessionCreate.class_id d) (SessionCreate.start_time d)
          (SessionCreate.end_time d) (SessionCreate.location d)
          (SessionCreate.special_notes d) SessionStatus.SCHEDULED u None
  ∧ db' = set_sessions (<[id := s]> (sessions db)) db.
Proof.
  unfold SessionService.create_session.
  destruct (classes db !! _) as [c|]; [|done].
  destruct (SessionService.check_scheduling_conflicts _ _ _ _ _) eqn:Hc; [|done].
  intros [= <- <- <-]. split; [by eexists|done].
Qed.

(** X12. A successful [create_session] stores the returned session, with status
    SCHEDULED and the values of the request, under a key that was free and is
    not 0, where [get_session] finds it; every other session, the bookings
    and the classes are unchanged; and in a store whose bookings refer to
    stored sessions the new session has no active booking. *)
Theorem create_session_effect (db : DB) (session_data : SessionCreate.t)
    (created_by id : Z) (session : SessionModel.t) (db' : DB) :
  SessionService.create_session db session_data created_by = Ok (id, session, db') →
  sessions db !! id = None
  ∧ id ≠ 0
  ∧ SessionService.get_session db' id = Some session
  ∧ session = SessionModel.mk (SessionCreate.class_id session_data)
                (SessionCreate.start_time session_data)
                (SessionCreate.end_time session_data)
                (SessionCreate.location session_data)
                (SessionCreate.special_notes session_data) SessionStatus.SCHEDULED
                created_by None
  ∧ (∀ j, j ≠ id → sessions db' !! j = sessions db !! j)
  ∧ bookings db' = bookings db
  ∧ classes db' = classes db
  ∧ (store_ok db → BookingService.get_session_booking_count db' id = 0).
Proof.
  intros (Hc & Hnil & -> & -> & ->)%create_session_Ok_inv.
  pose proof (fresh_id_fresh (sessions db)) as Hfresh.
  pose proof (fresh_id_pos (sessions db)) as Hpos.
  split; [done|]. split; [lia|].
  split; [apply lookup_insert_eq|]. split; [done|].
  split; [intros j Hj; by apply lookup_insert_ne|].
  split; [done|]. split; [done|].
  intros (Hfk & _ & _). unfold BookingService.get_session_booking_count. simpl.
  assert (size (filter (BookingService.counted (fresh_id (sessions db)))
                       (bookings db)) = 0%nat) as ->; [|done].
  apply size_filter_0. intros i b Hb [Hsid _]. simpl in Hsid.
  destruct (Hfk i b Hb) as [s Hs]. rewrite Hsid, Hfresh in Hs. done.
Qed.

(** X12 on [ex_db], for a request one day after its session. *)
Lemma create_session_effect_witness :
  SessionService.get_session
    (committed ex_db
       (SessionService.create_session ex_db
          (SessionCreate.mk 1 (timedelta_hours 124) (timedelta_hours 125) None None) 9)) 2
  = Some (SessionModel.mk 1 (timedelta_hours 124) (timedelta_hours 125) None None
            SessionStatus.SCHEDULED 9 None).
Proof.
  eapply (create_session_effect ex_db
            (SessionCreate.mk 1 (timedelta_hours 124) (timedelta_hours 125) None None)
            9 2).
  by vm_compute.
Defined.

(** X13. [create_session] cannot be repeated: after a successful call for a
    request whose end is after its start, the same request (by any creator)
    raises SchedulingConflict, because the session just stored occupies its
    own time range. *)
Theorem create_session_not_repeatable (db : DB) (session_data : SessionCreate.t)
    (created_by again_by id : Z) (session : SessionModel.t) (db' : DB) :
  SessionCreate.validate_end_time session_data →
  SessionService.create_session db session_data created_by = Ok (id, session, db') →
  SessionService.create_session db' session_data again_by = Raise SchedulingConflict.
Proof.
  intros Hvalid (Hc & Hnil & -> & -> & ->)%create_session_Ok_inv.
  destruct Hc as [c Hc].
  match goal with |- SessionService.create_session ?d _ _ = _ => set (db1 := d) end.
  assert (SessionService.check_scheduling_conflicts db1
            (SessionCreate.start_time session_data)
            (SessionCreate.end_time session_data)
            (SessionCreate.location session_data) None ≠ []) as Hne.
  { apply check_scheduling_conflicts_cons. eexists _, _. split.
    - unfold db1. simpl. apply lookup_insert_eq.
    - split; [by left|]. split; [|split; [done|by intros []]].
      left. simpl. unfold SessionCreate.validate_end_time in Hvalid. lia. }
  unfold SessionService.create_session.
  change (classes db1) with (classes db). rewrite Hc.
  by destruct (SessionService.check_scheduling_conflicts db1 _ _ _ _).
Qed.

(** X13 on [ex_db], for a request one day after its session. *)
Lemma create_session_not_repeatable_witness :
  SessionService.create_session
    (committed ex_db
       (SessionService.create_session ex_db
          (SessionCreate.mk 1 (timedelta_hours 124) (timedelta_hours 125) None None) 9))
    (SessionCreate.mk 1 (timedelta_hours 124) (timedelta_hours 125) None None) 4
  = Raise SchedulingConflict.
Proof.
  eapply (create_session_not_repeatable ex_db
            (SessionCreate.mk 1 (timedelta_hours 124) (timedelta_hours 125) None None)
            9 4).
  - by vm_compute.
  - by vm_compute.
Defined.

(** ** checkConflict *)

(** X14. In a store whose sessions end after they start,
    [check_booking_conflicts] returns [True] exactly when the target session is
    stored and the user holds a PENDING or CONFIRMED booking of another stored
    session whose half-open time range overlaps the target's; bookings of
    other users, inactive bookings and the user's own booking of the target
    session never count, and an unknown target gives [False]. *)
Theorem check_booking_conflicts_iff (db : DB) (user_id session_id : Z) :
  (∀ i s, sessions db !! i = Some s →
          SessionModel.start_time s < SessionModel.end_time s) →
  BookingService.check_booking_conflicts db user_id session_id = true
  ↔ ∃ session i b other,
      sessions db !! session_id = Some session
      ∧ bookings db !! i = Some b
      ∧ Booking.user_id b = user_id
      ∧ is_active (Booking.status b)
      ∧ Booking.session_id b ≠ session_id
      ∧ sessions db !! Booking.session_id b = Some other
      ∧ overlap (SessionModel.start_time other) (SessionModel.end_time other)
          (SessionModel.start_time session) (SessionModel.end_time session).
Proof.
  intros Hvalid. unfold BookingService.check_booking_conflicts.
  destruct (sessions db !! session_id) as [s|] eqn:Hs.
  - destruct (first _) as [[i b]|] eqn:Hfirst.
    + apply first_filter_Some in Hfirst as [Hb (Hu & Ha & Hne & Hother)].
      simpl in *. split; [intros _|done].
      destruct (sessions db !! Booking.session_id b) as [other|] eqn:Ho; [|done].
      exists s, i, b, other. repeat (split; [done|]).
      apply time_clause_overlap in Hother; eauto.
    + rewrite first_filter_None in Hfirst. split; [done|].
      intros (s' & i & b & other & [= <-] & Hb & Hu & Ha & Hne & Ho & Hov).
      destruct (Hfirst i b Hb). repeat (split; [done|]). simpl. rewrite Ho.
      apply time_clause_overlap; eauto.
  - split; [done|]. by intros (s' & i & b & other & ? & _).
Qed.

(** The sessions of [ex_db_two_seats_booked] end after they start. *)
Lemma ex_db_two_seats_booked_valid i s :
  sessions ex_db_two_seats_booked !! i = Some s →
  SessionModel.start_time s < SessionModel.end_time s.
Proof.
  unfold ex_db_two_seats_booked, ex_db_two_seats, ex_db_two_rooms. simpl.
  rewrite lookup_insert. case_decide.
  - intros [= <-]. by vm_compute.
  - intros [<- <-]%lookup_singleton_Some. by vm_compute.
Qed.

(** X14 on [ex_db_two_seats_booked], whose two sessions share one hour.  For
    user 7 and session 1 the confirmed booking of session 2 is a conflict.
    For user 8 and session 2 there is none: the only booking of user 8 is the
    one of session 2 itself, and the bookings of user 7 do not count. *)
Lemma check_booking_conflicts_iff_witness :
  BookingService.check_booking_conflicts ex_db_two_seats_booked 7 1 = true
  ∧ BookingService.check_booking_conflicts ex_db_two_seats_booked 8 2 ≠ true.
Proof.
  split.
  - apply (check_booking_conflicts_iff ex_db_two_seats_booked 7 1);
      [apply ex_db_two_seats_booked_valid|].
    exists ex_session, 1,
      (Booking.mk 7 2 None BookingStatus.CONFIRMED 0 None None),
      (SessionModel.set_location (Some "B") ex_session).
    split; [by vm_compute|]. split; [by vm_compute|]. split; [done|].
    split; [by right|]. split; [done|]. split; [by vm_compute|].
    split; by vm_compute.
  - intros Htrue.
    apply (check_booking_conflicts_iff ex_db_two_seats_booked 8 2) in Htrue;
      [|apply ex_db_two_seats_booked_valid].
    destruct Htrue as (session & i & b & other & _ & Hb & Hu & Ha & Hne & _).
    unfold ex_db_two_seats_booked in Hb. simpl in Hb.
    repeat (rewrite lookup_insert in Hb; case_decide;
            [injection Hb as <-; simpl in *; first [done | lia]|]).
    apply lookup_singleton_Some in Hb as [_ <-]. simpl in *. lia.
Defined.

(** X15. [create_booking] does not consult [check_booking_conflicts]: after a
    user has booked session A, [check_booking_conflicts] reports a conflict for
    an overlapping session B, and the booking of B by the same user still
    succeeds under the usual checks (B scheduled, in the future, with a free
    seat, not yet booked by the user, before the deadline). *)
Theorem create_booking_ignores_conflicts (db : DB) (clock1 clock2 : Clock)
    (data_a data_b : BookingCreate.t) (user_id id_a : Z) (booking_a : Booking.t)
    (db1 : DB) (session_a session_b : SessionModel.t) (class_b : Class.t) :
  BookingService.create_booking db clock1 data_a user_id = Ok (id_a, booking_a, db1) →
  BookingCreate.session_id data_a ≠ BookingCreate.session_id data_b →
  sessions db !! BookingCreate.session_id data_a = Some session_a →
  sessions db !! BookingCreate.session_id data_b = Some session_b →
  SessionService.time_clause (SessionModel.start_time session_b)
    (SessionModel.end_time session_b) session_a →
  SessionModel.status session_b = SessionStatus.SCHEDULED →
  classes db !! SessionModel.class_id session_b = Some class_b →
  BookingService.get_session_booking_count db (BookingCreate.session_id data_b)
  < Class.max_capacity class_b →
  (∀ i b, bookings db !! i = Some b →
          ¬ BookingService.existing user_id (BookingCreate.session_id data_b) (i, b)) →
  clock2 0%nat < SessionModel.start_time session_b →
  clock2 1%nat ≤ SessionModel.start_time session_b - timedelta_hours 2 →
  BookingService.check_booking_conflicts db1 user_id (BookingCreate.session_id data_b)
  = true
  ∧ ∃ id_b booking_b db2,
      BookingService.create_booking db1 clock2 data_b user_id
      = Ok (id_b, booking_b, db2)
      ∧ Booking.status booking_b = BookingStatus.PENDING.
Proof.
  intros Hok Hne Hsa Hsb Hclause Hst Hc Hcap Hdup Hfuture Hdl.
  pose proof (create_booking_rows _ _ _ _ _ _ _ Hok)
    as (Hfree & Hget & Hrest & Hses & Hcls & Hpend & Hu & Hsid).
  assert (∀ sid, sid ≠ BookingCreate.session_id data_a →
                 BookingService.get_session_booking_count db1 sid
                 = BookingService.get_session_booking_count db sid) as Hcnt.
  { intros sid Hne'.
    rewrite (create_booking_counts _ _ _ _ _ _ _ sid Hok), decide_False by done.
    lia. }
  split.
  - unfold BookingService.check_booking_conflicts. rewrite Hses, Hsb.
    destruct (first _) eqn:Hfirst; [done|].
    rewrite first_filter_None in Hfirst.
    destruct (Hfirst id_a booking_a Hget).
    split; [done|]. split; [simpl; rewrite Hpend; by left|].
    simpl. rewrite Hsid. split; [done|]. by rewrite Hses, Hsa.
  - destruct data_b as [sid_b notes_b]. simpl in *.
    eexists _, _, _. split; [|shelve].
    apply (create_booking_created db1 clock2 sid_b notes_b user_id session_b class_b);
      try done.
    + by rewrite Hses.
    + by rewrite Hcls.
    + rewrite Hcnt by done. done.
    + intros i b Hb (Hbu & Hbs & Hba).
      destruct (decide (i = id_a)) as [->|Hi].
      * rewrite Hget in Hb. injection Hb as <-. simpl in *. congruence.
      * rewrite Hrest in Hb by done. by apply (Hdup i b Hb).
    Unshelve. reflexivity.
Qed.

(** X15 on [ex_db_two_seats]: user 7 books session 1, then session 2 over the
    same hour. *)
Lemma create_booking_ignores_conflicts_witness :
  BookingService.check_booking_conflicts
    (committed ex_db_two_seats
       (BookingService.create_booking ex_db_two_seats (at_time 0)
          (BookingCreate.mk 1 None) 7)) 7 2
  = true.
Proof.
  eapply (create_booking_ignores_conflicts ex_db_two_seats (at_time 0) (at_time 0)
            (BookingCreate.mk 1 None) (BookingCreate.mk 2 None) 7 1
            (Booking.mk 7 1 None BookingStatus.PENDING 0 None None)
            _ ex_session (SessionModel.set_location (Some "B") ex_session)
            (Class.mk 2)).
  - by vm_compute.
  - simpl. lia.
  - by vm_compute.
  - by vm_compute.
  - left. split; by vm_compute.
  - reflexivity.
  - by vm_compute.
  - by vm_compute.
  - intros i b Hb. unfold ex_db_two_seats in Hb. simpl in Hb.
    by rewrite lookup_empty in Hb.
  - by vm_compute.
  - by vm_compute.
Defined.

(** ** Attendance of a session *)

Lemma size_filter_insert_Some {A} (P : Z * A → Prop) `{!∀ x, Decision (P x)}
    (m : gmap Z A) i x y :
  m !! i = Some y →
  (size (filter P (<[i := x]> m)) + (if decide (P (i, y)) then 1 else 0)
   = size (filter P m) + (if decide (P (i, x)) then 1 else 0))%nat.
Proof.
  intros Hy. rewrite map_filter_insert.
  destruct (decide (P (i, y))) as [Hc|Hc]; destruct (decide (P (i, x))) as [Hc'|Hc'].
  - rewrite map_size_insert_Some; [lia|].
    exists y. by apply map_lookup_filter_Some.
  - rewrite map_filter_delete, map_size_delete.
    rewrite (map_lookup_filter_Some_2 _ _ i y) by done.
    assert (size (filter P m) ≠ 0%nat).
    { apply map_size_ne_0_lookup. exists i, y. by apply map_lookup_filter_Some. }
    lia.
  - rewrite map_size_insert_None; [lia|].
    apply map_lookup_filter_None. right. intros z Hz. congruence.
  - rewrite map_filter_delete, map_size_delete.
    rewrite (proj2 (map_lookup_filter_None _ _ i)); [simpl; lia|].
    right. intros z Hz. congruence.
Qed.

Lemma length_filter_disjoint {A} (P Q : A → Prop)
    `{!∀ x, Decision (P x), !∀ x, Decision (Q x)} (l : list A) :
  (∀ x, P x → Q x → False) →
  (length (filter P l) + length (filter Q l) ≤ length l)%nat.
Proof.
  intros Hdis. induction l as [|x l IH]; [done|].
  rewrite !filter_cons.
  destruct (decide (P x)) as [HP|HP]; destruct (decide (Q x)) as [HQ|HQ]; simpl; try lia.
  destruct (Hdis x HP HQ).
Qed.

(** The bookings [get_session_attendance] counts for a session. *)
Lemma attendance_counts db sid a :
  SessionService.get_session_attendance db sid = Some a →
  SessionAttendance.total_bookings a
  = size (filter (λ r, Booking.session_id r.2 = sid) (bookings db))
  ∧ SessionAttendance.attended a
    = size (filter (λ r, Booking.status r.2 = BookingStatus.COMPLETED)
              (filter (λ r, Booking.session_id r.2 = sid) (bookings db)))
  ∧ SessionAttendance.no_shows a
    = size (filter (λ r, Booking.status r.2 = BookingStatus.NO_SHOW)
              (filter (λ r, Booking.session_id r.2 = sid) (bookings db))).
Proof.
  unfold SessionService.get_session_attendance.
  destruct (SessionService.get_session db sid); [|done].
  intros [= <-]. simpl. rewrite !length_filter_all.
  split; [|done]. unfold all. apply length_map_to_list.
Qed.

(** X16. [get_session_attendance] returns [None] exactly for a session that is
    not stored.  Otherwise the total is the number of bookings of the session
    in any status, attended and no-shows are the numbers of its COMPLETED and
    NO_SHOW bookings, their sum is at most the total, and the rate is 0 when
    the session has no booking. *)
Theorem get_session_attendance_counts (db : DB) (session_id : Z) :
  match SessionService.get_session_attendance db session_id with
  | None => sessions db !! session_id = None
  | Some a =>
    is_Some (sessions db !! session_id)
    ∧ SessionAttendance.session_id a = session_id
    ∧ SessionAttendance.total_bookings a
      = size (filter (λ r, Booking.session_id r.2 = session_id) (bookings db))
    ∧ SessionAttendance.attended a
      = size (filter (λ r, Booking.session_id r.2 = session_id
                            ∧ Booking.status r.2 = BookingStatus.COMPLETED)
                (bookings db))
    ∧ SessionAttendance.no_shows a
      = size (filter (λ r, Booking.session_id r.2 = session_id
                            ∧ Booking.status r.2 = BookingStatus.NO_SHOW)
                (bookings db))
    ∧ (SessionAttendance.attended a + SessionAttendance.no_shows a
       ≤ SessionAttendance.total_bookings a)%nat
    ∧ (SessionAttendance.total_bookings a = 0%nat →
       SessionAttendance.attendance_rate a = 0%float)
  end.
Proof.
  destruct (SessionService.get_session_attendance db session_id) as [a|] eqn:Ha.
  - pose proof (attendance_counts _ _ _ Ha) as (Ht & Hat & Hno).
    unfold SessionService.get_session_attendance, SessionService.get_session in Ha.
    destruct (sessions db !! session_id) as [s|] eqn:Hs; [|done].
    injection Ha as <-. simpl in *.
    split; [by eexists|]. split; [done|]. split; [done|].
    split; [|split; [|split]].
    + rewrite Hat, map_filter_filter. apply (f_equal size), map_filter_ext.
      intros i x _. simpl. tauto.
    + rewrite Hno, map_filter_filter. apply (f_equal size), map_filter_ext.
      intros i x _. simpl. tauto.
    + apply length_filter_disjoint. intros r H1 H2. congruence.
    + intros H0. rewrite H0. reflexivity.
  - unfold SessionService.get_session_attendance, SessionService.get_session in Ha.
    by destruct (sessions db !! session_id).
Qed.

(** X17. Marking a booking as attended shows in the attendance of its session:
    after a successful [mark_attendance(booking_id, True)] on a booking that
    was not COMPLETED, the attended count of the session has grown by one and
    its total is unchanged. *)
Theorem mark_attendance_counted (db : DB) (utcnow : Clock) (booking_id : Z)
    (booking : Booking.t) (db' : DB) (before after : SessionAttendance.t) :
  bookings db !! booking_id = Some booking →
  Booking.status booking ≠ BookingStatus.COMPLETED →
  BookingService.mark_attendance db utcnow booking_id true = Ok (true, db') →
  SessionService.get_session_attendance db (Booking.session_id booking) = Some before →
  SessionService.get_session_attendance db' (Booking.session_id booking) = Some after →
  SessionAttendance.attended after = S (SessionAttendance.attended before)
  ∧ SessionAttendance.total_bookings after = SessionAttendance.total_bookings before.
Proof.
  intros Hb Hst Hok Hbefore Hafter.
  apply attendance_counts in Hbefore as (Ht & Hat & _).
  apply attendance_counts in Hafter as (Ht' & Hat' & _).
  rewrite Ht, Ht', Hat, Hat', !map_filter_filter.
  unfold BookingService.mark_attendance, BookingService.get_booking in Hok.
  rewrite Hb in Hok. destruct (sessions db !! _); [|done].
  case_decide; [done|]. injection Hok as <-. simpl.
  split.
  - match goal with
    | |- size (filter ?P (<[_ := ?x]> _)) = _ =>
      pose proof (size_filter_insert_Some P (bookings db) booking_id x booking Hb) as Hsz
    end.
    rewrite decide_False in Hsz by (simpl; by intros [? _]).
    rewrite decide_True in Hsz by done. lia.
  - match goal with
    | |- size (filter ?P (<[_ := ?x]> _)) = _ =>
      pose proof (size_filter_insert_Some P (bookings db) booking_id x booking Hb) as Hsz
    end.
    rewrite !decide_True in Hsz by done. lia.
Qed.

(** X17 on the pending booking 1 of [ex_db_booked], marked at hour 200. *)
Lemma mark_attendance_counted_witness :
  ∃ after,
    SessionService.get_session_attendance
      (committed ex_db_booked
         (BookingService.mark_attendance ex_db_booked
            (at_time (timedelta_hours 200)) 1 true)) 1 = Some after
    ∧ SessionAttendance.attended after = 2%nat
    ∧ SessionAttendance.total_bookings after = 3%nat.
Proof.
  eexists. split; [by vm_compute|].
  eapply (mark_attendance_counted ex_db_booked (at_time (timedelta_hours 200)) 1
            (Booking.mk 7 1 None BookingStatus.PENDING 0 None None) _
            (SessionAttendance.mk 1 3 1 0 0x1.0aaaaaaaaaaaap+5%float)).
  - by vm_compute.
  - discriminate.
  - by vm_compute.
  - by vm_compute.
  - by vm_compute.
Defined.

(** ** Listings ordered by start time *)

Lemma by_start_time_total : Total SessionService.by_start_time.
Proof. intros a b. unfold SessionService.by_start_time. lia. Qed.

Lemma by_start_time_trans : Transitive SessionService.by_start_time.
Proof. intros a b c. unfold SessionService.by_start_time. lia. Qed.

(** X18. [get_sessions_by_class] lists, in ascending order of start time and
    each once, exactly the stored sessions of the class; with
    [include_past=False] only those that start after the clock reading. *)
Theorem get_sessions_by_class_sorted (db : DB) (utcnow : Clock) (class_id : Z)
    (include_past : bool) :
  let listed := SessionService.get_sessions_by_class db utcnow class_id include_past in
  StronglySorted SessionService.by_start_time listed
  ∧ NoDup listed.*1
  ∧ (∀ i s, (i, s) ∈ listed
            ↔ sessions db !! i = Some s
              ∧ SessionModel.class_id s = class_id
              ∧ (include_past = false → utcnow 0%nat < SessionModel.start_time s)).
Proof.
  intros listed. unfold listed, SessionService.get_sessions_by_class.
  pose proof by_start_time_total as Htotal.
  pose proof by_start_time_trans as Htrans.
  split; [apply StronglySorted_merge_sort; apply _|]. split.
  - rewrite merge_sort_Permutation. apply NoDup_fst_map_to_list.
  - intros i s. rewrite merge_sort_Permutation, elem_of_all_filter. done.
Qed.

(** The sessions of class 1 in [ex_db_two_rooms], listed with the past. *)
Example get_sessions_by_class_two_rooms :
  (SessionService.get_sessions_by_class ex_db_two_rooms (at_time 0) 1 true).*1 = [2; 1]
  ∧ SessionService.get_sessions_by_class ex_db_two_rooms
      (at_time (timedelta_hours 100)) 1 false = []
  ∧ SessionService.get_sessions_by_class ex_db_two_rooms (at_time 0) 5 true = [].
Proof. split; [by vm_compute|split; by vm_compute]. Qed.

(** ** Upcoming sessions *)

Lemma list_elem_of_join_class db rows r c :
  (r, c) ∈ SessionService.join_class db rows
  ↔ r ∈ rows ∧ classes db !! SessionModel.class_id r.2 = Some c.
Proof.
  unfold SessionService.join_class. rewrite list_elem_of_omap. split.
  - intros (x & Hx & Hf).
    destruct (classes db !! SessionModel.class_id x.2) as [c'|] eqn:Hc; [|done].
    simpl in Hf. injection Hf as <- <-. done.
  - intros [Hr Hc]. exists r. split; [done|]. by rewrite Hc.
Qed.

(** The rows [get_upcoming_sessions] takes its first [limit] rows from. *)
Lemma upcoming_rows db now :
  let rows :=
    merge_sort (λ a b, SessionService.by_start_time a.1 b.1)
      (SessionService.join_class db
         (all (filter (SessionService.upcoming now) (sessions db)))) in
  StronglySorted (λ a b, SessionService.by_start_time a.1 b.1) rows
  ∧ (∀ i s c, (i, s, c) ∈ rows
              ↔ sessions db !! i = Some s
                ∧ now < SessionModel.start_time s
                ∧ SessionModel.status s = SessionStatus.SCHEDULED
                ∧ classes db !! SessionModel.class_id s = Some c).
Proof.
  intros rows. split.
  - apply StronglySorted_merge_sort.
    + intros a b c. unfold SessionService.by_start_time. lia.
    + intros a b. unfold SessionService.by_start_time. lia.
  - intros i s c. unfold rows.
    rewrite merge_sort_Permutation, list_elem_of_join_class, elem_of_all_filter.
    unfold SessionService.upcoming. simpl. tauto.
Qed.

(** The two services count the active bookings of a session alike. *)
Lemma get_session_booking_count_same db sid :
  SessionService.get_session_booking_count db sid
  = BookingService.get_session_booking_count db sid.
Proof. reflexivity. Qed.

(** What an entry of [get_upcoming_sessions] says. *)
Lemma get_upcoming_sessions_entry class_name strftime db utcnow limit info :
  info ∈ SessionService.get_upcoming_sessions class_name strftime db utcnow limit →
  ∃ s c,
    sessions db !! SessionBookingInfo.session_id info = Some s
    ∧ SessionModel.status s = SessionStatus.SCHEDULED
    ∧ utcnow 0%nat < SessionModel.start_time s
    ∧ classes db !! SessionModel.class_id s = Some c
    ∧ SessionBookingInfo.start_time info = SessionModel.start_time s
    ∧ SessionBookingInfo.available_spots info
      = Class.max_capacity c
        - BookingService.get_session_booking_count db
            (SessionBookingInfo.session_id info)
    ∧ SessionBookingInfo.booking_deadline info
      = Some (SessionModel.start_time s - timedelta_hours 2)
    ∧ (SessionBookingInfo.is_bookable info = true
       ↔ utcnow 0%nat < SessionModel.start_time s - timedelta_hours 2
         ∧ 0 < SessionBookingInfo.available_spots info).
Proof.
  unfold SessionService.get_upcoming_sessions. cbv zeta.
  pose proof (upcoming_rows db (utcnow 0%nat)) as [_ Hrows]. cbv zeta in *.
  set (rows := merge_sort _ _) in *.
  intros ([[i s] c] & -> & Hin%elem_of_take)%list_elem_of_fmap.
  destruct Hin as (k & Hk%list_elem_of_lookup_2 & _).
  apply Hrows in Hk as (Hs & Hfut & Hst & Hc).
  exists s, c. simpl. rewrite get_session_booking_count_same.
  repeat (split; [done|]).
  rewrite bool_decide_eq_true. split; intros [? ?]; (split; [done|]); lia.
Qed.

(** X19. [get_upcoming_sessions] returns at most [limit] entries, in ascending
    order of start time.  Every entry describes a stored SCHEDULED session
    that starts after the clock reading and whose class is stored: its
    available spots are the capacity of the class minus the active bookings,
    its deadline is the start minus 2 hours, and it is bookable exactly when
    now is strictly before the deadline and a spot is available.  A session
    of that kind that is not listed is left out only because the list is
    full, and it starts no earlier than every listed one. *)
Theorem get_upcoming_sessions_listed (class_name : Z → string)
    (strftime : datetime → string) (db : DB) (utcnow : Clock) (limit : nat) :
  let listed :=
    SessionService.get_upcoming_sessions class_name strftime db utcnow limit in
  (length listed ≤ limit)%nat
  ∧ StronglySorted
      (λ a b, SessionBookingInfo.start_time a ≤ SessionBookingInfo.start_time b) listed
  ∧ (∀ info, info ∈ listed →
       ∃ s c,
         sessions db !! SessionBookingInfo.session_id info = Some s
         ∧ SessionModel.status s = SessionStatus.SCHEDULED
         ∧ utcnow 0%nat < SessionModel.start_time s
         ∧ classes db !! SessionModel.class_id s = Some c
         ∧ SessionBookingInfo.start_time info = SessionModel.start_time s
         ∧ SessionBookingInfo.available_spots info
           = Class.max_capacity c
             - BookingService.get_session_booking_count db
                 (SessionBookingInfo.session_id info)
         ∧ SessionBookingInfo.booking_deadline info
           = Some (SessionModel.start_time s - timedelta_hours 2)
         ∧ (SessionBookingInfo.is_bookable info = true
            ↔ utcnow 0%nat < SessionModel.start_time s - timedelta_hours 2
              ∧ 0 < SessionBookingInfo.available_spots info))
  ∧ (∀ i s c,
       sessions db !! i = Some s →
       SessionModel.status s = SessionStatus.SCHEDULED →
       utcnow 0%nat < SessionModel.start_time s →
       classes db !! SessionModel.class_id s = Some c →
       (∃ info, info ∈ listed ∧ SessionBookingInfo.session_id info = i)
       ∨ (length listed = limit
          ∧ ∀ info, info ∈ listed →
                    SessionBookingInfo.start_time info ≤ SessionModel.start_time s)).
Proof.
  intros listed. unfold listed, SessionService.get_upcoming_sessions. cbv zeta.
  pose proof (upcoming_rows db (utcnow 0%nat)) as [Hsorted Hrows]. cbv zeta in *.
  set (rows := merge_sort _ _) in *.
  assert (StronglySorted (λ a b, SessionService.by_start_time a.1 b.1)
            (take limit rows)) as Htake.
  { rewrite <- (take_drop limit rows) in Hsorted.
    by apply StronglySorted_app_1_l in Hsorted. }
  split; [|split; [|split]].
  - rewrite length_fmap, length_take. lia.
  - eapply StronglySorted_fmap; [|exact Htake].
    intros [[i s] c] [[i' s'] c'] H. exact H.
  - apply get_upcoming_sessions_entry.
  - intros i s c Hs Hst Hfut Hc.
    assert ((i, s, c) ∈ take limit rows ++ drop limit rows) as Hin.
    { rewrite take_drop. apply Hrows. done. }
    apply elem_of_app in Hin as [Hin|Hin].
    + left. exists (SessionService.booking_info class_name strftime db
                      (utcnow 0%nat) (i, s, c)).
      split; [|done]. apply list_elem_of_fmap. by eexists.
    + right. split.
      * rewrite length_fmap, length_take.
        destruct (decide (limit ≤ length rows)%nat); [lia|].
        rewrite drop_ge in Hin by lia. inversion Hin.
      * intros info ([[i' s'] c'] & -> & Hin')%list_elem_of_fmap.
        rewrite <- (take_drop limit rows) in Hsorted.
        apply (StronglySorted_app_1_elem_of _ _ _ _ _ Hsorted Hin' Hin).
Qed.

(** X20. A session that [get_upcoming_sessions] lists as bookable can be booked:
    at the instant of the listing, [create_booking] for it succeeds for every
    user who holds no active booking of that session. *)
Theorem listed_bookable_can_book (class_name : Z → string)
    (strftime : datetime → string) (db : DB) (utcnow : Clock) (limit : nat)
    (info : SessionBookingInfo.t) (user_id : Z) (notes : option string) :
  info ∈ SessionService.get_upcoming_sessions class_name strftime db utcnow limit →
  SessionBookingInfo.is_bookable info = true →
  (∀ i b, bookings db !! i = Some b →
          ¬ BookingService.existing user_id (SessionBookingInfo.session_id info) (i, b)) →
  ∃ id booking db',
    BookingService.create_booking db (at_time (utcnow 0%nat))
      (BookingCreate.mk (SessionBookingInfo.session_id info) notes) user_id
    = Ok (id, booking, db')
    ∧ Booking.status booking = BookingStatus.PENDING.
Proof.
  intros Hin Hbook Hdup.
  destruct (get_upcoming_sessions_entry class_name strftime db utcnow limit info Hin)
    as (s & c & Hs & Hst & Hfut & Hc & _ & Hav & _ & Hb).
  apply Hb in Hbook as [Hdl Hspots].
  eexists _, _, _. split; [|shelve].
  apply (create_booking_created db _ _ notes user_id s c); try done.
  - lia.
  - unfold at_time. lia.
  Unshelve. reflexivity.
Qed.

(** X21. The listing and the booking disagree at the deadline itself: when now
    is exactly 2 hours before the start of a listed session with an available
    spot, the entry says that the session is not bookable, yet [create_booking]
    at that instant succeeds for every user who holds no active booking of
    it. *)
Theorem listed_deadline_edge (class_name : Z → string)
    (strftime : datetime → string) (db : DB) (utcnow : Clock) (limit : nat)
    (info : SessionBookingInfo.t) (user_id : Z) (notes : option string) :
  info ∈ SessionService.get_upcoming_sessions class_name strftime db utcnow limit →
  utcnow 0%nat = SessionBookingInfo.start_time info - timedelta_hours 2 →
  0 < SessionBookingInfo.available_spots info →
  (∀ i b, bookings db !! i = Some b →
          ¬ BookingService.existing user_id (SessionBookingInfo.session_id info) (i, b)) →
  SessionBookingInfo.is_bookable info = false
  ∧ ∃ id booking db',
      BookingService.create_booking db (at_time (utcnow 0%nat))
        (BookingCreate.mk (SessionBookingInfo.session_id info) notes) user_id
      = Ok (id, booking, db')
      ∧ Booking.status booking = BookingStatus.PENDING.
Proof.
  intros Hin Hnow Hspots Hdup.
  destruct (get_upcoming_sessions_entry class_name strftime db utcnow limit info Hin)
    as (s & c & Hs & Hst & Hfut & Hc & Hstart & Hav & _ & Hb).
  split.
  - destruct (SessionBookingInfo.is_bookable info); [|done].
    destruct Hb as [Hb _]. destruct (Hb eq_refl) as [Hlt _]. lia.
  - eexists _, _, _. split; [|shelve].
    apply (create_booking_created db _ _ notes user_id s c); try done.
    + lia.
    + unfold at_time. lia.
    Unshelve. reflexivity.
Qed.

(** X20 on [ex_db], listed at time 0, for user 7. *)
Lemma listed_bookable_can_book_witness :
  ∃ id booking db',
    BookingService.create_booking ex_db (at_time 0) (BookingCreate.mk 1 None) 7
    = Ok (id, booking, db')
    ∧ Booking.status booking = BookingStatus.PENDING.
Proof.
  apply (listed_bookable_can_book (λ _, "Yoga") (λ _, "day") ex_db (at_time 0) 5
           (SessionBookingInfo.mk 1 "Yoga - day" (timedelta_hours 100) 1 true
              (Some (timedelta_hours 98))) 7 None).
  - vm_compute. left.
  - reflexivity.
  - intros i b Hb. unfold ex_db in Hb. simpl in Hb. by rewrite lookup_empty in Hb.
Defined.

(** X21 on [ex_db], listed at hour 98, for user 7. *)
Lemma listed_deadline_edge_witness :
  SessionBookingInfo.is_bookable
    (SessionBookingInfo.mk 1 "Yoga - day" (timedelta_hours 100) 1 false
       (Some (timedelta_hours 98))) = false
  ∧ ∃ id booking db',
      BookingService.create_booking ex_db (at_time (timedelta_hours 98))
        (BookingCreate.mk 1 None) 7
      = Ok (id, booking, db')
      ∧ Booking.status booking = BookingStatus.PENDING.
Proof.
  apply (listed_deadline_edge (λ _, "Yoga") (λ _, "day") ex_db
           (at_time (timedelta_hours 98)) 5
           (SessionBookingInfo.mk 1 "Yoga - day" (timedelta_hours 100) 1 false
              (Some (timedelta_hours 98))) 7 None).
  - vm_compute. left.
  - by vm_compute.
  - by vm_compute.
  - intros i b Hb. unfold ex_db in Hb. simpl in Hb. by rewrite lookup_empty in Hb.
Defined.

(** ** Deactivating a user *)

Lemma cancel_each_filter utcnow k (P : Z * Booking.t → Prop)
    `{!∀ x, Decision (P x)} (m : gmap Z Booking.t) i :
  match m !! i with
  | None => SessionService.cancel_each utcnow k (all (filter P m)) m !! i = None
  | Some b =>
    if decide (P (i, b))
    then ∃ n, SessionService.cancel_each utcnow k (all (filter P m)) m !! i
              = Some (cascaded (utcnow n) b)
    else SessionService.cancel_each utcnow k (all (filter P m)) m !! i = Some b
  end.
Proof.
  assert (NoDup (all (filter P m)).*1) as Hnd by apply NoDup_fst_map_to_list.
  destruct (cancel_each_lookup utcnow (all (filter P m)) k m i Hnd) as [Hin Hout].
  destruct (m !! i) as [b|] eqn:Hb.
  - case_decide as HP.
    + apply Hin, elem_of_all_filter. done.
    + rewrite Hout; [done|].
      intros ([j x] & Hj & [Hx HPx]%elem_of_all_filter)%list_elem_of_fmap.
      simpl in Hj. subst j. rewrite Hb in Hx. injection Hx as ->. done.
  - rewrite Hout; [done|].
    intros ([j x] & Hj & [Hx _]%elem_of_all_filter)%list_elem_of_fmap.
    simpl in Hj. subst j. rewrite Hb in Hx. done.
Qed.

Lemma deactivate_user_found st utcnow uid u :
  users st !! uid = Some u →
  UserService.deactivate_user st utcnow uid
  = (true,
     mkStore
       (<[uid := User.set_updated_at (Some (utcnow 0%nat))
                   (User.set_is_active false u)]> (users st))
       (set_bookings
          (SessionService.cancel_each utcnow 2
             (all (filter (UserService.future_booking (tables st) (utcnow 1%nat) uid)
                     (bookings (tables st))))
             (bookings (tables st)))
          (tables st))).
Proof.
  intros Hu. unfold UserService.deactivate_user, UserService.get_user. by rewrite Hu.
Qed.

(** The bookings after [deactivate_user] on a stored user. *)
Lemma deactivate_user_bookings st utcnow uid u i :
  users st !! uid = Some u →
  let after := bookings (tables (UserService.deactivate_user st utcnow uid).2) in
  match bookings (tables st) !! i with
  | None => after !! i = None
  | Some b =>
    if decide (UserService.future_booking (tables st) (utcnow 1%nat) uid (i, b))
    then ∃ n, after !! i = Some (cascaded (utcnow n) b)
    else after !! i = Some b
  end.
Proof.
  intros Hu after. unfold after. rewrite (deactivate_user_found _ _ _ _ Hu). simpl.
  apply cancel_each_filter.
Qed.

(** X22. [deactivate_user] on a stored user returns [True], stores the user as
    inactive with the update timestamp and cancels exactly the PENDING and
    CONFIRMED bookings of that user whose session is stored and starts after
    the clock reading: each becomes CANCELLED with its update timestamp set
    and its other columns kept.  Bookings of sessions that have started,
    bookings of other users and inactive bookings are left as they were; no
    booking is added; sessions, classes and the other users are unchanged. *)
Theorem deactivate_user_cascade (st : Store) (utcnow : Clock) (user_id : Z)
    (user : User.t) :
  users st !! user_id = Some user →
  let out := UserService.deactivate_user st utcnow user_id in
  let future b :=
    Booking.user_id b = user_id
    ∧ is_active (Booking.status b)
    ∧ ∃ s, sessions (tables st) !! Booking.session_id b = Some s
           ∧ utcnow 1%nat < SessionModel.start_time s in
  out.1 = true
  ∧ users out.2 !! user_id
    = Some (User.mk (User.email user) (User.name user) (User.password_hash user)
              (User.role user) false (User.created_at user) (Some (utcnow 0%nat))
              (User.last_login user) (User.failed_login_attempts user))
  ∧ (∀ j, j ≠ user_id → users out.2 !! j = users st !! j)
  ∧ sessions (tables out.2) = sessions (tables st)
  ∧ classes (tables out.2) = classes (tables st)
  ∧ (∀ i b, bookings (tables st) !! i = Some b → future b →
            ∃ n, bookings (tables out.2) !! i
                 = Some (Booking.mk (Booking.user_id b) (Booking.session_id b)
                           (Booking.notes b) BookingStatus.CANCELLED
                           (Booking.booking_date b) (Some (utcnow n))
                           (Booking.admin_notes b)))
  ∧ (∀ i b, bookings (tables st) !! i = Some b → ¬ future b →
            bookings (tables out.2) !! i = Some b)
  ∧ (∀ i, bookings (tables st) !! i = None → bookings (tables out.2) !! i = None).
Proof.
  intros Hu out future.
  pose proof (λ i, deactivate_user_bookings st utcnow user_id user i Hu) as Hafter.
  cbv zeta in Hafter. fold out in Hafter. revert Hafter.
  unfold out. rewrite (deactivate_user_found _ _ _ _ Hu). simpl. intros Hafter.
  assert (∀ i b, UserService.future_booking (tables st) (utcnow 1%nat) user_id (i, b)
                 ↔ future b) as Hfut.
  { intros i b. unfold UserService.future_booking, future. simpl.
    destruct (sessions (tables st) !! Booking.session_id b) as [s|].
    - split.
      + intros (? & ? & ?). repeat (split; [done|]). by exists s.
      + intros (? & ? & s' & [= <-] & ?). done.
    - split; [by intros (? & ? & ?)|]. by intros (? & ? & s' & ? & ?). }
  split; [done|]. split; [apply lookup_insert_eq|].
  split; [intros j Hj; by apply lookup_insert_ne|].
  split; [done|]. split; [done|].
  split; [|split].
  - intros i b Hb Hf.
    specialize (Hafter i). rewrite Hb in Hafter.
    rewrite decide_True in Hafter by (by apply Hfut). done.
  - intros i b Hb Hf.
    specialize (Hafter i). rewrite Hb in Hafter.
    rewrite decide_False in Hafter by (by rewrite Hfut). done.
  - intros i Hb. specialize (Hafter i). by rewrite Hb in Hafter.
Qed.

(** X22 on [ex_store] and its user 7. *)
Lemma deactivate_user_cascade_witness :
  (UserService.deactivate_user ex_store (at_time 0) 7).1 = true.
Proof.
  apply (deactivate_user_cascade ex_store (at_time 0) 7
           (User.mk "ann@example.com" "Ann" "h1" "STUDENT" true 0 None None 0)).
  by vm_compute.
Defined.

Lemma deactivate_user_shrinks st utcnow uid :
  bookings_shrink (tables st) (tables (UserService.deactivate_user st utcnow uid).2).
Proof.
  destruct (users st !! uid) as [u|] eqn:Hu.
  - rewrite (deactivate_user_found _ _ _ _ Hu). simpl. intros i b' Hb'.
    pose proof (cancel_each_filter utcnow 2
                  (UserService.future_booking (tables st) (utcnow 1%nat) uid)
                  (bookings (tables st)) i) as H.
    destruct (bookings (tables st) !! i) as [b|];
      [|discriminate (eq_trans (eq_sym H) Hb')].
    exists b. split; [done|]. case_decide.
    + destruct H as [n H]. pose proof (eq_trans (eq_sym H) Hb') as Heq.
      injection Heq as <-.
      repeat (split; [done|]). intros Ha. by apply not_active_CANCELLED in Ha.
    + pose proof (eq_trans (eq_sym H) Hb') as Heq. by injection Heq as <-.
  - unfold UserService.deactivate_user, UserService.get_user. rewrite Hu.
    by apply bookings_shrink_same.
Qed.

(** X23. [deactivate_user] keeps the booking invariants: when the capacity
    invariant and the uniqueness of the active booking of a user for a
    session hold before the call, they hold after it, and no session gains an
    active booking. *)
Theorem deactivate_user_invariants (st : Store) (utcnow : Clock) (user_id : Z) :
  capacity_ok (tables st) →
  unique_active (tables st) →
  let st' := (UserService.deactivate_user st utcnow user_id).2 in
  capacity_ok (tables st')
  ∧ unique_active (tables st')
  ∧ (∀ sid, BookingService.get_session_booking_count (tables st') sid
            ≤ BookingService.get_session_booking_count (tables st) sid).
Proof.
  intros Hcap Huniq st'.
  assert (∀ sid, BookingService.get_session_booking_count (tables st') sid
                 ≤ BookingService.get_session_booking_count (tables st) sid) as Hle.
  { intros sid. unfold st'. destruct (users st !! user_id) as [u|] eqn:Hu.
    - rewrite (deactivate_user_found _ _ _ _ Hu). simpl.
      unfold BookingService.get_session_booking_count. simpl.
      apply Nat2Z.inj_le, cancel_each_count_le.
    - unfold UserService.deactivate_user, UserService.get_user. by rewrite Hu. }
  split; [|split; [|done]].
  - revert Hcap. apply capacity_ok_mono; [| |done].
    + unfold st'. destruct (users st !! user_id) as [u|] eqn:Hu.
      * by rewrite (deactivate_user_found _ _ _ _ Hu).
      * unfold UserService.deactivate_user, UserService.get_user. by rewrite Hu.
    + intros sid s' Hs'. exists s'. split; [|done].
      unfold st' in Hs'. destruct (users st !! user_id) as [u|] eqn:Hu.
      * by rewrite (deactivate_user_found _ _ _ _ Hu) in Hs'.
      * unfold UserService.deactivate_user, UserService.get_user in Hs'.
        by rewrite Hu in Hs'.
  - revert Huniq. apply bookings_shrink_unique, deactivate_user_shrinks.
Qed.

Lemma ex_store_two_seats_capacity_ok : capacity_ok (tables ex_store_two_seats).
Proof.
  intros sid s c Hs Hc. simpl in Hs, Hc.
  unfold ex_db_two_seats_booked, ex_db_two_seats, ex_db_two_rooms in Hs, Hc.
  simpl in Hs, Hc.
  apply lookup_singleton_Some in Hc as [_ <-].
  rewrite lookup_insert in Hs. case_decide as H2.
  - subst sid. by vm_compute.
  - apply lookup_singleton_Some in Hs as [<- _]. by vm_compute.
Qed.

Lemma ex_store_two_seats_unique_active : unique_active (tables ex_store_two_seats).
Proof.
  intros i j b1 b2 Hi Hj Hu Hs Ha1 Ha2. simpl in Hi, Hj.
  unfold ex_db_two_seats_booked in Hi, Hj. simpl in Hi, Hj.
  assert (∀ k b,
            (<[4 := Booking.mk 7 2 None BookingStatus.CANCELLED 0 None None]>
               (<[3 := Booking.mk 8 2 None BookingStatus.PENDING 0 None None]>
                  (<[2 := Booking.mk 7 1 None BookingStatus.PENDING 0 None None]>
                     ({[1 := Booking.mk 7 2 None BookingStatus.CONFIRMED 0 None None]}
                      : gmap Z Booking.t)))) !! k = Some b →
            is_active (Booking.status b) →
            k = 2 * Booking.user_id b - Booking.session_id b - 11) as Hkey.
  { intros k b Hk Ha.
    repeat (rewrite lookup_insert in Hk; case_decide;
            [injection Hk as <-; subst k; simpl in *;
             first [done | by destruct Ha]|]).
    by apply lookup_singleton_Some in Hk as [<- <-]. }
  rewrite (Hkey i b1 Hi Ha1), (Hkey j b2 Hj Ha2). lia.
Qed.

(** X23 on [ex_store_two_seats], for user 7, who holds two active bookings of
    sessions that start at hour 100: the invariants hold before the call, and
    the cascade takes the count of session 2 from two to one. *)
Lemma deactivate_user_invariants_witness :
  (capacity_ok (tables (UserService.deactivate_user ex_store_two_seats (at_time 0) 7).2)
   ∧ unique_active
       (tables (UserService.deactivate_user ex_store_two_seats (at_time 0) 7).2))
  ∧ BookingService.get_session_booking_count (tables ex_store_two_seats) 2 = 2
  ∧ BookingService.get_session_booking_count
      (tables (UserService.deactivate_user ex_store_two_seats (at_time 0) 7).2) 2 = 1.
Proof.
  split; [|split; by vm_compute].
  destruct (deactivate_user_invariants ex_store_two_seats (at_time 0) 7)
    as (Hcap & Huniq & _).
  - apply ex_store_two_seats_capacity_ok.
  - apply ex_store_two_seats_unique_active.
  - split; [exact Hcap|exact Huniq].
Defined.

(** X24. Activation does not undo a deactivation: after [deactivate_user] and
    then [activate_user] on a stored user, the user is active again with the
    same email, name, role and password hash, but the bookings are those the
    deactivation left, so the cancelled ones stay CANCELLED. *)
Theorem activate_after_deactivate (st : Store) (clock1 clock2 : Clock) (user_id : Z)
    (user : User.t) :
  users st !! user_id = Some user →
  let st1 := (UserService.deactivate_user st clock1 user_id).2 in
  let out2 := UserService.activate_user st1 clock2 user_id in
  out2.1 = true
  ∧ users out2.2 !! user_id
    = Some (User.mk (User.email user) (User.name user) (User.password_hash user)
              (User.role user) true (User.created_at user) (Some (clock2 0%nat))
              (User.last_login user) (User.failed_login_attempts user))
  ∧ tables out2.2 = tables st1
  ∧ (∀ i b s, bookings (tables st) !! i = Some b →
              Booking.user_id b = user_id →
              is_active (Booking.status b) →
              sessions (tables st) !! Booking.session_id b = Some s →
              clock1 1%nat < SessionModel.start_time s →
              Booking.status <$> bookings (tables out2.2) !! i
              = Some BookingStatus.CANCELLED).
Proof.
  intros Hu st1 out2.
  pose proof (λ i, deactivate_user_bookings st clock1 user_id user i Hu) as Hafter.
  cbv zeta in Hafter. fold st1 in Hafter.
  assert (users st1 !! user_id
          = Some (User.set_updated_at (Some (clock1 0%nat))
                    (User.set_is_active false user))) as Hu1.
  { unfold st1. rewrite (deactivate_user_found _ _ _ _ Hu). apply lookup_insert_eq. }
  unfold out2, UserService.activate_user, UserService.get_user. rewrite Hu1. simpl.
  split; [done|]. split; [apply lookup_insert_eq|]. split; [done|].
  intros i b s Hb Hbu Hba Hs Hfut.
  specialize (Hafter i). rewrite Hb in Hafter.
  rewrite decide_True in Hafter.
  - destruct Hafter as [n Hn]. by rewrite Hn.
  - unfold UserService.future_booking. simpl. by rewrite Hs.
Qed.

(** X24 on [ex_store] and its user 7. *)
Lemma activate_after_deactivate_witness :
  (UserService.activate_user
     (UserService.deactivate_user ex_store (at_time 0) 7).2 (at_time 9) 7).1 = true.
Proof.
  apply (activate_after_deactivate ex_store (at_time 0) (at_time 9) 7
           (User.mk "ann@example.com" "Ann" "h1" "STUDENT" true 0 None None 0)).
  by vm_compute.
Defined.

(** ** Users: emails and passwords *)

Lemma get_user_by_email_None st email :
  UserService.get_user_by_email st email = None
  ↔ ∀ i u, users st !! i = Some u → User.email u ≠ email.
Proof. unfold UserService.get_user_by_email. by rewrite first_filter_None. Qed.

Lemma unique_emails_set st st' i u' :
  users st' = <[i := u']> (users st) →
  (∀ j x, j ≠ i → users st !! j = Some x → User.email x ≠ User.email u') →
  unique_emails st → unique_emails st'.
Proof.
  intros Hst Hother Hu j k u1 u2. rewrite Hst, !lookup_insert.
  destruct (decide (i = j)) as [<-|Hj]; destruct (decide (i = k)) as [<-|Hk].
  - done.
  - intros [= <-] Hk2 Heq. destruct (Hother k u2); auto.
  - intros Hj1 [= <-] Heq. destruct (Hother j u1); auto.
  - apply Hu.
Qed.

Lemma unique_emails_keep st st' i u u' :
  users st !! i = Some u →
  users st' = <[i := u']> (users st) →
  User.email u' = User.email u →
  unique_emails st → unique_emails st'.
Proof.
  intros Hi Hst Heq Hu. apply (unique_emails_set st st' i u'); [done| |done].
  intros j x Hj Hx Hex. apply Hj. apply (Hu j i x u); [done|done|congruence].
Qed.

Lemma user_step_unique_emails `{UnicodeData} st utcnow op :
  unique_emails st → emails_given op → unique_emails (user_step st utcnow op).
Proof.
  intros Hu Hgiven. destruct op as [t h d|i d|i|i|i|i]; simpl.
  - unfold UserService.create_user.
    destruct (UserService.get_user_by_email st (UserCreate.email d)) eqn:He; [done|].
    destruct (Auth.get_password_hash h (UserCreate.password d)); [|done]. simpl.
    rewrite get_user_by_email_None in He.
    eapply unique_emails_set; [reflexivity| |done].
    intros j x _ Hx. simpl. by apply (He j x).
  - unfold UserService.update_user, UserService.get_user.
    destruct (users st !! i) as [u|] eqn:Hi; [|done].
    destruct (decide (UserService.changes_email d u)) as [Hch|Hch].
    + destruct (UserService.get_user_by_email st _) eqn:He; [done|]. simpl.
      rewrite get_user_by_email_None in He.
      eapply unique_emails_set; [reflexivity| |done].
      intros j x _ Hx. simpl.
      destruct d as [n [e|] r a]; [|by destruct Hch].
      simpl in *. destruct n, r, a; simpl; by apply (He j x).
    + simpl. eapply (unique_emails_keep st _ i u); [done|reflexivity| |done].
      simpl in Hgiven. unfold UserService.changes_email in Hch.
      destruct d as [n [e|] r a]; simpl in *.
      * assert (e = User.email u) as ->.
        { destruct (decide (e = User.email u)); [done|].
          destruct Hch. split; [|congruence]. intros ->. by apply Hgiven. }
        by destruct n, r, a.
      * by destruct n, r, a.
  - unfold UserService.activate_user, UserService.get_user.
    destruct (users st !! i) as [u|] eqn:Hi; [|done]. simpl.
    by eapply (unique_emails_keep st _ i u).
  - destruct (users st !! i) as [u|] eqn:Hi.
    + rewrite (deactivate_user_found _ _ _ _ Hi). simpl.
      by eapply (unique_emails_keep st _ i u).
    + unfold UserService.deactivate_user, UserService.get_user. by rewrite Hi.
  - unfold UserService.promote_to_admin, UserService.get_user.
    destruct (users st !! i) as [u|] eqn:Hi; [|done]. simpl.
    by eapply (unique_emails_keep st _ i u).
  - unfold UserService.demote_from_admin, UserService.get_user.
    destruct (users st !! i) as [u|] eqn:Hi; [|done]. simpl.
    by eapply (unique_emails_keep st _ i u).
Qed.

(** X25. The user service keeps emails unique without relying on the unique
    index of the table: when no two stored users share an email, no sequence
    of [create_user], [update_user], [activate_user], [deactivate_user],
    [promote_to_admin] and [demote_from_admin] calls (with non-empty emails in
    the patches) makes two users share one. *)
Theorem user_run_unique_emails `{UnicodeData} (calls : list (Clock * UserOp))
    (st : Store) :
  unique_emails st →
  Forall (λ call, emails_given call.2) calls →
  unique_emails (user_run st calls).
Proof.
  revert st. induction calls as [|[utcnow op] rest IH]; intros st Hu Hall; [done|].
  apply Forall_cons in Hall as [Hop Hrest]. simpl. apply IH; [|done].
  by apply user_step_unique_emails.
Qed.

Lemma ex_store_unique_emails : unique_emails ex_store.
Proof.
  intros i j u1 u2. unfold ex_store. simpl.
  destruct (decide (i = 7)) as [->|]; destruct (decide (j = 7)) as [->|];
    rewrite ?lookup_insert_eq, ?lookup_insert_ne, ?lookup_singleton_Some by done;
    intros Hi Hj He; [done|..].
  - destruct Hj as [<- <-]. injection Hi as <-. discriminate He.
  - destruct Hi as [<- <-]. injection Hj as <-. discriminate He.
  - destruct Hi as [<- _], Hj as [<- _]. done.
Qed.

(** X25 on [ex_store] and the calls of [taken_email_calls]. *)
Lemma user_run_unique_emails_witness :
  unique_emails (@user_run decimal_below_06F0 ex_store taken_email_calls).
Proof.
  apply (@user_run_unique_emails decimal_below_06F0 taken_email_calls ex_store).
  - apply ex_store_unique_emails.
  - repeat constructor. simpl. discriminate.
Defined.

Lemma search_range_spec lo hi (s : text) :
  existsb (Auth.in_range lo hi) s = true ↔ ∃ c, c ∈ s ∧ lo ≤ c ≤ hi.
Proof.
  unfold Auth.in_range. rewrite existsb_exists.
  split; intros (c & Hc & Hr); exists c.
  - apply list_elem_of_In in Hc. split; [done|].
    apply andb_true_iff in Hr as [?%Z.leb_le ?%Z.leb_le]. lia.
  - split; [by apply list_elem_of_In|].
    apply andb_true_iff. split; apply Z.leb_le; lia.
Qed.

Lemma search_digit_spec `{UnicodeData} (s : text) :
  Auth.search_digit s = true ↔ ∃ c, c ∈ s ∧ decimal c = true.
Proof.
  unfold Auth.search_digit. rewrite existsb_exists.
  split; intros (c & Hc & Hr); exists c; (split; [by apply list_elem_of_In|done]).
Qed.

(** A password that the validator of [UserCreate] returned passes
    [validate_password]. *)
Lemma schema_password_valid `{UnicodeData} password :
  UserCreate.validate_password password = Return password →
  Auth.validate_password password = Return true.
Proof.
  unfold Auth.validate_password, UserCreate.validate_password,
    Auth.MIN_PASSWORD_LENGTH.
  by repeat case_match.
Qed.

(** X26. [validate_password] accepts a password exactly when it has at least 8
    characters (code points), an uppercase letter A-Z, a lowercase letter a-z
    and a character that [\d] matches, that is a decimal digit of the Unicode
    database, of which 0-9 are ten; it never returns [False]; and the
    validators of [UserCreate] and of [PasswordChange] accept exactly the same
    passwords. *)
Theorem validate_password_accepts `{UnicodeData} (password : text) :
  (Auth.validate_password password = Return true
   ↔ (8 ≤ length password)%nat
     ∧ (∃ c, c ∈ password ∧ 65 ≤ c ≤ 90)
     ∧ (∃ c, c ∈ password ∧ 97 ≤ c ≤ 122)
     ∧ (∃ c, c ∈ password ∧ decimal c = true))
  ∧ Auth.validate_password password ≠ Return false
  ∧ (UserCreate.validate_password password = Return password
     ↔ Auth.validate_password password = Return true)
  ∧ (PasswordChange.validate_new_password password = Return password
     ↔ Auth.validate_password password = Return true).
Proof.
  rewrite <- !search_range_spec, <- search_digit_spec.
  fold (Auth.search_upper password). fold (Auth.search_lower password).
  unfold Auth.validate_password, UserCreate.validate_password,
    PasswordChange.validate_new_password, Auth.MIN_PASSWORD_LENGTH.
  destruct (decide (length password < 8)%nat).
  { split; [split; [done|lia]|]. split; [done|]. split; split; done. }
  destruct (Auth.search_upper password); simpl.
  2:{ split; [split; [done|by intros (_ & ? & _)]|].
      split; [done|]. split; split; done. }
  destruct (Auth.search_lower password); simpl.
  2:{ split; [split; [done|by intros (_ & _ & ? & _)]|].
      split; [done|]. split; split; done. }
  destruct (Auth.search_digit password); simpl.
  2:{ split; [split; [done|by intros (_ & _ & _ & ?)]|].
      split; [done|]. split; split; done. }
  split; [split; [intros _; repeat split; lia|done]|].
  split; [done|]. split; split; done.
Qed.

(** Five passwords under [decimal_below_06F0]: accepted with the digit 0,
    accepted with the Arabic-Indic digit three (U+0663) as its only digit, too
    short, without digit, without uppercase. *)
Example validate_password_examples :
  @Auth.validate_password decimal_below_06F0 (code_points "Passw0rd") = Return true
  ∧ @Auth.validate_password decimal_below_06F0 (code_points "Abcdefg" ++ [1635])
    = Return true
  ∧ @Auth.validate_password decimal_below_06F0 (code_points "Pa5s")
    = Raised (PasswordValidationError "Password must be at least 8 characters long")
  ∧ @Auth.validate_password decimal_below_06F0 (code_points "Password")
    = Raised (PasswordValidationError "Password must contain at least one digit")
  ∧ @Auth.validate_password decimal_below_06F0 (code_points "passw0rd")
    = Raised (PasswordValidationError
                "Password must contain at least one uppercase letter").
Proof. repeat split; by vm_compute. Qed.

(** X27. [create_user] raises the email error exactly when a stored user has
    the email of the request, and checks the email before the password.  Its
    other failures are the [PasswordValidationError] that [validate_password]
    raises for the password of the request and, for a password that passed,
    the exception that [pwd_context.hash] raised; each of them is raised
    exactly in that case. *)
Theorem create_user_checks `{UnicodeData} (st : Store) (created_at : datetime)
    (hashing : hash_outcome) (user_data : UserCreate.t) :
  let result := UserService.create_user st created_at hashing user_data in
  let taken := ∃ i u, users st !! i = Some u
                      ∧ User.email u = UserCreate.email user_data in
  let checked := Auth.validate_password (UserCreate.password user_data) in
  (result = Raised (UserValueError "User with this email already exists") ↔ taken)
  ∧ (∀ msg, result = Raised (PasswordValidationError msg)
            ↔ ¬ taken ∧ checked = Raised (PasswordValidationError msg))
  ∧ (∀ msg, result = Raised (HashingError msg)
            ↔ ¬ taken ∧ checked = Return true ∧ hashing = HashRaised msg)
  ∧ (∀ e, result = Raised e →
          e = UserValueError "User with this email already exists"
          ∨ (∃ msg, e = PasswordValidationError msg)
          ∨ (∃ msg, e = HashingError msg)).
Proof.
  intros result taken checked.
  assert (∀ e, checked = Raised e → ∃ msg, e = PasswordValidationError msg) as Hkind.
  { unfold checked, Auth.validate_password. intros e He.
    repeat case_match; simplify_eq; eauto. }
  assert (∀ b, checked = Return b → b = true) as Htrue.
  { unfold checked, Auth.validate_password. intros b Hb.
    repeat case_match; simplify_eq; eauto. }
  unfold result, UserService.create_user.
  destruct (UserService.get_user_by_email st _) as [[i u]|] eqn:He.
  - apply first_filter_Some in He as [Hi Hu]. simpl in Hi, Hu.
    assert taken as Ht by (by exists i, u).
    split; [by split|]. split; [|split].
    + intros msg. split; [discriminate|]. by intros [? _].
    + intros msg. split; [discriminate|]. by intros [? _].
    + intros e [= <-]. by left.
  - rewrite get_user_by_email_None in He.
    assert (¬ taken) as Hfree.
    { intros (i & u & Hi & Hu). by destruct (He i u). }
    unfold Auth.get_password_hash. fold checked.
    clearbody checked. destruct checked as [b|e].
    + rewrite (Htrue b eq_refl). destruct hashing as [h|m].
      * split; [split; [discriminate|done]|]. split; [|split].
        -- intros msg. split; [discriminate|]. intros [_ ?]. discriminate.
        -- intros msg. split; [discriminate|]. intros (_ & _ & ?). discriminate.
        -- intros e ?. discriminate.
      * split; [split; [discriminate|done]|]. split; [|split].
        -- intros msg. split; [discriminate|]. intros [_ ?]. discriminate.
        -- intros msg. split.
           ++ intros [= <-]. done.
           ++ intros (_ & _ & [= <-]). done.
        -- intros e [= <-]. right. right. eauto.
    + destruct (Hkind e eq_refl) as [m ->].
      split; [split; [discriminate|done]|]. split; [|split].
      * intros msg. split.
        -- intros [= <-]. done.
        -- intros (_ & [= <-]). done.
      * intros msg. split; [discriminate|]. intros (_ & ? & _). discriminate.
      * intros e [= <-]. right. left. eauto.
Qed.

(** X28. For a free email, a password that the validator of [UserCreate]
    accepted and a call of [pwd_context.hash] that returns a hash,
    [create_user] does not raise: it stores an active user with that hash and
    the role of the request under a key that was free and leaves the other
    users and tables as they were; after it a registration with that email is
    refused. *)
Theorem create_user_registers `{UnicodeData} (st : Store) (created_at : datetime)
    (hashing : hash_outcome) (hashed : string) (user_data : UserCreate.t) :
  (∀ i u, users st !! i = Some u → User.email u ≠ UserCreate.email user_data) →
  UserCreate.validate_password (UserCreate.password user_data)
  = Return (UserCreate.password user_data) →
  hashing = Hashed hashed →
  ∃ id st',
    UserService.create_user st created_at hashing user_data
    = Return (id,
              User.mk (UserCreate.email user_data) (UserCreate.name user_data)
                hashed (UserRole.value (UserCreate.role user_data)) true
                created_at None None 0,
              st')
    ∧ users st !! id = None
    ∧ UserService.get_user st' id
      = Some (User.mk (UserCreate.email user_data) (UserCreate.name user_data)
                hashed (UserRole.value (UserCreate.role user_data)) true
                created_at None None 0)
    ∧ (∀ j, j ≠ id → UserService.get_user st' j = UserService.get_user st j)
    ∧ tables st' = tables st
    ∧ ∀ t2 h2 again,
        UserCreate.email again = UserCreate.email user_data →
        UserService.create_user st' t2 h2 again
        = Raised (UserValueError "User with this email already exists").
Proof.
  intros Hfree Hschema ->. apply get_user_by_email_None in Hfree.
  unfold UserService.create_user. rewrite Hfree.
  apply schema_password_valid in Hschema.
  unfold Auth.get_password_hash. rewrite Hschema.
  eexists _, _. split; [reflexivity|].
  split; [apply fresh_id_fresh|]. split; [apply lookup_insert_eq|].
  split; [intros j Hj; by apply lookup_insert_ne|]. split; [done|].
  intros t2 h2 again Hsame.
  destruct (UserService.get_user_by_email _ (UserCreate.email again)) eqn:He; [done|].
  rewrite get_user_by_email_None in He.
  destruct (He (fresh_id (users st))
              (User.mk (UserCreate.email user_data) (UserCreate.name user_data)
                 hashed (UserRole.value (UserCreate.role user_data)) true
                 created_at None None 0)); [apply lookup_insert_eq|done].
Qed.

(** X28 on [ex_store] and a registration of cy@example.com whose password has
    the Arabic-Indic digit three as its only digit. *)
Lemma create_user_registers_witness :
  ∃ id st',
    @UserService.create_user decimal_below_06F0 ex_store 3 (Hashed "h3")
      (UserCreate.mk "cy@example.com" "Cy" UserRole.STUDENT
         (code_points "Abcdefg" ++ [1635]) (code_points "Abcdefg" ++ [1635]))
    = Return (id,
              User.mk "cy@example.com" "Cy" "h3" "STUDENT" true 3 None None 0,
              st')
    ∧ users ex_store !! id = None.
Proof.
  destruct (@create_user_registers decimal_below_06F0 ex_store 3 (Hashed "h3") "h3"
              (UserCreate.mk "cy@example.com" "Cy" UserRole.STUDENT
                 (code_points "Abcdefg" ++ [1635]) (code_points "Abcdefg" ++ [1635])))
    as (id & st' & Hc & Hid & _).
  - intros i u. unfold ex_store. simpl.
    destruct (decide (i = 7)) as [->|].
    + rewrite lookup_insert_eq. by intros [= <-].
    + rewrite lookup_insert_ne by done. by intros [<- <-]%lookup_singleton_Some.
  - by vm_compute.
  - reflexivity.
  - exists id, st'. split; [exact Hc|exact Hid].
Defined.

Lemma elem_of_get_admin_users st i u :
  (i, u) ∈ UserService.get_admin_users st
  ↔ users st !! i = Some u ∧ User.role u = "ADMIN" ∧ User.is_active u = true.
Proof. unfold UserService.get_admin_users. by rewrite elem_of_all_filter. Qed.

(** X29. [get_admin_users] follows the role and the activation of a stored
    user: after [promote_to_admin] the user is listed exactly when active,
    after [demote_from_admin] and after [deactivate_user] the user is not
    listed, and none of the three calls changes whether another user is
    listed. *)
Theorem get_admin_users_follows (st : Store) (utcnow : Clock) (user_id : Z)
    (user : User.t) :
  users st !! user_id = Some user →
  let promoted := (UserService.promote_to_admin st utcnow user_id).2 in
  let demoted := (UserService.demote_from_admin st utcnow user_id).2 in
  let deactivated := (UserService.deactivate_user st utcnow user_id).2 in
  (user_id ∈ (UserService.get_admin_users promoted).*1
   ↔ User.is_active user = true)
  ∧ (user_id ∉ (UserService.get_admin_users demoted).*1)
  ∧ (user_id ∉ (UserService.get_admin_users deactivated).*1)
  ∧ ∀ st', st' = promoted ∨ st' = demoted ∨ st' = deactivated →
      ∀ j u, j ≠ user_id →
        ((j, u) ∈ UserService.get_admin_users st'
         ↔ (j, u) ∈ UserService.get_admin_users st).
Proof.
  intros Hu promoted demoted deactivated.
  assert (users promoted
          = <[user_id := User.set_updated_at (Some (utcnow 0%nat))
                           (User.set_role "ADMIN" user)]> (users st)) as Hp.
  { unfold promoted, UserService.promote_to_admin, UserService.get_user.
    by rewrite Hu. }
  assert (users demoted
          = <[user_id := User.set_updated_at (Some (utcnow 0%nat))
                           (User.set_role "STUDENT" user)]> (users st)) as Hd.
  { unfold demoted, UserService.demote_from_admin, UserService.get_user.
    by rewrite Hu. }
  assert (users deactivated
          = <[user_id := User.set_updated_at (Some (utcnow 0%nat))
                           (User.set_is_active false user)]> (users st)) as Hx.
  { unfold deactivated. by rewrite (deactivate_user_found _ _ _ _ Hu). }
  split; [|split; [|split]].
  - rewrite list_elem_of_fmap. split.
    + intros ([j u] & -> & Hin). apply elem_of_get_admin_users in Hin.
      simpl in Hin. rewrite Hp, lookup_insert_eq in Hin.
      by destruct Hin as ([= <-] & _ & Hact).
    + intros Hact. eexists (user_id, _). split; [done|].
      apply elem_of_get_admin_users. rewrite Hp, lookup_insert_eq. done.
  - rewrite list_elem_of_fmap. intros ([j u] & -> & Hin).
    apply elem_of_get_admin_users in Hin. simpl in Hin.
    rewrite Hd, lookup_insert_eq in Hin. by destruct Hin as ([= <-] & Hrole & _).
  - rewrite list_elem_of_fmap. intros ([j u] & -> & Hin).
    apply elem_of_get_admin_users in Hin. simpl in Hin.
    rewrite Hx, lookup_insert_eq in Hin. by destruct Hin as ([= <-] & _ & Hact).
  - intros st' Hst' j u Hj. rewrite !elem_of_get_admin_users.
    assert (users st' !! j = users st !! j) as ->; [|done].
    destruct Hst' as [-> | [-> | ->]]; rewrite ?Hp, ?Hd, ?Hx;
      by apply lookup_insert_ne.
Qed.

(** X29 on the student 7 of [ex_store]. *)
Lemma get_admin_users_follows_witness :
  7 ∈ (UserService.get_admin_users
         (UserService.promote_to_admin ex_store (at_time 0) 7).2).*1
  ↔ true = true.
Proof.
  apply (get_admin_users_follows ex_store (at_time 0) 7
           (User.mk "ann@example.com" "Ann" "h1" "STUDENT" true 0 None None 0)).
  reflexivity.
Defined.
